(** * Swarm Janitor: a shallow embedding of [scripts/swarm_janitor.py] and
    [scripts/cleanup.py], and the properties of its scanner, archiver and
    orchestrator.

    Conventions of the embedding.
    - A [datetime] is an integer number of microseconds since the epoch (the
      resolution of Python's [datetime]); [st_mtime] and [st_ctime] are given
      in the same unit, and a registry [updatedAt] in milliseconds.  Time zones
      and floating-point rounding of time stamps are not modelled.
    - Text ([str]) is a [string] whose characters are the code points below
      256.  A path is its directory and its final component, after
      [expanduser].
    - A directory entry can be one for which [stat] finds no file (a
      symbolic link whose target is gone): [glob] and [listdir] list it,
      [stat] raises [FileNotFoundError] and [exists] answers false.
    - Python code that raises is a computation that returns [Raise e]; the
      effects made before the exception stay in the state, as in Python.
    - The objects of one run (the janitor's [stats], the archiver's counters),
      the filesystem, the standard input and the emitted log live in one
      [State] threaded by the monad [M]. *)

From Stdlib Require Import ZArith List String Ascii Bool Lia Sorted Permutation DecimalString.
Import ListNotations.

Local Open Scope string_scope.
Local Open Scope Z_scope.
Local Open Scope list_scope.

(** ** Text *)

Module Text.

(** [needle in hay] on Python strings. *)
Fixpoint contains (needle hay : string) : bool :=
  String.prefix needle hay ||
  match hay with
  | EmptyString => false
  | String _ rest => contains needle rest
  end.

(** [s.endswith(suffix)] *)
Definition endswith (s suffix : string) : bool :=
  let ls := String.length s in
  let lx := String.length suffix in
  (lx <=? ls)%nat && String.eqb (substring (ls - lx) lx s) suffix.

(** [str.isspace] on one character: the code points below 256 that Python
    counts as white space. *)
Definition isspace (c : ascii) : bool :=
  let n := nat_of_ascii c in
  ((9 <=? n) && (n <=? 13) || (28 <=? n) && (n <=? 32) || (n =? 133) || (n =? 160))%nat.

(** [str.lower] on one character (ASCII and Latin-1 capitals). *)
Definition lower_char (c : ascii) : ascii :=
  let n := nat_of_ascii c in
  if ((65 <=? n) && (n <=? 90) || (192 <=? n) && (n <=? 222) && negb (n =? 215))%nat
  then ascii_of_nat (n + 32) else c.

Fixpoint lower (s : string) : string :=
  match s with
  | EmptyString => EmptyString
  | String c rest => String (lower_char c) (lower rest)
  end.

Fixpoint lstrip (s : string) : string :=
  match s with
  | EmptyString => EmptyString
  | String c rest => if isspace c then lstrip rest else s
  end.

Fixpoint rstrip (s : string) : string :=
  match s with
  | EmptyString => EmptyString
  | String c rest =>
      match rstrip rest with
      | EmptyString => if isspace c then EmptyString else String c EmptyString
      | kept => String c kept
      end
  end.

(** [s.strip()] *)
Definition strip (s : string) : string := rstrip (lstrip s).

(** Every character is white space (true of the empty text). *)
Fixpoint blank (s : string) : bool :=
  match s with
  | EmptyString => true
  | String c rest => isspace c && blank rest
  end.

(** [s.rfind('.')], scanning from index [i] with the last hit in [acc]. *)
Fixpoint rfind_dot (s : string) (i : nat) (acc : option nat) : option nat :=
  match s with
  | EmptyString => acc
  | String c rest => rfind_dot rest (S i) (if Ascii.eqb c "."%char then Some i else acc)
  end.

(** [PurePath.stem]: the name without its last suffix; a leading or a
    trailing dot starts no suffix. *)
Definition stem (name : string) : string :=
  match rfind_dot name 0 None with
  | Some i =>
      if ((0 <? i) && (i <? String.length name - 1))%nat
      then substring 0 i name else name
  | None => name
  end.

(** [str(n)] for an integer. *)
Definition of_Z (z : Z) : string := NilZero.string_of_int (Z.to_int z).

End Text.

(** ** Python values, exceptions, time *)

(** The values a registry field can hold after [json.load].  A list or a dict
    in such a position is seen by the code only through [str] and its truth
    value, which [PContainer] carries.  JSON numbers are integers. *)
Inductive pyval : Type :=
| PNone
| PBool (b : bool)
| PInt (z : Z)
| PStr (s : string)
| PContainer (repr : string) (nonempty : bool).

Definition py_str (v : pyval) : string :=
  match v with
  | PNone => "None"
  | PBool true => "True"
  | PBool false => "False"
  | PInt z => Text.of_Z z
  | PStr s => s
  | PContainer repr _ => repr
  end.

(** Truth value of [if v:]. *)
Definition py_truthy (v : pyval) : bool :=
  match v with
  | PNone => false
  | PBool b => b
  | PInt z => negb (z =? 0)%Z
  | PStr s => negb (String.eqb s "")
  | PContainer _ nonempty => nonempty
  end.

Inductive exn : Type :=
| FileNotFoundError
| PermissionError
| OSError
| EOFError
| TypeError
| AttributeError
| ValueError
| OverflowError.

Inductive result (A : Type) : Type :=
| Ok (a : A)
| Raise (e : exn).
Arguments Ok {A} a.
Arguments Raise {A} e.

Module Datetime.

Definition us_per_second : Z := 1000000.
Definition hours (n : Z) : Z := n * 3600 * us_per_second.
Definition days (n : Z) : Z := n * 86400 * us_per_second.

(** [datetime.min] and [datetime.max] as time stamps: years 1 to 9999. *)
Definition min_us : Z := -62135596800 * us_per_second.
Definition max_us : Z := 253402300799 * us_per_second + 999999.

(** [timedelta.max.days] *)
Definition max_timedelta_days : Z := 999999999.

(** [datetime.fromtimestamp], which raises outside the supported years.  To
    detect a repeated local hour it also converts the time one day earlier,
    so that a time in the first day of year 1 raises as well ("year 0 is out
    of range"). *)
Definition fromtimestamp (t_us : Z) : result Z :=
  if ((min_us + days 1 <=? t_us) && (t_us <=? max_us))%Z then Ok t_us else Raise ValueError.

(** [timedelta(days=n)], which raises beyond [timedelta.max]. *)
Definition timedelta_of_days (n : Z) : result Z :=
  if (Z.abs n <=? max_timedelta_days)%Z then Ok (days n) else Raise OverflowError.

(** [d - delta] for a [datetime] and a [timedelta], which raises when the
    result leaves the supported years. *)
Definition minus (d delta : Z) : result Z :=
  if ((min_us <=? d - delta) && (d - delta <=? max_us))%Z
  then Ok (d - delta) else Raise OverflowError.

(** [updated_at / 1000] for a registry value in milliseconds, as the time
    stamp it denotes; only numbers (and booleans, which are numbers in
    Python) can be divided. *)
Definition millis_to_timestamp (v : pyval) : result Z :=
  match v with
  | PInt z => Ok (z * 1000)
  | PBool b => Ok (if b then 1000 else 0)
  | _ => Raise TypeError
  end.

(** [timedelta.days]: whole days, rounded towards minus infinity. *)
Definition timedelta_days (delta_us : Z) : Z := delta_us / days 1.

End Datetime.

(** ** Data model *)

(** A [pathlib.Path]: the directory and the final component. *)
Record Path : Type := mkPath { parent : string; name : string }.

Definition Path_eqb (p q : Path) : bool :=
  String.eqb (parent p) (parent q) && String.eqb (name p) (name q).

(** An entry of a directory: what [stat] reports, its decoded text, and
    whether [stat], [open] and [unlink] succeed on it.  [stat] fails on a
    name that is listed and leads to no file (a symbolic link whose target
    is gone). *)
Record File : Type := mkFile {
  st_size : Z;
  st_mtime : Z;
  st_ctime : Z;
  content : string;
  stat_ok : bool;
  read_ok : bool;
  unlink_ok : bool
}.

(** A value of the registry's ["sessions"] object: a dict, of which the code
    reads ["sessionId"] and ["updatedAt"] ([None] when the key is missing), or
    anything else, which has no [get]. *)
Inductive RegistryEntry : Type :=
| ENotDict
| EDict (sessionId updatedAt : option pyval).

(** [sessions.json] as [_is_process_active] finds it. *)
Inductive RegistryFile : Type :=
| RegAbsent
    (* the file does not exist *)
| RegUnusable
    (* [open] or [json.load] raises, or the document or its ["sessions"]
       is not an object *)
| RegSessions (entries : list (string * RegistryEntry)).
    (* [data.get("sessions", {})], in the order of the file *)

Inductive Reason : Type :=
| OlderThan (retention_days : Z)   (* "Older than N days" *)
| NoActiveProcess.                 (* "No active process" *)

(** The dict built by [scan_sessions] for one file. *)
Record SessionRecord : Type := mkSession {
  file : string;
  path : Path;
  size_bytes : Z;
  modified : Z;
  session_id : string;
  is_orphaned : bool;
  reason : list Reason
}.

Record ArchiveEntry : Type := mkArchiveEntry {
  entry_session_id : string;
  archived_at : Z;
  original_path : Path;
  content_preview : string
}.

(** [SwarmJanitor.stats] *)
Record Stats : Type := mkStats {
  scanned : Z;
  orphaned : Z;
  archived : Z;
  deleted : Z;
  failed : Z;
  space_reclaimed_bytes : Z
}.

(** What a run emits: the [logging] records and the prompt of [input]. *)
Inductive event : Type :=
| ErrSessionsDirNotFound (dir : string)
| WarnAnalyzeError (p : Path) (e : exn)
| WarnProcessStatus (e : exn)
| WarnSessionFileNotFound (p : Path)
| InfoEmptyTranscript (p : Path)
| InfoArchived (p : Path) (archive_name : string)
| ErrArchiveFailed (p : Path) (e : exn)
| InfoRunHeader (dry_run archive : bool)
| InfoScanned (n : Z)
| InfoOrphaned (n : Z)
| InfoNothingToDo
| InfoOrphanListing (r : SessionRecord)
| InfoDryRun
| InfoCancelled
| WarnArchiveSkip (p : Path)
| InfoDeleted (p : Path)
| ErrProcessFailed (p : Path) (e : exn)
| WarnNonInteractive
| Prompt (count : Z)
| InfoSummary (s : Stats).

(** Everything outside the Python objects. *)
Record World : Type := mkWorld {
  dirs : list string;              (* the directories that exist *)
  files : list (Path * File);      (* the files, in enumeration order *)
  registry : RegistryFile;         (* [sessions_dir / "sessions.json"] *)
  archive_store : list (string * ArchiveEntry);
                                   (* [~/.openclaw/archives/swarm-janitor] *)
  archive_store_ok : bool;         (* [mkdir], [open] and [json.dump] succeed there *)
  touch_ok : bool;                 (* marker files can be created *)
  environ_force : option string;   (* [os.getenv("SWARM_JANITOR_FORCE")] *)
  stdin : list string;             (* the lines [input] will read *)
  clock : Z;                       (* [datetime.now()] *)
  rename_ok : bool                 (* [os.rename] can move a file into another
                                      directory (same filesystem, permitted) *)
}.

(** [SuperMemoryArchiver]'s counters. *)
Record Archiver : Type := mkArchiver { archived_count : Z; failed_count : Z }.

Record State : Type := mkState {
  world : World;
  trace : list event;
  stats : Stats;
  archiver : Archiver
}.

Record SessionAnalyzer : Type := mkAnalyzer {
  sessions_dir : string;
  retention_days : Z;
  cutoff_date : Z
}.

Record SwarmJanitor : Type := mkJanitor {
  analyzer : SessionAnalyzer;
  dry_run : bool;
  archive_enabled : bool
}.

Definition initial_stats : Stats := mkStats 0 0 0 0 0 0.

(** ** Directory listings *)

Fixpoint lookup (p : Path) (l : list (Path * File)) : option File :=
  match l with
  | [] => None
  | (q, f) :: rest => if Path_eqb p q then Some f else lookup p rest
  end.

Definition remove (p : Path) (l : list (Path * File)) : list (Path * File) :=
  filter (fun qf => negb (Path_eqb p (fst qf))) l.

Definition exists_file (p : Path) (l : list (Path * File)) : bool :=
  match lookup p l with Some _ => true | None => false end.

(** [Path.touch()]: a new empty file, or new time stamps on an old one. *)
Fixpoint touched (p : Path) (now : Z) (l : list (Path * File)) : list (Path * File) :=
  match l with
  | [] => [(p, mkFile 0 now now "" true true true)]
  | (q, f) :: rest =>
      if Path_eqb p q
      then (q, mkFile (st_size f) now now (content f) (stat_ok f) (read_ok f) (unlink_ok f)) :: rest
      else (q, f) :: touched p now rest
  end.

Fixpoint store_put (k : string) (e : ArchiveEntry) (l : list (string * ArchiveEntry))
  : list (string * ArchiveEntry) :=
  match l with
  | [] => [(k, e)]
  | (k', e') :: rest => if String.eqb k k' then (k, e) :: rest else (k', e') :: store_put k e rest
  end.

(** ** The monad of stateful computations that may raise *)

Definition M (A : Type) : Type := State -> result A * State.

Definition ret {A} (a : A) : M A := fun s => (Ok a, s).

Definition bind {A B} (m : M A) (k : A -> M B) : M B :=
  fun s => match m s with
           | (Ok a, s') => k a s'
           | (Raise e, s') => (Raise e, s')
           end.

Definition raise {A} (e : exn) : M A := fun s => (Raise e, s).

(** [try: m  except Exception as e: handler e] *)
Definition try_except {A} (m : M A) (handler : exn -> M A) : M A :=
  fun s => match m s with
           | (Ok a, s') => (Ok a, s')
           | (Raise e, s') => handler e s'
           end.

Definition lift {A} (r : result A) : M A := fun s => (r, s).

Definition eval {A} (m : M A) (s : State) : result A := fst (m s).
Definition exec {A} (m : M A) (s : State) : State := snd (m s).

Declare Scope monad_scope.
Delimit Scope monad_scope with monad.
Notation "x <- m ;; k" := (bind m (fun x => k))
  (at level 61, m at next level, right associativity) : monad_scope.
Notation "m ;; k" := (bind m (fun _ => k))
  (at level 61, right associativity) : monad_scope.
Local Open Scope monad_scope.

(** [for x in xs: body x] *)
Fixpoint for_each {A} (xs : list A) (body : A -> M unit) : M unit :=
  match xs with
  | [] => ret tt
  | x :: rest => body x ;; for_each rest body
  end.

(** *** State access *)

Definition get_world : M World := fun s => (Ok (world s), s).

Definition set_files (l : list (Path * File)) : M unit :=
  fun s =>
    let w := world s in
    (Ok tt, mkState (mkWorld (dirs w) l (registry w) (archive_store w) (archive_store_ok w)
                      (touch_ok w) (environ_force w) (stdin w) (clock w) (rename_ok w))
                    (trace s) (stats s) (archiver s)).

Definition set_archive_store (l : list (string * ArchiveEntry)) : M unit :=
  fun s =>
    let w := world s in
    (Ok tt, mkState (mkWorld (dirs w) (files w) (registry w) l (archive_store_ok w)
                      (touch_ok w) (environ_force w) (stdin w) (clock w) (rename_ok w))
                    (trace s) (stats s) (archiver s)).

Definition set_stdin (l : list string) : M unit :=
  fun s =>
    let w := world s in
    (Ok tt, mkState (mkWorld (dirs w) (files w) (registry w) (archive_store w)
                      (archive_store_ok w) (touch_ok w) (environ_force w) l (clock w) (rename_ok w))
                    (trace s) (stats s) (archiver s)).

(** [logging.info], [logging.warning], [logging.error] and the prompt. *)
Definition emit (e : event) : M unit :=
  fun s => (Ok tt, mkState (world s) (trace s ++ [e]) (stats s) (archiver s)).

Definition get_stats : M Stats := fun s => (Ok (stats s), s).

Definition set_stats (st : Stats) : M unit :=
  fun s => (Ok tt, mkState (world s) (trace s) st (archiver s)).

Definition modify_stats (f : Stats -> Stats) : M unit :=
  st <- get_stats ;; set_stats (f st).

Definition modify_archiver (f : Archiver -> Archiver) : M unit :=
  fun s => (Ok tt, mkState (world s) (trace s) (stats s) (f (archiver s))).

(** *** The operating system *)

Definition datetime_now : M Z := w <- get_world ;; ret (clock w).

Definition dir_exists (d : string) : M bool :=
  w <- get_world ;; ret (existsb (String.eqb d) (dirs w)).

(** [p.stat()] *)
Definition stat (p : Path) : M File :=
  w <- get_world ;;
  match lookup p (files w) with
  | None => raise FileNotFoundError
  | Some f => if stat_ok f then ret f else raise FileNotFoundError
  end.

(** [p.exists()]: whether [p.stat()] finds a file. *)
Definition path_exists (p : Path) : M bool :=
  try_except (stat p ;; ret true)
             (fun e => match e with
                       | FileNotFoundError => ret false
                       | _ => raise e
                       end).

(** [open(p, 'r', encoding='utf-8', errors='ignore').read()] *)
Definition read_text (p : Path) : M string :=
  w <- get_world ;;
  match lookup p (files w) with
  | None => raise FileNotFoundError
  | Some f => if read_ok f then ret (content f) else raise OSError
  end.

(** [p.unlink()] *)
Definition unlink (p : Path) : M unit :=
  w <- get_world ;;
  match lookup p (files w) with
  | None => raise FileNotFoundError
  | Some f => if unlink_ok f then set_files (remove p (files w)) else raise PermissionError
  end.

(** [p.touch()] *)
Definition touch (p : Path) : M unit :=
  w <- get_world ;;
  if touch_ok w then set_files (touched p (clock w) (files w)) else raise OSError.

(** [archive_dir.mkdir(parents=True, exist_ok=True)], then [open(f, 'w')] and
    [json.dump]. *)
Definition write_archive (archive_name : string) (e : ArchiveEntry) : M unit :=
  w <- get_world ;;
  if archive_store_ok w
  then set_archive_store (store_put archive_name e (archive_store w))
  else raise OSError.

(** [input(prompt)] *)
Definition input (count : Z) : M string :=
  emit (Prompt count) ;;
  w <- get_world ;;
  match stdin w with
  | [] => raise EOFError
  | line :: rest => set_stdin rest ;; ret line
  end.

(** [os.getenv(...)] seen as a truth value: set and not empty. *)
Definition getenv_force : M bool :=
  w <- get_world ;;
  ret (match environ_force w with
       | Some v => negb (String.eqb v "")
       | None => false
       end).

(** [os.environ["SWARM_JANITOR_FORCE"] = v] *)
Definition set_environ_force (v : string) : M unit :=
  fun s =>
    let w := world s in
    (Ok tt, mkState (mkWorld (dirs w) (files w) (registry w) (archive_store w)
                      (archive_store_ok w) (touch_ok w) (Some v) (stdin w) (clock w) (rename_ok w))
                    (trace s) (stats s) (archiver s)).

(** [sessions_dir.glob("*.jsonl")] *)
Definition glob_jsonl (dir : string) : M (list Path) :=
  w <- get_world ;;
  ret (filter (fun p => String.eqb (parent p) dir && Text.endswith (name p) ".jsonl")
              (map fst (files w))).

(** ** [sorted(sessions, key=lambda x: x["modified"])] *)

(** Python's sort is stable: a record goes in front of the first one that is
    not older, so records with equal time stamps keep their order. *)
Fixpoint insert_by_modified (r : SessionRecord) (l : list SessionRecord) : list SessionRecord :=
  match l with
  | [] => [r]
  | r' :: rest =>
      if modified r <=? modified r' then r :: l else r' :: insert_by_modified r rest
  end.

Definition sorted_by_modified (l : list SessionRecord) : list SessionRecord :=
  fold_right insert_by_modified [] l.

(** ** class SessionAnalyzer *)

(** [SessionAnalyzer.__init__] *)
Definition SessionAnalyzer_init (dir : string) (retention : Z) : M SessionAnalyzer :=
  now <- datetime_now ;;
  delta <- lift (Datetime.timedelta_of_days retention) ;;
  cutoff <- lift (Datetime.minus now delta) ;;
  ret (mkAnalyzer dir retention cutoff).

(** One turn of the loop of [_is_process_active] over the registry:
    [Ok true] is [return True], [Ok false] goes on to the next entry. *)
Definition examine_entry (session_id : string) (now : Z)
    (key : string) (session : RegistryEntry) : result bool :=
  let matched :=
    if Text.contains session_id key then Ok true
    else match session with
         | ENotDict => Raise AttributeError
         | EDict sid _ =>
             Ok (Text.contains session_id
                   (py_str (match sid with Some v => v | None => PStr "" end)))
         end in
  match matched with
  | Raise e => Raise e
  | Ok false => Ok false
  | Ok true =>
      match session with
      | ENotDict => Raise AttributeError
      | EDict _ upd =>
          let updated_at := match upd with Some v => v | None => PInt 0 end in
          if py_truthy updated_at then
            match Datetime.millis_to_timestamp updated_at with
            | Raise e => Raise e
            | Ok ts =>
                match Datetime.fromtimestamp ts with
                | Raise e => Raise e
                | Ok updated_dt => Ok (now - updated_dt <? Datetime.hours 1)
                end
            end
          else Ok false
      end
  end.

Fixpoint examine_entries (session_id : string) (now : Z)
    (entries : list (string * RegistryEntry)) : result bool :=
  match entries with
  | [] => Ok false
  | (key, session) :: rest =>
      match examine_entry session_id now key session with
      | Raise e => Raise e
      | Ok true => Ok true
      | Ok false => examine_entries session_id now rest
      end
  end.

(** [SessionAnalyzer._is_process_active] *)
Definition _is_process_active (self : SessionAnalyzer) (session_id : string) : M bool :=
  try_except
    (w <- get_world ;;
     match registry w with
     | RegAbsent => ret false
     | RegUnusable => raise ValueError
     | RegSessions entries => lift (examine_entries session_id (clock w) entries)
     end)
    (fun e => emit (WarnProcessStatus e) ;; ret false).

(** The body of the [try] in the loop of [scan_sessions]. *)
Definition analyze_file (self : SessionAnalyzer) (file_path : Path) : M SessionRecord :=
  st <- stat file_path ;;
  mtime <- lift (Datetime.fromtimestamp (st_mtime st)) ;;
  let sid := Text.stem (name file_path) in
  let aged := mtime <? cutoff_date self in
  let reason1 := if aged then [OlderThan (retention_days self)] else [] in
  active <- _is_process_active self sid ;;
  if negb active
  then ret (mkSession (name file_path) file_path (st_size st) mtime sid
                      true (reason1 ++ [NoActiveProcess]))
  else ret (mkSession (name file_path) file_path (st_size st) mtime sid
                      false reason1).

Fixpoint scan_loop (self : SessionAnalyzer) (paths : list Path)
    (sessions : list SessionRecord) : M (list SessionRecord) :=
  match paths with
  | [] => ret sessions
  | file_path :: rest =>
      if Text.contains ".deleted." (name file_path)
      then scan_loop self rest sessions
      else
        sessions' <- try_except
                       (info <- analyze_file self file_path ;; ret (sessions ++ [info]))
                       (fun e => emit (WarnAnalyzeError file_path e) ;; ret sessions) ;;
        scan_loop self rest sessions'
  end.

(** [SessionAnalyzer.scan_sessions] *)
Definition scan_sessions (self : SessionAnalyzer) : M (list SessionRecord) :=
  present <- dir_exists (sessions_dir self) ;;
  if negb present
  then emit (ErrSessionsDirNotFound (sessions_dir self)) ;; ret []
  else
    paths <- glob_jsonl (sessions_dir self) ;;
    sessions <- scan_loop self paths [] ;;
    ret (sorted_by_modified sessions).

Section Janitor.

(** [datetime.strftime]: the text of a time stamp in a given format. *)
Variable strftime : string -> Z -> string.

(** ** class SuperMemoryArchiver *)

Definition archive_file_name (p : Path) (now : Z) : string :=
  (Text.stem (name p) ++ "_" ++ strftime "%Y%m%d_%H%M%S" now ++ ".json")%string.

(** [SuperMemoryArchiver.archive_session] *)
Definition archive_session (session_path : Path) : M bool :=
  try_except
    (present <- path_exists session_path ;;
     if negb present
     then emit (WarnSessionFileNotFound session_path) ;; ret false
     else
       text <- read_text session_path ;;
       if String.eqb (Text.strip text) ""
       then emit (InfoEmptyTranscript session_path) ;; ret true
       else
         now <- datetime_now ;;
         let archive_entry :=
           mkArchiveEntry (Text.stem (name session_path)) now session_path
             (if (1000 <? String.length text)%nat then substring 0 1000 text else text) in
         now' <- datetime_now ;;
         let archive_file := archive_file_name session_path now' in
         write_archive archive_file archive_entry ;;
         emit (InfoArchived session_path archive_file) ;;
         modify_archiver (fun a => mkArchiver (archived_count a + 1) (failed_count a)) ;;
         ret true)
    (fun e =>
       emit (ErrArchiveFailed session_path e) ;;
       modify_archiver (fun a => mkArchiver (archived_count a) (failed_count a + 1)) ;;
       ret false).

(** ** class SwarmJanitor *)

Definition add_archived (s : Stats) : Stats :=
  mkStats (scanned s) (orphaned s) (archived s + 1) (deleted s) (failed s)
          (space_reclaimed_bytes s).
Definition add_deleted (s : Stats) : Stats :=
  mkStats (scanned s) (orphaned s) (archived s) (deleted s + 1) (failed s)
          (space_reclaimed_bytes s).
Definition add_failed (s : Stats) : Stats :=
  mkStats (scanned s) (orphaned s) (archived s) (deleted s) (failed s + 1)
          (space_reclaimed_bytes s).
Definition add_reclaimed (size : Z) (s : Stats) : Stats :=
  mkStats (scanned s) (orphaned s) (archived s) (deleted s) (failed s)
          (space_reclaimed_bytes s + size).
Definition with_scanned (n : Z) (s : Stats) : Stats :=
  mkStats n (orphaned s) (archived s) (deleted s) (failed s) (space_reclaimed_bytes s).
Definition with_orphaned (n : Z) (s : Stats) : Stats :=
  mkStats (scanned s) n (archived s) (deleted s) (failed s) (space_reclaimed_bytes s).

(** The marker left beside a removed file:
    [<name>.deleted.<%Y-%m-%dT%H-%M-%S.%f>Z]. *)
Definition deleted_marker (file_path : Path) (now : Z) : Path :=
  mkPath (parent file_path)
         (name file_path ++ ".deleted." ++ strftime "%Y-%m-%dT%H-%M-%S.%f" now ++ "Z")%string.

(** [SwarmJanitor._process_session].  The early [return] after a failed
    archival is the [false] of [proceed]. *)
Definition _process_session (self : SwarmJanitor) (session : SessionRecord) : M unit :=
  let file_path := path session in
  try_except
    (proceed <-
       (if archive_enabled self
        then
          ok <- archive_session file_path ;;
          if ok
          then modify_stats add_archived ;; ret true
          else emit (WarnArchiveSkip file_path) ;; modify_stats add_failed ;; ret false
        else ret true) ;;
     if proceed
     then
       st <- stat file_path ;;
       let size := st_size st in
       unlink file_path ;;
       now <- datetime_now ;;
       touch (deleted_marker file_path now) ;;
       modify_stats add_deleted ;;
       modify_stats (add_reclaimed size) ;;
       emit (InfoDeleted file_path)
     else ret tt)
    (fun e => emit (ErrProcessFailed file_path e) ;; modify_stats add_failed).

(** [SwarmJanitor._confirm_action] *)
Definition _confirm_action (count : Z) : M bool :=
  force <- getenv_force ;;
  if force then ret true
  else
    try_except
      (response <- input count ;;
       ret (String.eqb (Text.strip (Text.lower response)) "y"))
      (fun e =>
         match e with
         | EOFError => emit WarnNonInteractive ;; ret true
         | _ => raise e
         end).

Definition _print_summary : M unit :=
  st <- get_stats ;; emit (InfoSummary st).

(** [SwarmJanitor.__init__] *)
Definition SwarmJanitor_init (dir : string) (retention : Z) (dry archive : bool)
  : M SwarmJanitor :=
  a <- SessionAnalyzer_init dir retention ;;
  modify_archiver (fun _ => mkArchiver 0 0) ;;
  set_stats initial_stats ;;
  ret (mkJanitor a dry archive).

(** [SwarmJanitor.run] *)
Definition run (self : SwarmJanitor) : M Stats :=
  emit (InfoRunHeader (dry_run self) (archive_enabled self)) ;;
  sessions <- scan_sessions (analyzer self) ;;
  modify_stats (with_scanned (Z.of_nat (List.length sessions))) ;;
  let orphans := filter is_orphaned sessions in
  modify_stats (with_orphaned (Z.of_nat (List.length orphans))) ;;
  emit (InfoScanned (Z.of_nat (List.length sessions))) ;;
  emit (InfoOrphaned (Z.of_nat (List.length orphans))) ;;
  match orphans with
  | [] => emit InfoNothingToDo ;; get_stats
  | _ :: _ =>
      for_each orphans (fun session => emit (InfoOrphanListing session)) ;;
      if dry_run self
      then emit InfoDryRun ;; get_stats
      else
        confirmed <- _confirm_action (Z.of_nat (List.length orphans)) ;;
        if negb confirmed
        then emit InfoCancelled ;; get_stats
        else
          for_each orphans (_process_session self) ;;
          _print_summary ;;
          get_stats
  end.

(** The namespace [parser.parse_args()] returns.  [--dry-run] and
    [--archive] are [store_true] options whose default is [True]. *)
Record Args : Type := mkArgs {
  arg_sessions_dir : string;
  arg_retention_days : Z;
  arg_dry_run : bool;
  arg_clean : bool;
  arg_archive : bool;
  arg_no_archive : bool;
  arg_force : bool;
  arg_verbose : bool;
  arg_output_json : bool
}.

(** What [main] leaves to its caller: the stats it printed with
    [--output json], and the code it passed to [sys.exit]. *)
Record MainOutcome : Type := mkOutcome {
  printed : option Stats;
  exit_code : Z
}.

(** [main], from the parsed arguments on. *)
Definition main (args : Args) : M MainOutcome :=
  let dry := negb (arg_clean args) in
  let archive := arg_archive args && negb (arg_no_archive args) in
  (if arg_force args then set_environ_force "1" else ret tt) ;;
  janitor <- SwarmJanitor_init (arg_sessions_dir args) (arg_retention_days args)
               dry archive ;;
  st <- run janitor ;;
  ret (mkOutcome (if arg_output_json args then Some st else None)
                 (if failed st =? 0 then 0 else 1)).

End Janitor.

(** ** [scripts/cleanup.py] *)

Module Legacy.

(** [os.listdir(d)] *)
Definition listdir (d : string) : M (list string) :=
  w <- get_world ;;
  if existsb (String.eqb d) (dirs w)
  then ret (map name (filter (fun p => String.eqb (parent p) d) (map fst (files w))))
  else raise FileNotFoundError.

(** [os.path.getctime(p)] *)
Definition getctime (p : Path) : M Z := st <- stat p ;; ret (st_ctime st).

(** [os.rename(src, dst)]: the entry moves; a file at [dst] is replaced.
    It raises when the source or the directory of the destination is
    missing, and when the system refuses the move (another filesystem, no
    permission), and then nothing has moved. *)
Definition rename (src dst : Path) : M unit :=
  w <- get_world ;;
  match lookup src (files w) with
  | None => raise FileNotFoundError
  | Some f =>
      if existsb (String.eqb (parent dst)) (dirs w)
      then if rename_ok w
           then set_files (remove dst (remove src (files w)) ++ [(dst, f)])
           else raise OSError
      else raise FileNotFoundError
  end.

(** [os.remove(p)] *)
Definition os_remove (p : Path) : M unit := unlink p.

(** [archive_session(session_path, archive_directory)] of [cleanup.py] *)
Definition archive_session (session_path : Path) (archive_directory : string) : M unit :=
  let session_name := name session_path in
  let archive_path := mkPath archive_directory ("archived_" ++ session_name)%string in
  rename session_path archive_path.

(** The first loop of [cleanup_sessions]: the files to sweep. *)
Fixpoint classify (session_directory : string) (filenames : list string)
    (orphaned_sessions : list Path) : M (list Path) :=
  match filenames with
  | [] => ret orphaned_sessions
  | filename :: rest =>
      if Text.endswith filename ".jsonl"
      then
        let filepath := mkPath session_directory filename in
        creation_time <- getctime filepath ;;
        creation_date <- lift (Datetime.fromtimestamp creation_time) ;;
        now <- datetime_now ;;
        if 7 <? Datetime.timedelta_days (now - creation_date)
        then classify session_directory rest (orphaned_sessions ++ [filepath])
        else classify session_directory rest orphaned_sessions
      else classify session_directory rest orphaned_sessions
  end.

(** [cleanup_sessions(session_directory, archive_directory)] *)
Definition cleanup_sessions (session_directory archive_directory : string) : M unit :=
  filenames <- listdir session_directory ;;
  orphaned_sessions <- classify session_directory filenames [] ;;
  for_each orphaned_sessions
    (fun session => archive_session session archive_directory ;; os_remove session).

End Legacy.

(** ** Vocabulary of the properties *)

(** The paths of the orchestrator's per-record outcomes in a trace, in the
    order they were logged: "Deleted: ...", "Archive failed for ..., skipping
    deletion" and "Failed to process ...". *)
Definition processed_path (e : event) : list Path :=
  match e with
  | InfoDeleted p => [p]
  | WarnArchiveSkip p => [p]
  | ErrProcessFailed p _ => [p]
  | _ => []
  end.

(** The records a trace shows as processed, oldest entry first. *)
Definition processed (evs : list event) : list Path := flat_map processed_path evs.

(** The state after some more events were emitted and nothing else changed. *)
Definition log_more (s : State) (evs : list event) : State :=
  mkState (world s) (trace s ++ evs) (stats s) (archiver s).

(** The answer of [_is_process_active] as a function of what it reads. *)
Definition liveness (w : World) (sid : string) : bool :=
  match registry w with
  | RegSessions entries =>
      match examine_entries sid (clock w) entries with
      | Ok b => b
      | Raise _ => false
      end
  | _ => false
  end.

(** The record [analyze_file] builds, as a function of what it reads. *)
Definition analysis (self : SessionAnalyzer) (w : World) (p : Path) : result SessionRecord :=
  match lookup p (files w) with
  | None => Raise FileNotFoundError
  | Some f =>
      if stat_ok f then
        match Datetime.fromtimestamp (st_mtime f) with
        | Raise e => Raise e
        | Ok mtime =>
            let sid := Text.stem (name p) in
            let reason1 :=
              if mtime <? cutoff_date self then [OlderThan (retention_days self)] else [] in
            Ok (if negb (liveness w sid)
                then mkSession (name p) p (st_size f) mtime sid true
                       (reason1 ++ [NoActiveProcess])
                else mkSession (name p) p (st_size f) mtime sid false reason1)
        end
      else Raise FileNotFoundError
  end.

(** The records the loop of [scan_sessions] collects from [paths]: marker
    names are skipped, and so is a file whose analysis raises. *)
Definition scanned_records (self : SessionAnalyzer) (w : World) (paths : list Path)
  : list SessionRecord :=
  flat_map (fun p =>
              if Text.contains ".deleted." (name p) then []
              else match analysis self w p with
                   | Ok r => [r]
                   | Raise _ => []
                   end) paths.

(** [sessions_dir.glob("*.jsonl")] as a function of the world. *)
Definition session_paths (dir : string) (w : World) : list Path :=
  filter (fun p => String.eqb (parent p) dir && Text.endswith (name p) ".jsonl")
         (map fst (files w)).

(** The list [scan_sessions] returns, as a function of what it reads. *)
Definition scan_result (self : SessionAnalyzer) (w : World) : list SessionRecord :=
  if existsb (String.eqb (sessions_dir self)) (dirs w)
  then sorted_by_modified (scanned_records self w (session_paths (sessions_dir self) w))
  else [].

(** Records in ascending order of [modified]. *)
Definition ascending (l : list SessionRecord) : Prop :=
  StronglySorted (fun a b => modified a <= modified b) l.

(** The identifier is a substring of the entry's key or of the text of its
    ["sessionId"]. *)
Definition matches (sid key : string) (e : RegistryEntry) : bool :=
  Text.contains sid key
  || match e with
     | EDict sidv _ =>
         Text.contains sid (py_str (match sidv with Some v => v | None => PStr "" end))
     | ENotDict => false
     end.

(** The time stamps that denote a date for [datetime.fromtimestamp]: from
    the second day of year 1 to the end of year 9999. *)
Definition denotes_date (t_us : Z) : bool :=
  (Datetime.min_us + Datetime.days 1 <=? t_us) && (t_us <=? Datetime.max_us).

(** The time of the entry's last update, when ["updatedAt"] is present,
    truthy and a number that denotes a date: a non-zero integer of
    milliseconds, or [true], which Python divides as the number 1. *)
Definition last_update (e : RegistryEntry) : option Z :=
  match e with
  | EDict _ (Some (PInt z)) =>
      if negb (z =? 0) && denotes_date (z * 1000) then Some (z * 1000) else None
  | EDict _ (Some (PBool true)) => Some 1000
  | _ => None
  end.

(** Updated less than one hour before [now]. *)
Definition recently_updated (now : Z) (e : RegistryEntry) : bool :=
  match last_update e with
  | Some t => now - t <? Datetime.hours 1
  | None => false
  end.

(** The entry matches the identifier and was updated within the hour. *)
Definition live_match (sid : string) (now : Z) (ke : string * RegistryEntry) : bool :=
  matches sid (fst ke) (snd ke) && recently_updated now (snd ke).

(** A value of ["updatedAt"] that is truthy and is no time of update: a
    non-empty string, list or object, which cannot be divided, or a non-zero
    integer that denotes no date. *)
Definition unusable_update (v : pyval) : bool :=
  match v with
  | PInt z => negb (z =? 0) && negb (denotes_date (z * 1000))
  | PStr text => negb (String.eqb text "")
  | PContainer _ nonempty => nonempty
  | PBool _ => false
  | PNone => false
  end.

(** The entries that make the check raise: one that is not an object, and
    one that matches the identifier and whose ["updatedAt"] is unusable. *)
Definition entry_raises (sid : string) (ke : string * RegistryEntry) : bool :=
  match snd ke with
  | ENotDict => true
  | EDict _ upd =>
      matches sid (fst ke) (snd ke)
      && match upd with
         | Some v => unusable_update v
         | None => false
         end
  end.

(** The registry entry has the documented shape: an object whose
    ["updatedAt"] is missing or an integer that denotes a date. *)
Definition documented_shape (e : RegistryEntry) : bool :=
  match e with
  | EDict _ None => true
  | EDict _ (Some (PInt z)) => denotes_date (z * 1000)
  | _ => false
  end.

(** The loop reaches a live match: none of the entries before it raises. *)
Definition reaches_live_match (sid : string) (now : Z)
    (entries : list (string * RegistryEntry)) : Prop :=
  exists pre ke post,
    entries = pre ++ ke :: post
    /\ live_match sid now ke = true
    /\ forallb (fun x => negb (entry_raises sid x)) pre = true.

(** The world with another archive store, file listing or standard input. *)
Definition with_store (w : World) (l : list (string * ArchiveEntry)) : World :=
  mkWorld (dirs w) (files w) (registry w) l (archive_store_ok w) (touch_ok w)
          (environ_force w) (stdin w) (clock w) (rename_ok w).

Definition with_files (w : World) (l : list (Path * File)) : World :=
  mkWorld (dirs w) l (registry w) (archive_store w) (archive_store_ok w) (touch_ok w)
          (environ_force w) (stdin w) (clock w) (rename_ok w).

(** The boolean [archive_session] returns. *)
Definition archive_result (w : World) (p : Path) : bool :=
  match lookup p (files w) with
  | None => false
  | Some f => stat_ok f && read_ok f && (Text.blank (content f) || archive_store_ok w)
  end.

(** [stat] and [unlink] both succeed on the file. *)
Definition removable (w : World) (p : Path) : bool :=
  match lookup p (files w) with
  | Some f => stat_ok f && unlink_ok f
  | None => false
  end.

Definition size_on_disk (w : World) (p : Path) : Z :=
  match lookup p (files w) with
  | Some f => st_size f
  | None => 0
  end.

(** [_process_session] goes on to the removal: archiving is disabled or
    succeeded. *)
Definition proceeds (self : SwarmJanitor) (w : World) (p : Path) : bool :=
  if archive_enabled self then archive_result w p else true.

(** [stats] after [_process_session] on the file at [p]. *)
Definition stats_after (self : SwarmJanitor) (w : World) (p : Path) (st : Stats) : Stats :=
  let st1 := if archive_enabled self && archive_result w p then add_archived st else st in
  if proceeds self w p && removable w p && touch_ok w
  then add_reclaimed (size_on_disk w p) (add_deleted st1)
  else add_failed st1.

Definition with_stdin (w : World) (l : list string) : World :=
  mkWorld (dirs w) (files w) (registry w) (archive_store w) (archive_store_ok w)
          (touch_ok w) (environ_force w) l (clock w) (rename_ok w).

(** The force signal: [SWARM_JANITOR_FORCE] is set to a non-empty value. *)
Definition force_signal (w : World) : bool :=
  match environ_force w with
  | Some v => negb (String.eqb v "")
  | None => false
  end.

(** The response, lowercased and trimmed, is ['y']. *)
Definition affirmative (response : string) : bool :=
  String.eqb (Text.strip (Text.lower response)) "y".

(** The boolean [_confirm_action] returns. *)
Definition confirms (w : World) : bool :=
  force_signal w
  || match stdin w with
     | [] => true
     | response :: _ => affirmative response
     end.

(** The sum of a list of sizes. *)
Definition total (sizes : list Z) : Z := fold_right Z.add 0 sizes.

(** The session files of [dir] that are on disk in [before] and no more in
    [after]. *)
Definition removed_sessions (dir : string) (before after : State) : list Path :=
  filter (fun p => negb (exists_file p (files (world after))))
         (session_paths dir (world before)).

(** The orchestrator in the configuration nearest to the legacy script:
    destructive, archiving, a retention of 7 days. *)
Definition degenerate (dir : string) (now : Z) : SwarmJanitor :=
  mkJanitor (mkAnalyzer dir 7 (now - Datetime.days 7)) false true.

Section Vocabulary.

(** [datetime.strftime], as in the program. *)
Variable strftime : string -> Z -> string.

(** The file listing after [_process_session] on the file at [p]. *)
Definition files_after (self : SwarmJanitor) (w : World) (p : Path) : list (Path * File) :=
  if proceeds self w p && removable w p
  then if touch_ok w
       then touched (deleted_marker strftime p (clock w)) (clock w) (remove p (files w))
       else remove p (files w)
  else files w.

(** Processing the record adds one to the deleted count. *)
Definition counted_in_deleted (self : SwarmJanitor) (r : SessionRecord) (s : State) : bool :=
  deleted (stats (exec (_process_session strftime self r) s)) =? deleted (stats s) + 1.

(** The sizes on disk, each measured in the state in which its record is
    processed, of the files counted in deleted while [rs] is processed from
    [s]. *)
Fixpoint reclaimed_sizes (self : SwarmJanitor) (rs : list SessionRecord) (s : State)
  : list Z :=
  match rs with
  | [] => []
  | r :: rest =>
      (if counted_in_deleted self r s then [size_on_disk (world s) (path r)] else [])
      ++ reclaimed_sizes self rest (exec (_process_session strftime self r) s)
  end.

End Vocabulary.

(** *** The claims that do not hold as they are stated *)

(** C1 as stated: in the list [scan_sessions] returns, a record is orphaned
    exactly when its reason list is not empty. *)
Definition orphaned_iff_some_reason (self : SessionAnalyzer) (s : State) : Prop :=
  exists sessions,
    eval (scan_sessions self) s = Ok sessions
    /\ forall r, In r sessions -> (is_orphaned r = true <-> reason r <> []).

(** C2 as stated: a record whose identifier matches a registry entry updated
    within the hour is not orphaned. *)
Definition live_entry_keeps (self : SessionAnalyzer) (s : State) : Prop :=
  exists sessions,
    eval (scan_sessions self) s = Ok sessions
    /\ forall r entries,
         In r sessions ->
         registry (world s) = RegSessions entries ->
         (exists ke, In ke entries
                     /\ live_match (session_id r) (clock (world s)) ke = true) ->
         is_orphaned r = false.

(** C10 as stated: the session is reported active exactly when some registry
    entry matches by substring and has a truthy ["updatedAt"] within one hour
    of now. *)
Definition active_iff_live_match (self : SessionAnalyzer) (sid : string) (s : State) : Prop :=
  eval (_is_process_active self sid) s = Ok true <->
  exists entries ke,
    registry (world s) = RegSessions entries
    /\ In ke entries
    /\ live_match sid (clock (world s)) ke = true.

(** C5 as stated: with no registry (no liveness information) and the force
    signal set (no confirmation), [cleanup_sessions] and [run] remove the
    same session files. *)
Definition legacy_is_degenerate_run (strftime : string -> Z -> string)
    (dir archive_dir : string) (s : State) : Prop :=
  registry (world s) = RegAbsent ->
  force_signal (world s) = true ->
  forall p,
    In p (removed_sessions dir s (exec (Legacy.cleanup_sessions dir archive_dir) s))
    <-> In p (removed_sessions dir s
                (exec (run strftime (degenerate dir (clock (world s)))) s)).

(** ** Scenarios *)

(** A [strftime] for the scenarios: the time stamp in decimal digits. *)
Definition strftime_digits (fmt : string) (t : Z) : string := Text.of_Z t.

(** The time of the scenarios, in microseconds and in milliseconds. *)
Definition noon : Z := 1700000000 * Datetime.us_per_second.
Definition noon_ms : Z := 1700000000 * 1000.

(** A readable, removable file of the given size, age and text. *)
Definition plain_file (size age_days : Z) (text : string) : File :=
  mkFile size (noon - Datetime.days age_days) (noon - Datetime.days age_days)
         text true true true.

(** A world with the directory [/sessions], an empty and writable archive
    store, and the clock at [noon]. *)
Definition make_world (fs : list (Path * File)) (reg : RegistryFile)
    (force : option string) (answers : list string) : World :=
  mkWorld ["/sessions"] fs reg [] true true force answers noon true.

(** The state of a janitor that was just constructed. *)
Definition fresh_state (w : World) : State :=
  mkState w [] initial_stats (mkArchiver 0 0).

(** The default analyzer: a retention of 3 days. *)
Definition three_days : SessionAnalyzer :=
  mkAnalyzer "/sessions" 3 (noon - Datetime.days 3).

Definition b_jsonl : Path := mkPath "/sessions" "b.jsonl".
Definition a_jsonl : Path := mkPath "/sessions" "a.jsonl".

(** [b.jsonl] was modified 20 days ago and its registry entry was updated
    5 minutes ago. *)
Definition old_but_live : State :=
  fresh_state
    (make_world [(b_jsonl, plain_file 7 20 "transcript")]
       (RegSessions [("agent:main:b", EDict (Some (PStr "b")) (Some (PInt (noon_ms - 300000))))])
       (Some "1") []).

(** The same, with an entry before it whose ["updatedAt"] is a string. *)
Definition live_after_malformed : State :=
  fresh_state
    (make_world [(b_jsonl, plain_file 7 20 "transcript")]
       (RegSessions [("b:previous", EDict None (Some (PStr "yesterday")));
                     ("agent:main:b", EDict (Some (PStr "b")) (Some (PInt (noon_ms - 300000))))])
       (Some "1") []).

(** [a.jsonl] was modified 10 days ago; there is no registry. *)
Definition one_old_file : State :=
  fresh_state (make_world [(a_jsonl, plain_file 120 10 "hello")] RegAbsent (Some "1") []).

(** The same with an archive store that cannot be written. *)
Definition one_old_file_no_store : State :=
  fresh_state
    (mkWorld ["/sessions"] [(a_jsonl, plain_file 120 10 "hello")] RegAbsent [] false true
             (Some "1") [] noon true).

(** [a.jsonl] cannot be read; [b.jsonl] beside it can. *)
Definition unreadable_then_fine : State :=
  fresh_state
    (make_world [(a_jsonl, mkFile 120 (noon - Datetime.days 10) (noon - Datetime.days 10)
                             "hello" true false true);
                 (b_jsonl, plain_file 7 5 "notes")]
       RegAbsent (Some "1") []).

(** [a.jsonl] was modified one hour ago; there is no registry. *)
Definition one_fresh_file : State :=
  fresh_state
    (make_world [(a_jsonl, mkFile 120 (noon - Datetime.hours 1) (noon - Datetime.hours 1)
                             "hello" true true true)]
       RegAbsent (Some "1") []).

(** Two old files, the older one listed last; no force signal, the user
    answers [" Y "]. *)
Definition two_old_files : State :=
  fresh_state
    (make_world [(a_jsonl, plain_file 120 10 "hello"); (b_jsonl, plain_file 7 20 "  ")]
       RegAbsent None [" Y "]).

(** No force signal and no input; no force signal and the answer ["n"]; the
    variable set to the empty text and an empty answer. *)
Definition unattended : State := fresh_state (make_world [] RegAbsent None []).
Definition declined : State := fresh_state (make_world [] RegAbsent None ["n"]).
Definition empty_signal : State := fresh_state (make_world [] RegAbsent (Some "") [""]).

(** The janitor in destructive mode and in preview mode, archiving enabled. *)
Definition live_janitor : SwarmJanitor := mkJanitor three_days false true.
Definition preview_janitor : SwarmJanitor := mkJanitor three_days true true.

(** The records of [a.jsonl] (10 days old) and [b.jsonl] (20 days old) when no
    session is live. *)
Definition a_record : SessionRecord :=
  mkSession "a.jsonl" a_jsonl 120 (noon - Datetime.days 10) "a" true
            [OlderThan 3; NoActiveProcess].

Definition b_record : SessionRecord :=
  mkSession "b.jsonl" b_jsonl 7 (noon - Datetime.days 20) "b" true
            [OlderThan 3; NoActiveProcess].

(** ** Vocabulary of the further properties *)

(** The record was last modified at [t]. *)
Definition modified_at (t : Z) (r : SessionRecord) : bool := modified r =? t.

(** The entry stored under a name in the archive store. *)
Fixpoint store_get (k : string) (l : list (string * ArchiveEntry)) : option ArchiveEntry :=
  match l with
  | [] => None
  | (k', e) :: rest => if String.eqb k k' then Some e else store_get k rest
  end.

(** The preview [archive_session] keeps of a text: its first 1000
    characters. *)
Definition preview_of (text : string) : string :=
  if (1000 <? String.length text)%nat then substring 0 1000 text else text.

(** The world with another value of [SWARM_JANITOR_FORCE]. *)
Definition with_environ (w : World) (v : option string) : World :=
  mkWorld (dirs w) (files w) (registry w) (archive_store w) (archive_store_ok w)
          (touch_ok w) v (stdin w) (clock w) (rename_ok w).

(** Two worlds that differ at most in their files and their archive store. *)
Definition same_surroundings (w w' : World) : Prop :=
  dirs w' = dirs w /\ registry w' = registry w
  /\ archive_store_ok w' = archive_store_ok w /\ touch_ok w' = touch_ok w
  /\ environ_force w' = environ_force w /\ stdin w' = stdin w /\ clock w' = clock w.

(** The lines of input left once [_confirm_action] has run. *)
Definition stdin_after_confirm (w : World) : list string :=
  if force_signal w then stdin w else tl (stdin w).

(** The world in which [main] constructs the janitor: [--force] has set
    the environment variable. *)
Definition world_of_main (args : Args) (w : World) : World :=
  if arg_force args then with_environ w (Some "1") else w.

(** [SessionAnalyzer.__init__] can compute its cutoff: the retention fits a
    [timedelta] and the cutoff is a date of the years 1 to 9999. *)
Definition cutoff_representable (now retention : Z) : bool :=
  (Z.abs retention <=? Datetime.max_timedelta_days)
  && (Datetime.min_us <=? now - Datetime.days retention)
  && (now - Datetime.days retention <=? Datetime.max_us).

(** The janitor [main] constructs, when the cutoff can be computed. *)
Definition janitor_of_main (args : Args) (w : World) : SwarmJanitor :=
  mkJanitor (mkAnalyzer (arg_sessions_dir args) (arg_retention_days args)
               (clock w - Datetime.days (arg_retention_days args)))
            (negb (arg_clean args))
            (arg_archive args && negb (arg_no_archive args)).

(** The state of a second invocation of the tool: the world as the first
    run left it, and a janitor constructed anew. *)
Definition next_invocation (s : State) : State :=
  mkState (world s) (trace s) initial_stats (mkArchiver 0 0).

Section FurtherVocabulary.

Variable strftime : string -> Z -> string.

(** The entry [archive_session] writes for the file at [p] with text
    [text], at time [now]. *)
Definition entry_of (p : Path) (text : string) (now : Z) : ArchiveEntry :=
  mkArchiveEntry (Text.stem (name p)) now p (preview_of text).

(** The state [archive_session] leaves, case by case. *)
Definition archive_state (p : Path) (s : State) : State :=
  let w := world s in
  let failure :=
    mkState w (trace s ++ [ErrArchiveFailed p OSError]) (stats s)
            (mkArchiver (archived_count (archiver s)) (failed_count (archiver s) + 1)) in
  match lookup p (files w) with
  | None => log_more s [WarnSessionFileNotFound p]
  | Some f =>
      if negb (stat_ok f) then log_more s [WarnSessionFileNotFound p]
      else if read_ok f then
        if Text.blank (content f) then log_more s [InfoEmptyTranscript p]
        else if archive_store_ok w then
          mkState (with_store w (store_put (archive_file_name strftime p (clock w))
                                   (entry_of p (content f) (clock w))
                                   (archive_store w)))
                  (trace s ++ [InfoArchived p (archive_file_name strftime p (clock w))])
                  (stats s)
                  (mkArchiver (archived_count (archiver s) + 1)
                              (failed_count (archiver s)))
        else failure
      else failure
  end.

(** The records a run processes: the orphaned ones when it is destructive
    and confirmed, none otherwise. *)
Definition records_to_process (self : SwarmJanitor) (w : World) : list SessionRecord :=
  if negb (dry_run self) && confirms w
  then filter is_orphaned (scan_result (analyzer self) w)
  else [].

End FurtherVocabulary.

(** Processing the file at [p] would remove it: archiving is disabled or
    succeeds, and [stat] and [unlink] succeed. *)
Definition doomed (self : SwarmJanitor) (w : World) (p : Path) : bool :=
  proceeds self w p && removable w p.

(** The state in which [main] calls [run]. *)
Definition state_of_main (args : Args) (s : State) : State :=
  mkState (world_of_main args (world s)) (trace s) initial_stats (mkArchiver 0 0).

(** The state in which [main] constructs the janitor. *)
Definition state_before_init (args : Args) (s : State) : State :=
  mkState (world_of_main args (world s)) (trace s) (stats s) (archiver s).

(** Scenarios of the further properties. *)
Definition stale_and_unreadable : State :=
  fresh_state
    (make_world [(mkPath "/sessions" "broken.jsonl",
                  mkFile 1 (noon - Datetime.days 9) (noon - Datetime.days 9) "x"
                         false true true);
                 (a_jsonl, plain_file 120 10 "hello");
                 (mkPath "/sessions" "a.jsonl.deleted.2026Z", plain_file 0 1 "")]
       RegAbsent (Some "1") []).

Definition missing_directory : State :=
  fresh_state (mkWorld [] [] RegAbsent [] true true None ["y"] noon true).

(** [a.jsonl] was modified 10 days ago; no force signal, the user answers
    ["n"]. *)
Definition one_old_file_declined : State :=
  fresh_state (make_world [(a_jsonl, plain_file 120 10 "hello")] RegAbsent None ["n"]).

(** [a.jsonl] was modified 10 days ago, and the system refuses to move a
    file into another directory. *)
Definition one_old_file_no_move : State :=
  fresh_state
    (mkWorld ["/sessions"] [(a_jsonl, plain_file 120 10 "hello")] RegAbsent [] true true
             (Some "1") [] noon false).

(** The janitor in destructive mode with archiving disabled. *)
Definition no_archive_janitor : SwarmJanitor := mkJanitor three_days false false.

Definition clean_forced : Args :=
  mkArgs "/sessions" 3 true true true false true false true.

Definition preview_args : Args :=
  mkArgs "/sessions" 3 true false true false true false false.

(** [--clean --retention-days 1000000]: the cutoff would lie before year 1. *)
Definition far_retention : Args :=
  mkArgs "/sessions" 1000000 true true true false false false false.

(** ** Lemmas on paths, listings and text *)

Lemma Path_eqb_eq (p q : Path) : Path_eqb p q = true <-> p = q.
Proof.
  destruct p as [d n], q as [d' n']; unfold Path_eqb; simpl.
  rewrite andb_true_iff, !String.eqb_eq. split.
  - intros [-> ->]; reflexivity.
  - intros H; injection H; auto.
Qed.

Lemma Path_eqb_refl (p : Path) : Path_eqb p p = true.
Proof. apply Path_eqb_eq; reflexivity. Qed.

Lemma Path_eqb_neq (p q : Path) : p <> q -> Path_eqb p q = false.
Proof.
  intros H. destruct (Path_eqb p q) eqn:E; [|reflexivity].
  apply Path_eqb_eq in E; contradiction.
Qed.

Lemma Path_eqb_sym (p q : Path) : Path_eqb p q = Path_eqb q p.
Proof.
  destruct (Path_eqb q p) eqn:E.
  - apply Path_eqb_eq in E; subst; apply Path_eqb_refl.
  - destruct (Path_eqb p q) eqn:E'; [|reflexivity].
    apply Path_eqb_eq in E'; subst. rewrite Path_eqb_refl in E; discriminate.
Qed.

Lemma lookup_remove_ne (p q : Path) (l : list (Path * File)) :
  p <> q -> lookup p (remove q l) = lookup p l.
Proof.
  intros Hpq. induction l as [|[r f] l IH]; simpl; [reflexivity|].
  destruct (Path_eqb q r) eqn:Eqr; simpl.
  - apply Path_eqb_eq in Eqr; subst r.
    rewrite (Path_eqb_neq p q Hpq). exact IH.
  - destruct (Path_eqb p r); [reflexivity | exact IH].
Qed.

Lemma lookup_remove_eq (p : Path) (l : list (Path * File)) :
  lookup p (remove p l) = None.
Proof.
  induction l as [|[r f] l IH]; simpl; [reflexivity|].
  destruct (Path_eqb p r) eqn:E; simpl; [exact IH|].
  rewrite E; exact IH.
Qed.

Lemma lookup_touched_ne (p q : Path) (now : Z) (l : list (Path * File)) :
  p <> q -> lookup p (touched q now l) = lookup p l.
Proof.
  intros Hpq. induction l as [|[r f] l IH]; simpl.
  - rewrite (Path_eqb_neq p q Hpq); reflexivity.
  - destruct (Path_eqb q r) eqn:Eqr; simpl.
    + apply Path_eqb_eq in Eqr; subst r.
      rewrite (Path_eqb_neq p q Hpq); reflexivity.
    + destruct (Path_eqb p r); [reflexivity | exact IH].
Qed.

Lemma exists_file_touched (p q : Path) (now : Z) (l : list (Path * File)) :
  exists_file p l = true -> exists_file p (touched q now l) = true.
Proof.
  unfold exists_file. induction l as [|[r f] l IH]; simpl; [discriminate|].
  destruct (Path_eqb q r) eqn:Eqr; simpl.
  - destruct (Path_eqb p r); auto.
  - destruct (Path_eqb p r); auto.
Qed.

Lemma exists_file_remove_ne (p q : Path) (l : list (Path * File)) :
  p <> q -> exists_file p (remove q l) = exists_file p l.
Proof. intros H; unfold exists_file; rewrite lookup_remove_ne by exact H; reflexivity. Qed.

Lemma lookup_In (p : Path) (f : File) (l : list (Path * File)) :
  lookup p l = Some f -> In (p, f) l.
Proof.
  induction l as [|[r g] l IH]; simpl; [discriminate|].
  destruct (Path_eqb p r) eqn:E.
  - apply Path_eqb_eq in E; subst. intros H; injection H as ->; left; reflexivity.
  - intros H; right; auto.
Qed.

Lemma prefix_iff (n h : string) :
  String.prefix n h = true <-> exists b, h = (n ++ b)%string.
Proof.
  revert h; induction n as [|c n IH]; intros h; simpl.
  - destruct h; split; eauto.
  - destruct h as [|c' h]; simpl.
    + split; [discriminate | intros [b H]; discriminate].
    + destruct (ascii_dec c c') as [->|Hne].
      * rewrite IH. split; intros [b H]; exists b; [rewrite H; reflexivity | injection H; auto].
      * split; [discriminate | intros [b H]; injection H; intros; congruence].
Qed.

Lemma contains_iff (n h : string) :
  Text.contains n h = true <-> exists a b, h = (a ++ n ++ b)%string.
Proof.
  induction h as [|c h IH]; cbn [Text.contains].
  - rewrite orb_false_r, prefix_iff. split.
    + intros [b H]; exists "", b; exact H.
    + intros [a [b H]]. destruct a; simpl in H; [eauto | discriminate].
  - rewrite orb_true_iff, prefix_iff, IH. split.
    + intros [[b H] | [a [b H]]].
      * exists "", b; exact H.
      * exists (String c a), b; simpl; rewrite H; reflexivity.
    + intros [a [b H]]. destruct a as [|c' a]; simpl in H.
      * left; eauto.
      * right; injection H; intros; eauto.
Qed.

Lemma lstrip_blank (s : string) : Text.lstrip s = "" <-> Text.blank s = true.
Proof.
  induction s as [|c s IH]; simpl; [tauto|].
  destruct (Text.isspace c); simpl; [exact IH | split; discriminate].
Qed.

Lemma rstrip_blank (s : string) : Text.rstrip s = "" <-> Text.blank s = true.
Proof.
  induction s as [|c s IH]; simpl; [tauto|].
  destruct (Text.rstrip s) eqn:E.
  - destruct (Text.isspace c); simpl.
    + split; intros _; [apply IH|]; reflexivity.
    + split; discriminate.
  - split; [discriminate|]. intros H; apply andb_true_iff in H as [_ H].
    apply IH in H; discriminate.
Qed.

Lemma blank_lstrip (s : string) : Text.blank (Text.lstrip s) = Text.blank s.
Proof.
  induction s as [|c s IH]; simpl; [reflexivity|].
  destruct (Text.isspace c) eqn:E; simpl; [exact IH | rewrite E; reflexivity].
Qed.

(** [not content.strip()] holds exactly of the empty and the all-white-space
    texts. *)
Lemma strip_blank (s : string) : Text.strip s = "" <-> Text.blank s = true.
Proof. unfold Text.strip. rewrite rstrip_blank, blank_lstrip. tauto. Qed.

Lemma strip_eqb_blank (s : string) : String.eqb (Text.strip s) "" = Text.blank s.
Proof.
  destruct (Text.blank s) eqn:E.
  - apply String.eqb_eq, strip_blank; exact E.
  - apply String.eqb_neq. intros H; apply strip_blank in H; congruence.
Qed.

Lemma length_append (a b : string) :
  String.length (a ++ b) = (String.length a + String.length b)%nat.
Proof.
  induction a as [|x a IH]; simpl; congruence.
Qed.

Lemma append_cancel_r (a b c : string) : (a ++ c)%string = (b ++ c)%string -> a = b.
Proof.
  revert b; induction a as [|x a IH]; intros [|y b] H.
  - reflexivity.
  - apply (f_equal String.length) in H. cbn [String.append] in H.
    change (String y (b ++ c)) with (String y b ++ c)%string in H.
    rewrite length_append in H; simpl in H; lia.
  - apply (f_equal String.length) in H. cbn [String.append] in H.
    change (String x (a ++ c)) with (String x a ++ c)%string in H.
    rewrite length_append in H; simpl in H; lia.
  - cbn [String.append] in H. injection H as -> H. f_equal; auto.
Qed.

Lemma append_empty_r (s : string) : (s ++ "")%string = s.
Proof. induction s as [|c s IH]; simpl; congruence. Qed.

Lemma isspace_lower_char (c : ascii) :
  Text.isspace (Text.lower_char c) = Text.isspace c.
Proof. destruct c as [[] [] [] [] [] [] [] []]; reflexivity. Qed.

Lemma lower_char_y (c : ascii) :
  Ascii.eqb (Text.lower_char c) "y" = Ascii.eqb c "y" || Ascii.eqb c "Y".
Proof. destruct c as [[] [] [] [] [] [] [] []]; reflexivity. Qed.

Lemma lstrip_lower (r : string) : Text.lstrip (Text.lower r) = Text.lower (Text.lstrip r).
Proof.
  induction r as [|c r IH]; simpl; [reflexivity|].
  rewrite isspace_lower_char. destruct (Text.isspace c); [exact IH | reflexivity].
Qed.

Lemma rstrip_lower (r : string) : Text.rstrip (Text.lower r) = Text.lower (Text.rstrip r).
Proof.
  induction r as [|c r IH]; simpl; [reflexivity|].
  rewrite IH, isspace_lower_char.
  destruct (Text.rstrip r); simpl; [destruct (Text.isspace c)|]; reflexivity.
Qed.

Lemma strip_lower (r : string) : Text.strip (Text.lower r) = Text.lower (Text.strip r).
Proof. unfold Text.strip. rewrite lstrip_lower, rstrip_lower. reflexivity. Qed.

Lemma lstrip_cons_iff (s : string) (c : ascii) (t : string) :
  Text.isspace c = false ->
  (Text.lstrip s = String c t <->
   exists a, Text.blank a = true /\ s = (a ++ String c t)%string).
Proof.
  intros Hc. induction s as [|x s IH]; simpl.
  - split; [discriminate|]. intros [a [_ H]]. destruct a; discriminate.
  - destruct (Text.isspace x) eqn:Hx.
    + rewrite IH. split.
      * intros [a [Ha ->]]. exists (String x a). simpl. rewrite Hx, Ha. auto.
      * intros [a [Ha H]]. destruct a as [|y a]; simpl in H.
        -- injection H as -> _. congruence.
        -- injection H as -> ->. simpl in Ha. apply andb_true_iff in Ha as [_ Ha]. eauto.
    + split.
      * intros H. exists "". simpl. auto.
      * intros [a [Ha H]]. destruct a as [|y a]; simpl in H; [exact H|].
        injection H as -> _. simpl in Ha. rewrite Hx in Ha. discriminate.
Qed.

Lemma rstrip_single_iff (t : string) (c : ascii) :
  Text.isspace c = false ->
  (Text.rstrip t = String c "" <-> exists b, t = String c b /\ Text.blank b = true).
Proof.
  intros Hc. destruct t as [|x t]; simpl.
  - split; [discriminate | intros [b [H _]]; discriminate].
  - destruct (Text.rstrip t) as [|y k] eqn:Hr.
    + apply rstrip_blank in Hr. destruct (Text.isspace x) eqn:Hx.
      * split; [discriminate|]. intros [b [H _]]. injection H as -> _. congruence.
      * split.
        -- intros H. injection H as ->. eauto.
        -- intros [b [H _]]. injection H as -> _. reflexivity.
    + split; [discriminate|]. intros [b [H Hb]]. injection H as -> ->.
      apply rstrip_blank in Hb. congruence.
Qed.

Lemma strip_single_iff (s : string) (c : ascii) :
  Text.isspace c = false ->
  (Text.strip s = String c "" <->
   exists a b, s = (a ++ String c b)%string
               /\ Text.blank a = true /\ Text.blank b = true).
Proof.
  intros Hc. unfold Text.strip. rewrite (rstrip_single_iff _ _ Hc). split.
  - intros [b [Hl Hb]]. apply (lstrip_cons_iff _ _ _ Hc) in Hl as [a [Ha ->]]. eauto.
  - intros [a [b [-> [Ha Hb]]]]. exists b. split; [|exact Hb].
    apply (lstrip_cons_iff _ _ _ Hc). eauto.
Qed.

Lemma lookup_touched_eq (m : Path) (now : Z) (l : list (Path * File)) :
  lookup m (touched m now l)
  = Some (match lookup m l with
          | Some f => mkFile (st_size f) now now (content f) (stat_ok f) (read_ok f)
                             (unlink_ok f)
          | None => mkFile 0 now now "" true true true
          end).
Proof.
  induction l as [|[q f] l IH]; simpl.
  - rewrite Path_eqb_refl; reflexivity.
  - destruct (Path_eqb m q) eqn:E; simpl; rewrite E; [reflexivity | exact IH].
Qed.

Lemma lookup_remove_some (p q : Path) (f : File) (l : list (Path * File)) :
  lookup p (remove q l) = Some f -> p <> q /\ lookup p l = Some f.
Proof.
  intros H. assert (Hne : p <> q).
  { intros ->. rewrite lookup_remove_eq in H; discriminate. }
  split; [exact Hne|]. rewrite lookup_remove_ne in H by exact Hne. exact H.
Qed.

Lemma substring_0_length (n : nat) (s : string) :
  (String.length (substring 0 n s) <= n)%nat.
Proof.
  revert s; induction n as [|n IH]; intros [|c s]; simpl; try lia.
  specialize (IH s). lia.
Qed.

Lemma substring_0_prefix (n : nat) (s : string) :
  exists rest, s = (substring 0 n s ++ rest)%string.
Proof.
  revert s; induction n as [|n IH]; intros [|c s]; simpl.
  - exists ""; reflexivity.
  - eexists; reflexivity.
  - exists ""; reflexivity.
  - destruct (IH s) as [rest H]. exists rest. rewrite <- H; reflexivity.
Qed.

Lemma store_get_put (k : string) (e : ArchiveEntry) (l : list (string * ArchiveEntry)) :
  store_get k (store_put k e l) = Some e.
Proof.
  induction l as [|[k' e'] l IH]; simpl.
  - rewrite String.eqb_refl; reflexivity.
  - destruct (String.eqb k k') eqn:E; simpl.
    + rewrite String.eqb_refl; reflexivity.
    + rewrite E; exact IH.
Qed.

Lemma store_get_put_other (k k' : string) (e : ArchiveEntry)
    (l : list (string * ArchiveEntry)) :
  k' <> k -> store_get k' (store_put k e l) = store_get k' l.
Proof.
  intros Hne. induction l as [|[k0 e0] l IH]; simpl.
  - apply String.eqb_neq in Hne; rewrite Hne; reflexivity.
  - destruct (String.eqb k k0) eqn:E; simpl.
    + apply String.eqb_eq in E; subst k0.
      apply String.eqb_neq in Hne; rewrite Hne; reflexivity.
    + destruct (String.eqb k' k0); [reflexivity | exact IH].
Qed.

Lemma lookup_app (p : Path) (l1 l2 : list (Path * File)) :
  lookup p (l1 ++ l2)
  = match lookup p l1 with Some f => Some f | None => lookup p l2 end.
Proof.
  induction l1 as [|[q f] l1 IH]; simpl; [reflexivity|].
  destruct (Path_eqb p q); [reflexivity | exact IH].
Qed.

(** ** The scanner only reads and logs *)

Lemma log_more_nil (s : State) : log_more s [] = s.
Proof. destruct s; unfold log_more; simpl; rewrite app_nil_r; reflexivity. Qed.

Lemma log_more_app (s : State) (a b : list event) :
  log_more (log_more s a) b = log_more s (a ++ b).
Proof. unfold log_more; simpl; rewrite app_assoc; reflexivity. Qed.

Lemma processed_app (a b : list event) : processed (a ++ b) = processed a ++ processed b.
Proof. unfold processed; apply flat_map_app. Qed.

Ltac unfold_m :=
  cbv beta iota zeta delta
    [try_except bind ret raise lift emit modify_stats get_stats set_stats
     modify_archiver get_world set_files set_archive_store set_stdin
     datetime_now dir_exists path_exists stat read_text unlink touch
     write_archive input getenv_force glob_jsonl] in *.

Ltac step :=
  simpl;
  repeat match goal with
         | H : ?x = _ |- context [match ?x with _ => _ end] => rewrite H; simpl
         end.

Lemma emit_run (e : event) (s : State) : emit e s = (Ok tt, log_more s [e]).
Proof. reflexivity. Qed.

Lemma is_process_active_run (self : SessionAnalyzer) (sid : string) (s : State) :
  exists evs,
    _is_process_active self sid s = (Ok (liveness (world s) sid), log_more s evs)
    /\ processed evs = [].
Proof.
  unfold _is_process_active, liveness; unfold_m; simpl.
  destruct (registry (world s)) as [| |entries]; simpl.
  - exists []; rewrite log_more_nil; auto.
  - exists [WarnProcessStatus ValueError]; auto.
  - destruct (examine_entries sid (clock (world s)) entries) as [b|e]; simpl.
    + exists []; rewrite log_more_nil; auto.
    + exists [WarnProcessStatus e]; auto.
Qed.

Lemma analyze_file_run (self : SessionAnalyzer) (p : Path) (s : State) :
  exists evs,
    analyze_file self p s = (analysis self (world s) p, log_more s evs)
    /\ processed evs = [].
Proof.
  unfold analyze_file, analysis.
  unfold bind at 1; unfold stat; unfold_m; simpl.
  destruct (lookup p (files (world s))) as [f|]; simpl;
    [| exists []; rewrite log_more_nil; auto].
  destruct (stat_ok f); simpl; [| exists []; rewrite log_more_nil; auto].
  destruct (Datetime.fromtimestamp (st_mtime f)) as [mtime|e]; simpl;
    [| exists []; rewrite log_more_nil; auto].
  destruct (is_process_active_run self (Text.stem (name p)) s) as [evs [Hrun Hevs]].
  unfold bind, ret in Hrun |- *. rewrite Hrun; simpl.
  exists evs; split; [|exact Hevs].
  destruct (liveness (world s) (Text.stem (name p))); reflexivity.
Qed.

Lemma scan_loop_run (self : SessionAnalyzer) (paths : list Path) :
  forall (acc : list SessionRecord) (s : State),
  exists evs,
    scan_loop self paths acc s
    = (Ok (acc ++ scanned_records self (world s) paths), log_more s evs)
    /\ processed evs = [].
Proof.
  induction paths as [|p paths IH]; intros acc s; simpl.
  - exists []; rewrite log_more_nil, app_nil_r; auto.
  - destruct (Text.contains ".deleted." (name p)); simpl; [apply IH|].
    destruct (analyze_file_run self p s) as [evs1 [Hrun Hevs1]].
    unfold bind at 1; unfold try_except; unfold bind at 1.
    rewrite Hrun.
    destruct (analysis self (world s) p) as [r|e]; simpl.
    + destruct (IH (acc ++ [r]) (log_more s evs1)) as [evs2 [Hrest Hevs2]].
      unfold ret; rewrite Hrest; simpl.
      exists (evs1 ++ evs2); rewrite log_more_app, <- app_assoc, processed_app.
      rewrite Hevs1, Hevs2; auto.
    + destruct (IH acc (log_more (log_more s evs1) [WarnAnalyzeError p e]))
        as [evs2 [Hrest Hevs2]].
      unfold bind, emit, ret; simpl. unfold log_more in Hrest at 1 2; simpl in Hrest.
      unfold log_more at 1; simpl.
      rewrite Hrest; simpl.
      exists (evs1 ++ [WarnAnalyzeError p e] ++ evs2).
      rewrite !processed_app, Hevs1, Hevs2; simpl. split; [|reflexivity].
      unfold log_more; simpl; rewrite <- !app_assoc; reflexivity.
Qed.

Lemma scan_sessions_run (self : SessionAnalyzer) (s : State) :
  exists evs,
    scan_sessions self s = (Ok (scan_result self (world s)), log_more s evs)
    /\ processed evs = [].
Proof.
  unfold scan_sessions, scan_result, session_paths.
  unfold bind at 1; unfold dir_exists; unfold_m; simpl.
  destruct (existsb (String.eqb (sessions_dir self)) (dirs (world s))); simpl.
  - destruct (scan_loop_run self
                (filter (fun p => String.eqb (parent p) (sessions_dir self)
                                  && Text.endswith (name p) ".jsonl")
                        (map fst (files (world s)))) [] s) as [evs [Hrun Hevs]].
    rewrite Hrun; simpl. exists evs; auto.
  - exists [ErrSessionsDirNotFound (sessions_dir self)]; auto.
Qed.

(** ** The sort *)

Lemma insert_by_modified_perm (r : SessionRecord) (l : list SessionRecord) :
  Permutation (r :: l) (insert_by_modified r l).
Proof.
  induction l as [|r' l IH]; simpl; [apply Permutation_refl|].
  destruct (modified r <=? modified r'); [apply Permutation_refl|].
  eapply perm_trans; [apply perm_swap | apply perm_skip, IH].
Qed.

Lemma sorted_by_modified_perm (l : list SessionRecord) :
  Permutation l (sorted_by_modified l).
Proof.
  induction l as [|r l IH]; simpl; [apply perm_nil|].
  eapply perm_trans; [apply perm_skip, IH | apply insert_by_modified_perm].
Qed.

Lemma sorted_by_modified_In (r : SessionRecord) (l : list SessionRecord) :
  In r (sorted_by_modified l) <-> In r l.
Proof.
  split; apply Permutation_in;
    [apply Permutation_sym|]; apply sorted_by_modified_perm.
Qed.

Lemma insert_by_modified_ascending (r : SessionRecord) (l : list SessionRecord) :
  ascending l -> ascending (insert_by_modified r l).
Proof.
  unfold ascending. induction l as [|r' l IH]; intros Hs; simpl.
  - constructor; constructor.
  - destruct (modified r <=? modified r') eqn:E.
    + apply Z.leb_le in E. constructor; [exact Hs|].
      constructor; [exact E|].
      inversion Hs as [|? ? _ Hall]; subst.
      eapply Forall_impl; [|exact Hall]. intros a Ha; simpl in Ha; lia.
    + apply Z.leb_gt in E. inversion Hs as [|? ? Hl Hall]; subst.
      constructor; [apply IH; exact Hl|].
      apply Forall_forall. intros x Hx.
      apply (Permutation_in _ (Permutation_sym (insert_by_modified_perm r l))) in Hx.
      destruct Hx as [<-|Hx]; [lia|].
      rewrite Forall_forall in Hall; apply Hall; exact Hx.
Qed.

Lemma sorted_by_modified_ascending (l : list SessionRecord) :
  ascending (sorted_by_modified l).
Proof.
  induction l as [|r l IH]; simpl.
  - constructor.
  - apply insert_by_modified_ascending; exact IH.
Qed.

Lemma ascending_filter (f : SessionRecord -> bool) (l : list SessionRecord) :
  ascending l -> ascending (filter f l).
Proof.
  unfold ascending. induction 1 as [|a l Hl IH Ha]; simpl; [constructor|].
  destruct (f a); [|exact IH].
  constructor; [exact IH|].
  apply Forall_forall; intros x Hx. apply filter_In in Hx as [Hx _].
  rewrite Forall_forall in Ha; auto.
Qed.

(** ** What the scanner records about a file *)

Lemma scanned_records_inv (self : SessionAnalyzer) (w : World) (paths : list Path)
    (r : SessionRecord) :
  In r (scanned_records self w paths) ->
  exists f,
    In (path r) paths
    /\ Text.contains ".deleted." (name (path r)) = false
    /\ lookup (path r) (files w) = Some f
    /\ file r = name (path r)
    /\ session_id r = Text.stem (name (path r))
    /\ size_bytes r = st_size f
    /\ modified r = st_mtime f
    /\ is_orphaned r = negb (liveness w (session_id r))
    /\ reason r =
         (if modified r <? cutoff_date self then [OlderThan (retention_days self)] else [])
         ++ (if liveness w (session_id r) then [] else [NoActiveProcess]).
Proof.
  unfold scanned_records. rewrite in_flat_map. intros [p [Hp Hr]].
  destruct (Text.contains ".deleted." (name p)) eqn:Hdel; [destruct Hr|].
  unfold analysis in Hr.
  destruct (lookup p (files w)) as [f|] eqn:Hf; [|destruct Hr].
  destruct (stat_ok f); [|destruct Hr].
  unfold Datetime.fromtimestamp in Hr.
  destruct ((Datetime.min_us + Datetime.days 1 <=? st_mtime f)
            && (st_mtime f <=? Datetime.max_us)) eqn:Hrange;
    [|destruct Hr].
  destruct (liveness w (Text.stem (name p))) eqn:Hlive; simpl in Hr;
    destruct Hr as [<-|[]]; simpl; exists f; rewrite ?Hlive, ?app_nil_r; tauto.
Qed.

Lemma scan_result_inv (self : SessionAnalyzer) (w : World) (r : SessionRecord) :
  In r (scan_result self w) ->
  exists f,
    parent (path r) = sessions_dir self
    /\ Text.endswith (name (path r)) ".jsonl" = true
    /\ Text.contains ".deleted." (name (path r)) = false
    /\ lookup (path r) (files w) = Some f
    /\ file r = name (path r)
    /\ session_id r = Text.stem (name (path r))
    /\ size_bytes r = st_size f
    /\ modified r = st_mtime f
    /\ is_orphaned r = negb (liveness w (session_id r))
    /\ reason r =
         (if modified r <? cutoff_date self then [OlderThan (retention_days self)] else [])
         ++ (if liveness w (session_id r) then [] else [NoActiveProcess]).
Proof.
  unfold scan_result.
  destruct (existsb (String.eqb (sessions_dir self)) (dirs w)); [|intros []].
  rewrite sorted_by_modified_In. intros Hr.
  apply scanned_records_inv in Hr as [f [Hp H]].
  unfold session_paths in Hp. apply filter_In in Hp as [_ Hp].
  apply andb_true_iff in Hp as [Hd Hn]. apply String.eqb_eq in Hd.
  exists f. tauto.
Qed.

Lemma scanned_records_intro (self : SessionAnalyzer) (w : World) (paths : list Path)
    (p : Path) (r : SessionRecord) :
  In p paths ->
  Text.contains ".deleted." (name p) = false ->
  analysis self w p = Ok r ->
  In r (scanned_records self w paths).
Proof.
  intros Hp Hdel Hr. unfold scanned_records. apply in_flat_map.
  exists p; split; [exact Hp|]. rewrite Hdel, Hr. left; reflexivity.
Qed.

(** A session file that [stat] finds, with a modification time that denotes
    a date, has its record in the scan. *)
Lemma scan_result_intro (self : SessionAnalyzer) (w : World) (p : Path) (f : File) :
  existsb (String.eqb (sessions_dir self)) (dirs w) = true ->
  parent p = sessions_dir self ->
  Text.endswith (name p) ".jsonl" = true ->
  Text.contains ".deleted." (name p) = false ->
  lookup p (files w) = Some f ->
  stat_ok f = true ->
  denotes_date (st_mtime f) = true ->
  exists r,
    In r (scan_result self w)
    /\ path r = p
    /\ session_id r = Text.stem (name p)
    /\ size_bytes r = st_size f
    /\ modified r = st_mtime f
    /\ is_orphaned r = negb (liveness w (Text.stem (name p))).
Proof.
  intros Hdir Hparent Hend Hdel Hf Hstat Hdate.
  assert (Han : exists r, analysis self w p = Ok r
                          /\ path r = p
                          /\ session_id r = Text.stem (name p)
                          /\ size_bytes r = st_size f
                          /\ modified r = st_mtime f
                          /\ is_orphaned r = negb (liveness w (Text.stem (name p)))).
  { unfold analysis. rewrite Hf, Hstat.
    replace (Datetime.fromtimestamp (st_mtime f)) with (@Ok Z (st_mtime f))
      by (unfold Datetime.fromtimestamp; unfold denotes_date in Hdate;
          rewrite Hdate; reflexivity).
    destruct (liveness w (Text.stem (name p))); eexists; split;
      try reflexivity; simpl; auto. }
  destruct Han as [r [Han Hr]]. exists r. split; [|exact Hr].
  unfold scan_result. rewrite Hdir. apply sorted_by_modified_In.
  apply (scanned_records_intro _ _ _ p); [| exact Hdel | exact Han].
  unfold session_paths. apply filter_In. split.
  - apply lookup_In in Hf. apply (in_map fst) in Hf; exact Hf.
  - rewrite Hparent, String.eqb_refl, Hend; reflexivity.
Qed.

(** The scan is a rearrangement of the records the loop collects. *)
Lemma scan_result_perm (self : SessionAnalyzer) (w : World) :
  existsb (String.eqb (sessions_dir self)) (dirs w) = true ->
  Permutation (scanned_records self w (session_paths (sessions_dir self) w))
              (scan_result self w).
Proof.
  intros Hdir. unfold scan_result. rewrite Hdir. apply sorted_by_modified_perm.
Qed.

Lemma scan_result_ascending (self : SessionAnalyzer) (w : World) :
  ascending (scan_result self w).
Proof.
  unfold scan_result.
  destruct (existsb (String.eqb (sessions_dir self)) (dirs w)).
  - apply sorted_by_modified_ascending.
  - constructor.
Qed.

(** ** Liveness, entry by entry *)

Lemma fromtimestamp_denotes (t : Z) :
  Datetime.fromtimestamp t = if denotes_date t then Ok t else Raise ValueError.
Proof. reflexivity. Qed.

Lemma denotes_date_true_1000 : denotes_date 1000 = true.
Proof. vm_compute. reflexivity. Qed.

(** What the conversion of a truthy ["updatedAt"] gives. *)
Lemma update_time (sidv : option pyval) (v : pyval) :
  py_truthy v = true ->
  (unusable_update v = true
   /\ last_update (EDict sidv (Some v)) = None
   /\ exists x,
        match Datetime.millis_to_timestamp v with
        | Ok ts => Datetime.fromtimestamp ts
        | Raise e => Raise e
        end = Raise x)
  \/ (unusable_update v = false
      /\ exists t,
           last_update (EDict sidv (Some v)) = Some t
           /\ match Datetime.millis_to_timestamp v with
              | Ok ts => Datetime.fromtimestamp ts
              | Raise e => Raise e
              end = Ok t).
Proof.
  destruct v as [|[|]|z|text|repr nonempty]; cbn [py_truthy]; intros Ht; try discriminate.
  - right. split; [reflexivity|]. exists 1000. split; [reflexivity|].
    cbn [Datetime.millis_to_timestamp]. rewrite fromtimestamp_denotes, denotes_date_true_1000.
    reflexivity.
  - cbn [unusable_update last_update Datetime.millis_to_timestamp].
    rewrite fromtimestamp_denotes, Ht.
    destruct (denotes_date (z * 1000)); cbn [negb andb].
    + right. split; [reflexivity|]. eauto.
    + left. repeat split; eauto.
  - left. cbn [unusable_update last_update Datetime.millis_to_timestamp]. repeat split; eauto.
  - left. cbn [unusable_update last_update Datetime.millis_to_timestamp]. repeat split; eauto.
Qed.

Lemma last_update_falsy (sidv : option pyval) (v : pyval) :
  py_truthy v = false ->
  unusable_update v = false /\ last_update (EDict sidv (Some v)) = None.
Proof.
  destruct v as [|[|]|z|text|repr nonempty]; cbn [py_truthy unusable_update last_update];
    intros Ht; try discriminate; try (split; reflexivity).
  - rewrite Ht; split; reflexivity.
  - split; [exact Ht | reflexivity].
  - split; [exact Ht | reflexivity].
Qed.

(** The examination of a matching entry. *)
Lemma examine_matching (now : Z) (sidv upd : option pyval) :
  let raises := match upd with Some v => unusable_update v | None => false end in
  (raises = true ->
   exists x,
     (let updated_at := match upd with Some v => v | None => PInt 0 end in
      if py_truthy updated_at then
        match Datetime.millis_to_timestamp updated_at with
        | Raise e => Raise e
        | Ok ts =>
            match Datetime.fromtimestamp ts with
            | Raise e => Raise e
            | Ok updated_dt => Ok (now - updated_dt <? Datetime.hours 1)
            end
        end
      else Ok false) = Raise x)
  /\ (raises = false ->
      (let updated_at := match upd with Some v => v | None => PInt 0 end in
       if py_truthy updated_at then
         match Datetime.millis_to_timestamp updated_at with
         | Raise e => Raise e
         | Ok ts =>
             match Datetime.fromtimestamp ts with
             | Raise e => Raise e
             | Ok updated_dt => Ok (now - updated_dt <? Datetime.hours 1)
             end
         end
       else Ok false) = Ok (recently_updated now (EDict sidv upd))).
Proof.
  intros raises. unfold raises, recently_updated. destruct upd as [v|]; cbv zeta.
  - destruct (py_truthy v) eqn:Ht.
    + destruct (update_time sidv v Ht) as [[Hu [Hl [x Hx]]]|[Hu [t [Hl Ht']]]];
        rewrite Hu, Hl.
      * split; [intros _|discriminate].
        destruct (Datetime.millis_to_timestamp v) as [ts|e]; [rewrite Hx|]; eauto.
      * split; [discriminate|intros _].
        destruct (Datetime.millis_to_timestamp v) as [ts|e]; [rewrite Ht'|discriminate].
        reflexivity.
    + destruct (last_update_falsy sidv v Ht) as [Hu Hl]. rewrite Hu, Hl.
      split; [discriminate | reflexivity].
  - split; [discriminate | reflexivity].
Qed.

(** One turn of the loop raises exactly on the entries of [entry_raises],
    and otherwise answers whether the entry is a live match. *)
Lemma examine_entry_spec (sid : string) (now : Z) (key : string) (e : RegistryEntry) :
  (entry_raises sid (key, e) = true -> exists x, examine_entry sid now key e = Raise x)
  /\ (entry_raises sid (key, e) = false ->
      examine_entry sid now key e = Ok (live_match sid now (key, e))).
Proof.
  unfold examine_entry, entry_raises, live_match, matches; cbn [fst snd].
  destruct e as [|sidv upd].
  - split; [intros _|discriminate].
    destruct (Text.contains sid key); eauto.
  - pose proof (examine_matching now sidv upd) as [Hraise Hlive]. cbv zeta in Hraise, Hlive.
    destruct (Text.contains sid key); cbn [orb andb].
    + split; [exact Hraise | exact Hlive].
    + destruct (Text.contains sid _); cbn [andb].
      * split; [exact Hraise | exact Hlive].
      * split; [discriminate | reflexivity].
Qed.

Lemma live_match_no_raise (sid : string) (now : Z) (ke : string * RegistryEntry) :
  live_match sid now ke = true -> entry_raises sid ke = false.
Proof.
  destruct ke as [key e]. unfold live_match, entry_raises, recently_updated; cbn [fst snd].
  intros H. apply andb_true_iff in H as [Hm Hr]. rewrite ?Hm.
  destruct e as [|sidv [v|]]; cbn [last_update] in Hr; try discriminate.
  cbn [andb].
  destruct v as [|[|]|z|text|repr nonempty]; cbn [last_update unusable_update] in *;
    try discriminate; try reflexivity.
  destruct (z =? 0); cbn [negb andb] in *; [reflexivity|].
  destruct (denotes_date (z * 1000)); [reflexivity | discriminate].
Qed.

Lemma examine_entry_true (sid : string) (now : Z) (key : string) (e : RegistryEntry) :
  examine_entry sid now key e = Ok true <-> live_match sid now (key, e) = true.
Proof.
  destruct (examine_entry_spec sid now key e) as [Hraise Hlive]. split.
  - intros H. destruct (entry_raises sid (key, e)) eqn:Hr.
    + destruct (Hraise eq_refl) as [x Hx]. congruence.
    + rewrite (Hlive eq_refl) in H. congruence.
  - intros H. rewrite (Hlive (live_match_no_raise _ _ _ H)), H. reflexivity.
Qed.

Lemma examine_entries_true (sid : string) (now : Z) (entries : list (string * RegistryEntry)) :
  examine_entries sid now entries = Ok true <-> reaches_live_match sid now entries.
Proof.
  unfold reaches_live_match. induction entries as [|[key e] entries IH]; simpl.
  - split; [discriminate|]. intros [pre [ke [post [H _]]]]. destruct pre; discriminate.
  - pose proof (examine_entry_true sid now key e) as Hlive.
    destruct (examine_entry_spec sid now key e) as [Hraise Hok].
    destruct (examine_entry sid now key e) as [[|]|x] eqn:Hex.
    + split; [intros _ | reflexivity].
      exists [], (key, e), entries; simpl; repeat split. apply Hlive; reflexivity.
    + assert (Hnr : entry_raises sid (key, e) = false).
      { destruct (entry_raises sid (key, e)); [|reflexivity].
        destruct (Hraise eq_refl) as [x Hx]; discriminate. }
      rewrite IH. split.
      * intros [pre [ke [post [-> [Hl Hpre]]]]].
        exists ((key, e) :: pre), ke, post; simpl. repeat split; auto.
        rewrite Hnr; exact Hpre.
      * intros [pre [ke [post [Heq [Hl Hpre]]]]].
        destruct pre as [|y pre]; simpl in Heq; injection Heq; intros; subst.
        -- apply Hlive in Hl; discriminate.
        -- simpl in Hpre; apply andb_true_iff in Hpre as [_ Hpre]. eauto 6.
    + assert (Hr : entry_raises sid (key, e) = true).
      { destruct (entry_raises sid (key, e)); [reflexivity|].
        specialize (Hok eq_refl); discriminate. }
      split; [discriminate|].
      intros [pre [ke [post [Heq [Hl Hpre]]]]].
      destruct pre as [|y pre]; simpl in Heq; injection Heq; intros; subst.
      * apply live_match_no_raise in Hl. congruence.
      * simpl in Hpre. rewrite Hr in Hpre; discriminate.
Qed.

Lemma liveness_true (w : World) (sid : string) :
  liveness w sid = true <->
  exists entries,
    registry w = RegSessions entries /\ reaches_live_match sid (clock w) entries.
Proof.
  unfold liveness. destruct (registry w) as [| |entries].
  - split; [discriminate | intros [e [H _]]; discriminate].
  - split; [discriminate | intros [e [H _]]; discriminate].
  - split.
    + intros H. exists entries; split; [reflexivity|].
      apply examine_entries_true.
      destruct (examine_entries sid (clock w) entries) as [b|]; congruence.
    + intros [e' [Heq H]]; injection Heq as <-.
      apply examine_entries_true in H. rewrite H; reflexivity.
Qed.

(** In a registry none of whose entries raises, liveness is the existence of
    a live match. *)
Lemma reaches_live_match_no_raise (sid : string) (now : Z)
    (entries : list (string * RegistryEntry)) :
  forallb (fun x => negb (entry_raises sid x)) entries = true ->
  (reaches_live_match sid now entries <->
   exists ke, In ke entries /\ live_match sid now ke = true).
Proof.
  intros Hclean. split.
  - intros [pre [ke [post [-> [Hl _]]]]]. exists ke; split; [|exact Hl].
    apply in_or_app; right; left; reflexivity.
  - intros [ke [Hin Hl]]. apply in_split in Hin as [pre [post ->]].
    exists pre, ke, post; repeat split; auto.
    rewrite forallb_app in Hclean. apply andb_true_iff in Hclean; tauto.
Qed.

(** An entry of the documented shape never makes the check raise. *)
Lemma documented_shape_no_raise (sid : string) (key : string) (e : RegistryEntry) :
  documented_shape e = true -> entry_raises sid (key, e) = false.
Proof.
  unfold entry_raises; cbn [fst snd].
  destruct e as [|sidv [v|]]; cbn [documented_shape]; try discriminate.
  - destruct v as [|[|]|z|text|repr nonempty]; try discriminate.
    intros H. cbn [unusable_update]. rewrite H, !andb_false_r. reflexivity.
  - intros _. apply andb_false_r.
Qed.

(** An entry that raises, with no live match before it, ends the loop with
    the exception. *)
Lemma examine_entries_raise (sid : string) (now : Z)
    (pre : list (string * RegistryEntry)) (ke : string * RegistryEntry)
    (post : list (string * RegistryEntry)) :
  forallb (fun x => negb (live_match sid now x)) pre = true ->
  entry_raises sid ke = true ->
  exists x, examine_entries sid now (pre ++ ke :: post) = Raise x.
Proof.
  intros Hpre Hke. induction pre as [|[key e] pre IH]; simpl in *.
  - destruct ke as [key e].
    destruct (proj1 (examine_entry_spec sid now key e) Hke) as [x Hx].
    rewrite Hx. eauto.
  - apply andb_true_iff in Hpre as [Hl Hpre]. apply negb_true_iff in Hl.
    destruct (examine_entry_spec sid now key e) as [Hraise Hok].
    destruct (entry_raises sid (key, e)).
    + destruct (Hraise eq_refl) as [x Hx]. rewrite Hx. eauto.
    + rewrite (Hok eq_refl), Hl. apply IH; exact Hpre.
Qed.

(** ** The archiver and the per-record step, as functions of what they read *)

#[local] Arguments Text.strip : simpl never.
#[local] Arguments Text.lower : simpl never.
#[local] Arguments Text.stem : simpl never.
#[local] Arguments String.eqb : simpl never.
#[local] Arguments String.append : simpl never.
#[local] Arguments substring : simpl never.
#[local] Arguments lookup : simpl never.
#[local] Arguments remove : simpl never.
#[local] Arguments touched : simpl never.
#[local] Arguments store_put : simpl never.

Section Steps.

Variable strftime : string -> Z -> string.

Lemma archive_session_run (p : Path) (s : State) :
  exists evs store' arch',
    archive_session strftime p s
    = (Ok (archive_result (world s) p),
       mkState (with_store (world s) store') (trace s ++ evs) (stats s) arch')
    /\ processed evs = []
    /\ (archive_result (world s) p = false -> store' = archive_store (world s))
    /\ (forall f, lookup p (files (world s)) = Some f ->
        read_ok f = true -> Text.blank (content f) = true ->
        store' = archive_store (world s) /\ arch' = archiver s).
Proof.
  unfold archive_session, archive_result; unfold_m.
  destruct s as [w tr st ar]; simpl.
  destruct (lookup p (files w)) as [f|] eqn:Hf; step.
  - destruct (stat_ok f) eqn:Hstat; step.
    + destruct (read_ok f) eqn:Hread; step.
      * rewrite strip_eqb_blank.
        destruct (Text.blank (content f)) eqn:Hblank; step.
        -- exists [InfoEmptyTranscript p], (archive_store w), ar.
           destruct w; simpl; repeat split; auto.
        -- destruct (archive_store_ok w) eqn:Hok; step.
           ++ eexists [InfoArchived p _], _, _.
              split; [reflexivity|]. repeat split; auto; try discriminate;
              try congruence.
           ++ eexists [ErrArchiveFailed p OSError], (archive_store w), _.
              destruct w; simpl in *. split; [reflexivity|].
              repeat split; auto; try congruence.
      * eexists [ErrArchiveFailed p OSError], (archive_store w), _.
        destruct w; simpl; split; [reflexivity|].
        repeat split; auto; try congruence.
    + exists [WarnSessionFileNotFound p], (archive_store w), ar.
      destruct w; simpl; repeat split; auto; discriminate.
  - exists [WarnSessionFileNotFound p], (archive_store w), ar.
    destruct w; simpl; repeat split; auto; discriminate.
Qed.

Ltac finish w :=
  destruct w; simpl in *; subst; unfold with_store, with_files; simpl;
  repeat split; auto; try discriminate.

Lemma process_session_run (self : SwarmJanitor) (r : SessionRecord) (s : State) :
  exists evs store' arch',
    _process_session strftime self r s
    = (Ok tt,
       mkState (with_store (with_files (world s) (files_after strftime self (world s) (path r))) store')
               (trace s ++ evs)
               (stats_after self (world s) (path r) (stats s))
               arch')
    /\ processed evs = [path r]
    /\ (proceeds self (world s) (path r) = false -> store' = archive_store (world s)).
Proof.
  unfold _process_session.
  unfold files_after, stats_after, proceeds, removable, size_on_disk.
  destruct (archive_enabled self) eqn:Harch.
  - destruct (archive_session_run (path r) s) as [evs [store' [arch' [Hrun [Hevs [Hfail _]]]]]].
    unfold_m. rewrite Hrun. destruct s as [w tr st ar]; simpl in *.
    destruct (archive_result w (path r)) eqn:Hres; step.
    + destruct (lookup (path r) (files w)) as [f|] eqn:Hf; step.
      * destruct (stat_ok f) eqn:Hstat; step.
        -- destruct (unlink_ok f) eqn:Hunl; step.
           ++ destruct (touch_ok w) eqn:Htouch; step.
              ** eexists (evs ++ [InfoDeleted (path r)]), store', arch'.
                 rewrite processed_app, Hevs, app_assoc. finish w.
              ** eexists (evs ++ [ErrProcessFailed (path r) OSError]), store', arch'.
                 rewrite processed_app, Hevs, app_assoc. finish w.
           ++ eexists (evs ++ [ErrProcessFailed (path r) PermissionError]), store', arch'.
              rewrite processed_app, Hevs, app_assoc. finish w.
        -- eexists (evs ++ [ErrProcessFailed (path r) FileNotFoundError]), store', arch'.
           rewrite processed_app, Hevs, app_assoc. finish w.
      * eexists (evs ++ [ErrProcessFailed (path r) FileNotFoundError]), store', arch'.
        rewrite processed_app, Hevs, app_assoc. finish w.
    + eexists (evs ++ [WarnArchiveSkip (path r)]), store', arch'.
      rewrite processed_app, Hevs, app_assoc. finish w.
  - unfold_m. destruct s as [w tr st ar]; simpl in *.
    destruct (lookup (path r) (files w)) as [f|] eqn:Hf; step.
    + destruct (stat_ok f) eqn:Hstat; step.
      * destruct (unlink_ok f) eqn:Hunl; step.
        -- destruct (touch_ok w) eqn:Htouch; step.
           ++ eexists [InfoDeleted (path r)], (archive_store w), ar.
              finish w.
           ++ eexists [ErrProcessFailed (path r) OSError], (archive_store w), ar.
              finish w.
        -- eexists [ErrProcessFailed (path r) PermissionError], (archive_store w), ar.
           finish w.
      * eexists [ErrProcessFailed (path r) FileNotFoundError], (archive_store w), ar.
        finish w.
    + eexists [ErrProcessFailed (path r) FileNotFoundError], (archive_store w), ar.
      finish w.
Qed.

End Steps.

(** ** Confirmation *)

Lemma confirm_action_run (count : Z) (s : State) :
  exists evs stdin',
    _confirm_action count s
    = (Ok (confirms (world s)),
       mkState (with_stdin (world s) stdin') (trace s ++ evs) (stats s) (archiver s))
    /\ processed evs = []
    /\ (force_signal (world s) = true -> evs = [] /\ stdin' = stdin (world s))
    /\ (force_signal (world s) = false -> stdin' = tl (stdin (world s))
        /\ exists rest, evs = Prompt count :: rest).
Proof.
  unfold _confirm_action, confirms, force_signal, affirmative; unfold_m.
  destruct s as [w tr st ar]; simpl.
  destruct (match environ_force w with
            | Some v => negb (String.eqb v "")
            | None => false
            end) eqn:Hforce; simpl.
  - exists [], (stdin w). rewrite app_nil_r. destruct w; simpl.
    repeat split; auto; discriminate.
  - destruct (stdin w) as [|line rest] eqn:Hin; simpl.
    + exists [Prompt count; WarnNonInteractive], [].
      rewrite <- app_assoc; simpl. destruct w; simpl in *; subst.
      repeat split; auto; try discriminate. eauto.
    + exists [Prompt count], rest. destruct w; simpl in *; subst.
      repeat split; auto; try discriminate. eauto.
Qed.

(** ** The processing loop and the run *)

Section Run.

Variable strftime : string -> Z -> string.

Lemma process_session_exec (self : SwarmJanitor) (r : SessionRecord) (s : State) :
  _process_session strftime self r s = (Ok tt, exec (_process_session strftime self r) s).
Proof.
  destruct (process_session_run strftime self r s) as [evs [st' [ar' [H _]]]].
  unfold exec; rewrite H; reflexivity.
Qed.

Lemma process_session_files (self : SwarmJanitor) (r : SessionRecord) (s : State) :
  files (world (exec (_process_session strftime self r) s)) = files_after strftime self (world s) (path r).
Proof.
  destruct (process_session_run strftime self r s) as [evs [st' [ar' [H _]]]].
  unfold exec; rewrite H; reflexivity.
Qed.

Lemma process_session_stats (self : SwarmJanitor) (r : SessionRecord) (s : State) :
  stats (exec (_process_session strftime self r) s) = stats_after self (world s) (path r) (stats s).
Proof.
  destruct (process_session_run strftime self r s) as [evs [st' [ar' [H _]]]].
  unfold exec; rewrite H; reflexivity.
Qed.

Lemma process_session_env (self : SwarmJanitor) (r : SessionRecord) (s : State) :
  let w' := world (exec (_process_session strftime self r) s) in
  clock w' = clock (world s) /\ touch_ok w' = touch_ok (world s)
  /\ archive_store_ok w' = archive_store_ok (world s).
Proof.
  destruct (process_session_run strftime self r s) as [evs [st' [ar' [H _]]]].
  unfold exec; rewrite H; simpl; auto.
Qed.

Lemma process_session_trace (self : SwarmJanitor) (r : SessionRecord) (s : State) :
  processed (trace (exec (_process_session strftime self r) s)) = processed (trace s) ++ [path r].
Proof.
  destruct (process_session_run strftime self r s) as [evs [st' [ar' [H [Hevs _]]]]].
  unfold exec; rewrite H; simpl. rewrite processed_app, Hevs; reflexivity.
Qed.

Lemma for_each_process_exec (self : SwarmJanitor) (rs : list SessionRecord) :
  forall s, for_each rs (_process_session strftime self) s = (Ok tt, exec (for_each rs (_process_session strftime self)) s).
Proof.
  induction rs as [|r rs IH]; intros s; [reflexivity|].
  unfold exec; simpl. unfold bind. rewrite process_session_exec.
  rewrite (IH (exec (_process_session strftime self r) s)); reflexivity.
Qed.

Lemma for_each_process_cons (self : SwarmJanitor) (r : SessionRecord)
    (rs : list SessionRecord) (s : State) :
  exec (for_each (r :: rs) (_process_session strftime self)) s
  = exec (for_each rs (_process_session strftime self)) (exec (_process_session strftime self r) s).
Proof.
  unfold exec at 1; simpl. unfold bind. rewrite process_session_exec. reflexivity.
Qed.

Lemma for_each_process_trace (self : SwarmJanitor) (rs : list SessionRecord) :
  forall s,
    processed (trace (exec (for_each rs (_process_session strftime self)) s))
    = processed (trace s) ++ map path rs.
Proof.
  induction rs as [|r rs IH]; intros s.
  - unfold exec; simpl. rewrite app_nil_r; reflexivity.
  - rewrite for_each_process_cons, IH, process_session_trace, <- app_assoc. reflexivity.
Qed.

Lemma for_each_listing (rs : list SessionRecord) :
  forall s,
    for_each rs (fun session => emit (InfoOrphanListing session)) s
    = (Ok tt, log_more s (map InfoOrphanListing rs)).
Proof.
  induction rs as [|r rs IH]; intros s; simpl.
  - unfold ret; rewrite log_more_nil; reflexivity.
  - unfold bind; rewrite emit_run, IH, log_more_app. reflexivity.
Qed.

Lemma processed_listing (rs : list SessionRecord) :
  processed (map InfoOrphanListing rs) = [].
Proof. induction rs; simpl; auto. Qed.

(** The state in which Processing starts: the scan and the listing are
    logged, the two counts are stored, and the confirmation has read its
    answer. *)
Lemma run_destructive (self : SwarmJanitor) (s : State) :
  let sessions := scan_result (analyzer self) (world s) in
  let orphans := filter is_orphaned sessions in
  dry_run self = false ->
  orphans <> [] ->
  confirms (world s) = true ->
  exists s0,
    files (world s0) = files (world s)
    /\ archive_store (world s0) = archive_store (world s)
    /\ archive_store_ok (world s0) = archive_store_ok (world s)
    /\ touch_ok (world s0) = touch_ok (world s)
    /\ clock (world s0) = clock (world s)
    /\ archiver s0 = archiver s
    /\ stats s0 = with_orphaned (Z.of_nat (List.length orphans))
                    (with_scanned (Z.of_nat (List.length sessions)) (stats s))
    /\ processed (trace s0) = processed (trace s)
    /\ let s1 := exec (for_each orphans (_process_session strftime self)) s0 in
       run strftime self s = (Ok (stats s1), log_more s1 [InfoSummary (stats s1)]).
Proof.
  intros sessions orphans Hdry Hne Hconf.
  unfold run. unfold bind at 1. rewrite emit_run.
  destruct (scan_sessions_run (analyzer self) (log_more s [InfoRunHeader (dry_run self) (archive_enabled self)]))
    as [evs1 [Hscan Hevs1]].
  unfold bind at 1. rewrite Hscan. cbn [world log_more].
  fold sessions. fold orphans.
  destruct orphans as [|o orphans'] eqn:Horph; [contradiction|].
  rewrite <- Horph. clear Hne.
  unfold_m. rewrite Hdry.
  rewrite for_each_listing.
  match goal with
  | |- context [_confirm_action ?n ?st] =>
      destruct (confirm_action_run n st) as [evs2 [stdin' [Hc [Hevs2 _]]]]; rewrite Hc
  end.
  cbn [world log_more trace stats archiver] in *. rewrite Hconf. cbn [negb].
  match goal with
  | |- context [for_each orphans (_process_session strftime self) ?st] =>
      rewrite (for_each_process_exec self orphans st);
      exists st
  end.
  cbn [world trace stats archiver with_stdin files archive_store archive_store_ok touch_ok clock].
  repeat split; auto.
  rewrite !processed_app, Hevs1, Hevs2, processed_listing; simpl.
  rewrite !app_nil_r; reflexivity.
Qed.

End Run.

(** [SwarmJanitor.__init__] builds the analyzer from the clock and starts
    from zeroed stats and counters; it raises, before anything is set, when
    the cutoff cannot be computed. *)
Lemma SwarmJanitor_init_run (dir : string) (retention : Z) (dry archive : bool)
    (s : State) :
  SwarmJanitor_init dir retention dry archive s
  = if cutoff_representable (clock (world s)) retention
    then (Ok (mkJanitor (mkAnalyzer dir retention (clock (world s) - Datetime.days retention))
                        dry archive),
          mkState (world s) (trace s) initial_stats (mkArchiver 0 0))
    else (Raise OverflowError, s).
Proof.
  unfold SwarmJanitor_init, SessionAnalyzer_init, cutoff_representable,
    Datetime.timedelta_of_days, Datetime.minus.
  unfold_m. cbn [world].
  destruct (Z.abs retention <=? Datetime.max_timedelta_days); cbn [andb]; [|reflexivity].
  destruct ((Datetime.min_us <=? clock (world s) - Datetime.days retention)
            && (clock (world s) - Datetime.days retention <=? Datetime.max_us));
    reflexivity.
Qed.

(** ** The claims *)

(** *** C1 *)

(** C1, the code at the failing input: [b.jsonl] is 20 days old and its
    session is live.  The age rule sets the flag and appends "Older than 3
    days"; the [else] branch of the liveness test then resets the flag and
    leaves the reason in the list, so the scan returns a record that is not
    orphaned and has a reason, and the claim fails there. *)
Theorem stale_reason_on_live_record :
  eval (scan_sessions three_days) old_but_live
  = Ok [mkSession "b.jsonl" b_jsonl 7 (noon - Datetime.days 20) "b" false [OlderThan 3]]
  /\ ~ orphaned_iff_some_reason three_days old_but_live.
Proof.
  split; [vm_compute; reflexivity|].
  intros [sessions [Hscan Hall]].
  vm_compute in Hscan. injection Hscan as <-.
  destruct (Hall _ (or_introl eq_refl)) as [_ H].
  simpl in H. discriminate H. discriminate.
Qed.

(** *** C2 *)

(** C2, counterexample: the entry ["agent:main:b"] was updated 5 minutes ago,
    but the entry ["b:previous"] before it also matches and its ["updatedAt"]
    is a string; dividing it raises, the check answers "not active", and
    [b.jsonl] is orphaned. *)
Lemma live_entry_keeps_fails : ~ live_entry_keeps three_days live_after_malformed.
Proof.
  intros [sessions [Hscan Hall]].
  vm_compute in Hscan. injection Hscan as <-.
  specialize (Hall _ _ (or_introl eq_refl) eq_refl).
  assert (H : true = false); [|discriminate H].
  apply Hall. eexists; split; [right; left; reflexivity|]. vm_compute. reflexivity.
Qed.

(** C2, amended: a session file of the directory that [stat] finds, with
    a modification time that denotes a date, has a record in the scan, and
    that record is not orphaned, whatever the modification time, when the
    loop over the registry reaches an entry that matches the file's
    identifier and was updated within the hour: no entry listed before it
    is one that makes the check raise (an entry that is not an object, or
    one that matches and whose ["updatedAt"] is a non-empty string or
    container, or a non-zero number that denotes no date). *)
Theorem liveness_overrides_age (self : SessionAnalyzer) (s : State)
    (entries : list (string * RegistryEntry)) (p : Path) (f : File) :
  existsb (String.eqb (sessions_dir self)) (dirs (world s)) = true ->
  parent p = sessions_dir self ->
  Text.endswith (name p) ".jsonl" = true ->
  Text.contains ".deleted." (name p) = false ->
  lookup p (files (world s)) = Some f ->
  stat_ok f = true ->
  denotes_date (st_mtime f) = true ->
  registry (world s) = RegSessions entries ->
  reaches_live_match (Text.stem (name p)) (clock (world s)) entries ->
  exists sessions,
    eval (scan_sessions self) s = Ok sessions
    /\ (exists r, In r sessions /\ path r = p /\ modified r = st_mtime f
                  /\ is_orphaned r = false)
    /\ (forall r, In r sessions ->
          reaches_live_match (session_id r) (clock (world s)) entries ->
          is_orphaned r = false).
Proof.
  intros Hdir Hparent Hend Hdel Hf Hstat Hdate Hreg Hlive.
  destruct (scan_sessions_run self s) as [evs [Hrun _]].
  exists (scan_result self (world s)). unfold eval; rewrite Hrun.
  split; [reflexivity|]. split.
  - destruct (scan_result_intro self (world s) p f Hdir Hparent Hend Hdel Hf Hstat Hdate)
      as [r [Hin [Hp [_ [_ [Hm Horph]]]]]].
    exists r. repeat split; auto.
    rewrite Horph. apply negb_false_iff, liveness_true. eauto.
  - intros r Hr Hl.
    apply scan_result_inv in Hr as [f' [_ [_ [_ [_ [_ [_ [_ [_ [Horph _]]]]]]]]]].
    rewrite Horph. apply negb_false_iff, liveness_true. eauto.
Qed.

(** In a registry none of whose entries makes the check raise, C2 holds as
    it is stated. *)
Lemma liveness_overrides_age_clean (self : SessionAnalyzer) (s : State)
    (entries : list (string * RegistryEntry)) (sessions : list SessionRecord)
    (r : SessionRecord) :
  registry (world s) = RegSessions entries ->
  eval (scan_sessions self) s = Ok sessions ->
  In r sessions ->
  forallb (fun x => negb (entry_raises (session_id r) x)) entries = true ->
  (exists ke, In ke entries /\ live_match (session_id r) (clock (world s)) ke = true) ->
  is_orphaned r = false.
Proof.
  intros Hreg Hscan Hr Hclean Hlive.
  destruct (scan_sessions_run self s) as [evs [Hrun _]].
  unfold eval in Hscan; rewrite Hrun in Hscan; injection Hscan as <-.
  apply scan_result_inv in Hr as [f [_ [_ [_ [_ [_ [_ [_ [_ [Horph _]]]]]]]]]].
  rewrite Horph. apply negb_false_iff, liveness_true.
  exists entries; split; [exact Hreg|].
  apply reaches_live_match_no_raise; assumption.
Qed.

(** C2, witness: the 20 days old [b.jsonl], whose entry was updated 5 minutes
    ago, is scanned and not orphaned. *)
Lemma liveness_overrides_age_witness :
  exists sessions,
    eval (scan_sessions three_days) old_but_live = Ok sessions
    /\ (exists r, In r sessions /\ path r = b_jsonl
                  /\ modified r = st_mtime (plain_file 7 20 "transcript")
                  /\ is_orphaned r = false)
    /\ (forall r, In r sessions ->
          reaches_live_match (session_id r) (clock (world old_but_live))
            [("agent:main:b", EDict (Some (PStr "b")) (Some (PInt (noon_ms - 300000))))] ->
          is_orphaned r = false).
Proof.
  apply (liveness_overrides_age three_days old_but_live
           [("agent:main:b", EDict (Some (PStr "b")) (Some (PInt (noon_ms - 300000))))]
           b_jsonl (plain_file 7 20 "transcript")).
  - reflexivity.
  - reflexivity.
  - vm_compute; reflexivity.
  - vm_compute; reflexivity.
  - vm_compute; reflexivity.
  - reflexivity.
  - vm_compute; reflexivity.
  - reflexivity.
  - exists [], ("agent:main:b", EDict (Some (PStr "b")) (Some (PInt (noon_ms - 300000)))), [].
    split; [reflexivity|]. split; vm_compute; reflexivity.
Defined.

(** *** C10 *)

Lemma is_process_active_true (self : SessionAnalyzer) (sid : string) (s : State) :
  eval (_is_process_active self sid) s = Ok true <->
  exists entries,
    registry (world s) = RegSessions entries
    /\ reaches_live_match sid (clock (world s)) entries.
Proof.
  destruct (is_process_active_run self sid s) as [evs [Hrun _]].
  unfold eval; rewrite Hrun; simpl.
  rewrite <- liveness_true. split; [intros H; injection H; auto | intros ->; reflexivity].
Qed.

(** What [matches] computes: the identifier occurs as a substring of the key,
    or of the text of the entry's ["sessionId"]. *)
Lemma matches_substring (sid key : string) (e : RegistryEntry) :
  matches sid key e = true <->
  (exists a b, key = (a ++ sid ++ b)%string)
  \/ (exists sidv upd a b,
        e = EDict sidv upd
        /\ py_str (match sidv with Some v => v | None => PStr "" end)
           = (a ++ sid ++ b)%string).
Proof.
  unfold matches. rewrite orb_true_iff, contains_iff. split.
  - intros [H|H]; [left; exact H|].
    destruct e as [|sidv upd]; [discriminate|].
    apply contains_iff in H as [a [b H]]. right; exists sidv, upd, a, b; auto.
  - intros [H|[sidv [upd [a [b [-> H]]]]]]; [left; exact H|].
    right. apply contains_iff; eauto.
Qed.

(** C10, counterexample: for the identifier ["b"] the second entry is a live
    match, and the check answers "not active", because examining the first
    entry (a match whose ["updatedAt"] is a string) raises. *)
Lemma active_iff_live_match_fails :
  ~ active_iff_live_match three_days "b" live_after_malformed.
Proof.
  intros [_ H].
  assert (Hactive : eval (_is_process_active three_days "b") live_after_malformed = Ok true).
  { apply H. do 2 eexists. split; [reflexivity|].
    split; [right; left; reflexivity | vm_compute; reflexivity]. }
  vm_compute in Hactive. discriminate Hactive.
Qed.

(** C10, amended: [_is_process_active] always returns, and it reports the
    session active exactly when the registry loads and the loop over its
    entries, in file order, reaches a live match: an entry whose key, or
    the text of whose ["sessionId"], contains the identifier as a
    substring, and whose ["updatedAt"] is a time less than one hour before
    now, no entry before it being one that makes the check raise.  The
    entries that raise are those that are no object, and those that match
    and whose ["updatedAt"] is a non-empty string or container or a
    non-zero number that denotes no date; such an entry with no live match
    before it makes the answer "not active", whatever follows it.  An
    entry whose ["updatedAt"] is missing or 0 is never a live match. *)
Theorem is_process_active_spec (self : SessionAnalyzer) (sid : string) (s : State) :
  let now := clock (world s) in
  (exists b, eval (_is_process_active self sid) s = Ok b)
  /\ (eval (_is_process_active self sid) s = Ok true <->
      exists entries,
        registry (world s) = RegSessions entries
        /\ reaches_live_match sid now entries)
  /\ (forall pre ke post,
        registry (world s) = RegSessions (pre ++ ke :: post) ->
        forallb (fun x => negb (live_match sid now x)) pre = true ->
        entry_raises sid ke = true ->
        eval (_is_process_active self sid) s = Ok false)
  /\ (forall key e,
        live_match sid now (key, e) = true <->
        ((exists a b, key = (a ++ sid ++ b)%string)
         \/ (exists sidv upd a b,
               e = EDict sidv upd
               /\ py_str (match sidv with Some v => v | None => PStr "" end)
                  = (a ++ sid ++ b)%string))
        /\ exists t, last_update e = Some t /\ now - t < Datetime.hours 1)
  /\ (forall key sidv,
        live_match sid now (key, EDict sidv None) = false
        /\ live_match sid now (key, EDict sidv (Some (PInt 0))) = false).
Proof.
  cbn zeta.
  destruct (is_process_active_run self sid s) as [evs [Hrun _]].
  split; [unfold eval; rewrite Hrun; simpl; eauto|]. split; [|split; [|split]].
  - apply is_process_active_true.
  - intros pre ke post Hreg Hpre Hke.
    unfold eval; rewrite Hrun; cbn [fst]. f_equal.
    unfold liveness. rewrite Hreg.
    destruct (examine_entries_raise sid (clock (world s)) pre ke post Hpre Hke) as [x ->].
    reflexivity.
  - intros key e. unfold live_match, recently_updated; cbn [fst snd].
    rewrite andb_true_iff, matches_substring. split.
    + intros [Hm Hr]. split; [exact Hm|].
      destruct (last_update e) as [t|]; [|discriminate].
      exists t. split; [reflexivity | apply Z.ltb_lt; exact Hr].
    + intros [Hm [t [-> Hr]]]. split; [exact Hm | apply Z.ltb_lt; exact Hr].
  - intros key sidv. unfold live_match, recently_updated; simpl.
    rewrite !andb_false_r; auto.
Qed.

(** C10, on two registries: the session ["b"] is reported active by the
    entry updated 5 minutes ago, and not active when a matching entry whose
    ["updatedAt"] is a string comes first. *)
Lemma is_process_active_witness :
  eval (_is_process_active three_days "b") old_but_live = Ok true
  /\ eval (_is_process_active three_days "b") live_after_malformed = Ok false.
Proof.
  split.
  - apply (proj1 (proj2 (is_process_active_spec three_days "b" old_but_live))).
    eexists. split; [reflexivity|].
    exists [], ("agent:main:b", EDict (Some (PStr "b")) (Some (PInt (noon_ms - 300000)))), [].
    split; [reflexivity|]. split; vm_compute; reflexivity.
  - apply (proj1 (proj2 (proj2 (is_process_active_spec three_days "b" live_after_malformed)))
             [] ("b:previous", EDict None (Some (PStr "yesterday")))
             [("agent:main:b", EDict (Some (PStr "b")) (Some (PInt (noon_ms - 300000))))]).
    + reflexivity.
    + reflexivity.
    + vm_compute; reflexivity.
Defined.

(** In a registry none of whose entries makes the check raise, C10 holds as
    it is stated. *)
Lemma is_process_active_clean (self : SessionAnalyzer) (sid : string) (s : State)
    (entries : list (string * RegistryEntry)) :
  registry (world s) = RegSessions entries ->
  forallb (fun x => negb (entry_raises sid x)) entries = true ->
  (eval (_is_process_active self sid) s = Ok true <->
   exists ke, In ke entries /\ live_match sid (clock (world s)) ke = true).
Proof.
  intros Hreg Hclean.
  rewrite is_process_active_true, <- (reaches_live_match_no_raise _ _ _ Hclean). split.
  - intros [entries' [Heq H]]. rewrite Hreg in Heq; injection Heq as <-; exact H.
  - intros H; eauto.
Qed.

(** The identifier ["a"] occurs in the key ["agent:main:b"] of another
    session: while that session is live, the 10 days old [a.jsonl] is kept. *)
Example kept_alive_by_another_session :
  eval (scan_sessions three_days)
       (fresh_state
          (make_world [(a_jsonl, plain_file 120 10 "hello")]
             (RegSessions [("agent:main:b",
                            EDict (Some (PStr "b")) (Some (PInt (noon_ms - 300000))))])
             (Some "1") []))
  = Ok [mkSession "a.jsonl" a_jsonl 120 (noon - Datetime.days 10) "a" false [OlderThan 3]].
Proof. vm_compute. reflexivity. Qed.

(** *** C7 *)

(** C7: with the force signal set, [_confirm_action] returns true and nothing
    is prompted or read (the state is unchanged); otherwise it prompts once
    and returns true when no input is available, and, when a response is
    read, true exactly when the response lowercased and trimmed is ['y']. *)
Theorem confirm_action_spec (count : Z) (s : State) :
  (force_signal (world s) = true ->
   eval (_confirm_action count) s = Ok true /\ exec (_confirm_action count) s = s)
  /\ (force_signal (world s) = false ->
      (exists rest, trace (exec (_confirm_action count) s)
                    = trace s ++ Prompt count :: rest)
      /\ (stdin (world s) = [] -> eval (_confirm_action count) s = Ok true)
      /\ (forall response rest,
            stdin (world s) = response :: rest ->
            eval (_confirm_action count) s = Ok (affirmative response)
            /\ (affirmative response = true <->
                Text.strip (Text.lower response) = "y"))).
Proof.
  destruct (confirm_action_run count s) as [evs [stdin' [Hrun [_ [Hforce Hask]]]]].
  unfold eval, exec; rewrite Hrun; simpl. unfold confirms. split.
  - intros H. rewrite H; simpl. split; [reflexivity|].
    destruct (Hforce H) as [-> ->]. destruct s as [w tr st ar]; destruct w; simpl.
    rewrite app_nil_r; reflexivity.
  - intros H. rewrite H; simpl. destruct (Hask H) as [_ [rest ->]].
    split; [eauto|]. split.
    + intros ->; reflexivity.
    + intros response rest' ->. split; [reflexivity|].
      unfold affirmative. apply String.eqb_eq.
Qed.

(** C7, witness: forced, no input, [" Y "], ["n"] and the empty line. *)
Lemma confirm_action_witness :
  eval (_confirm_action 2) one_old_file = Ok true
  /\ exec (_confirm_action 2) one_old_file = one_old_file
  /\ eval (_confirm_action 2) unattended = Ok true
  /\ eval (_confirm_action 2) two_old_files = Ok true
  /\ eval (_confirm_action 2) declined = Ok false
  /\ eval (_confirm_action 2) empty_signal = Ok false.
Proof.
  split; [exact (proj1 (proj1 (confirm_action_spec 2 one_old_file) eq_refl))|].
  split; [exact (proj2 (proj1 (confirm_action_spec 2 one_old_file) eq_refl))|].
  split; [exact (proj1 (proj2 (proj2 (confirm_action_spec 2 unattended) eq_refl)) eq_refl)|].
  split; [exact (proj1 (proj2 (proj2 (proj2 (confirm_action_spec 2 two_old_files) eq_refl))
                         _ _ eq_refl))|].
  split; [exact (proj1 (proj2 (proj2 (proj2 (confirm_action_spec 2 declined) eq_refl))
                         _ _ eq_refl))|].
  exact (proj1 (proj2 (proj2 (proj2 (confirm_action_spec 2 empty_signal) eq_refl))
                 _ _ eq_refl)).
Defined.

(** *** C8 *)

Section Claims.

Variable strftime : string -> Z -> string.

(** C8: [archive_session] never raises.  On a file that is there and can
    be read, and whose text is empty or all white space, it returns true and
    the archive store is left as it was; on a missing file (no entry, or an
    entry for which [stat] finds no file), an unreadable file, or a store
    that cannot be written it returns false, and then too no entry is
    written; a non-blank text that is archived does add its entry. *)
Theorem archive_session_outcomes (p : Path) (s : State) :
  let s' := exec (archive_session strftime p) s in
  (exists b, eval (archive_session strftime p) s = Ok b)
  /\ (forall f, lookup p (files (world s)) = Some f ->
        stat_ok f = true -> read_ok f = true -> Text.blank (content f) = true ->
        eval (archive_session strftime p) s = Ok true
        /\ archive_store (world s') = archive_store (world s))
  /\ (lookup p (files (world s)) = None
      \/ (exists f, lookup p (files (world s)) = Some f /\ stat_ok f = false) ->
      eval (archive_session strftime p) s = Ok false)
  /\ (forall f, lookup p (files (world s)) = Some f ->
        read_ok f = false \/ (Text.blank (content f) = false
                              /\ archive_store_ok (world s) = false) ->
        eval (archive_session strftime p) s = Ok false)
  /\ (eval (archive_session strftime p) s = Ok false ->
      archive_store (world s') = archive_store (world s))
  /\ (forall f, lookup p (files (world s)) = Some f ->
        stat_ok f = true -> read_ok f = true -> Text.blank (content f) = false ->
        archive_store_ok (world s) = true ->
        eval (archive_session strftime p) s = Ok true
        /\ exists e, In (archive_file_name strftime p (clock (world s)), e)
                        (archive_store (world s'))).
Proof.
  destruct (archive_session_run strftime p s) as [evs [store' [ar' [Hrun [_ [Hfail Hblank]]]]]].
  unfold eval, exec; rewrite Hrun; simpl.
  split; [eauto|]. unfold archive_result in *. split; [|split; [|split; [|split]]].
  - intros f Hf Hstat Hread Hb. rewrite Hf, Hstat, Hread, Hb in *; simpl.
    split; [reflexivity|]. apply (Hblank f); auto.
  - intros [->|[f [-> ->]]]; reflexivity.
  - intros f Hf H. rewrite Hf. destruct H as [H|[H1 H2]].
    + rewrite H, andb_false_r; reflexivity.
    + rewrite H1, H2, !andb_false_r; reflexivity.
  - intros H. apply Hfail. injection H; auto.
  - intros f Hf Hstat Hread Hb Hok. rewrite Hf, Hstat, Hread, Hb, Hok; simpl.
    split; [reflexivity|].
    revert Hrun. unfold archive_session; unfold_m.
    destruct s as [w tr st ar]; simpl in *. rewrite Hf; step.
    rewrite strip_eqb_blank; step.
    intros Hrun. apply (f_equal (fun x => archive_store (world (snd x)))) in Hrun.
    simpl in Hrun. rewrite <- Hrun.
    clear. induction (archive_store w) as [|[k e] l IH].
    + eexists; left; reflexivity.
    + unfold store_put; fold store_put.
      destruct (String.eqb _ k); [eexists; left; reflexivity|].
      destruct IH as [e' IH]; exists e'; right; exact IH.
Qed.

(** *** C3 *)

Lemma deleted_marker_inj (p q : Path) (t : Z) :
  deleted_marker strftime p t = deleted_marker strftime q t -> p = q.
Proof.
  destruct p as [d n], q as [d' n']; unfold deleted_marker; simpl.
  intros H; injection H as -> H. apply append_cancel_r in H; subst; reflexivity.
Qed.

Lemma exists_file_remove_false (m q : Path) (l : list (Path * File)) :
  exists_file m l = false -> exists_file m (remove q l) = false.
Proof.
  unfold exists_file, remove, lookup.
  induction l as [|[r f] l IH]; simpl; [reflexivity|].
  destruct (Path_eqb m r) eqn:E; [discriminate|]. intros H.
  destruct (Path_eqb q r); simpl; [auto|]. rewrite E; auto.
Qed.

Lemma step_keeps_other_file (self : SwarmJanitor) (r : SessionRecord) (s : State) (p : Path) :
  path r <> p ->
  exists_file p (files (world s)) = true ->
  exists_file p (files (world (exec (_process_session strftime self r) s))) = true.
Proof.
  intros Hne Hex. rewrite process_session_files. unfold files_after.
  destruct (proceeds self (world s) (path r) && removable (world s) (path r)); [|exact Hex].
  assert (H : exists_file p (remove (path r) (files (world s))) = true)
    by (rewrite exists_file_remove_ne; auto).
  destruct (touch_ok (world s)); [apply exists_file_touched|]; exact H.
Qed.

Lemma step_creates_only_its_marker (self : SwarmJanitor) (r : SessionRecord) (s : State)
    (m : Path) :
  m <> deleted_marker strftime (path r) (clock (world s)) ->
  exists_file m (files (world s)) = false ->
  exists_file m (files (world (exec (_process_session strftime self r) s))) = false.
Proof.
  intros Hne Hex. rewrite process_session_files. unfold files_after.
  destruct (proceeds self (world s) (path r) && removable (world s) (path r)); [|exact Hex].
  pose proof (exists_file_remove_false m (path r) _ Hex) as H.
  destruct (touch_ok (world s)); [|exact H].
  unfold exists_file in *. rewrite lookup_touched_ne; auto.
Qed.

Lemma loop_keeps_other_file (self : SwarmJanitor) (rs : list SessionRecord) (p : Path) :
  ~ In p (map path rs) ->
  forall s,
    exists_file p (files (world s)) = true ->
    exists_file p (files (world (exec (for_each rs (_process_session strftime self)) s)))
    = true.
Proof.
  induction rs as [|r rs IH]; intros Hnot s Hex; [exact Hex|].
  rewrite for_each_process_cons. apply IH.
  - intros H; apply Hnot; right; exact H.
  - apply step_keeps_other_file; [|exact Hex].
    intros H; apply Hnot; left; exact H.
Qed.

Lemma loop_clock (self : SwarmJanitor) (rs : list SessionRecord) :
  forall s, clock (world (exec (for_each rs (_process_session strftime self)) s))
            = clock (world s).
Proof.
  induction rs as [|r rs IH]; intros s; [reflexivity|].
  rewrite for_each_process_cons, IH. apply process_session_env.
Qed.

Lemma loop_creates_only_its_markers (self : SwarmJanitor) (rs : list SessionRecord)
    (p : Path) :
  ~ In p (map path rs) ->
  forall s,
    exists_file (deleted_marker strftime p (clock (world s))) (files (world s)) = false ->
    exists_file (deleted_marker strftime p (clock (world s)))
      (files (world (exec (for_each rs (_process_session strftime self)) s)))
    = false.
Proof.
  induction rs as [|r rs IH]; intros Hnot s Hex; [exact Hex|].
  rewrite for_each_process_cons.
  destruct (process_session_env strftime self r s) as [Hclock _].
  rewrite <- Hclock. apply IH.
  - intros H; apply Hnot; right; exact H.
  - rewrite Hclock. apply step_creates_only_its_marker; [|exact Hex].
    intros H. apply deleted_marker_inj in H. apply Hnot; left; auto.
Qed.

(** C3: in destructive mode with archiving enabled, when [archive_session]
    returns false for a record, processing that record changes no file (its
    file is not removed and no marker is created), adds one to the failed
    count and leaves the deleted count and the reclaimed bytes as they were;
    and after the records that follow (each one another file) have been
    processed, its file is still there and its marker still is not. *)
Theorem archive_failure_keeps_file (self : SwarmJanitor) (s : State)
    (r : SessionRecord) (later : list SessionRecord) :
  archive_enabled self = true ->
  eval (archive_session strftime (path r)) s = Ok false ->
  ~ In (path r) (map path later) ->
  let s1 := exec (_process_session strftime self r) s in
  let s2 := exec (for_each later (_process_session strftime self)) s1 in
  let marker := deleted_marker strftime (path r) (clock (world s)) in
  files (world s1) = files (world s)
  /\ failed (stats s1) = failed (stats s) + 1
  /\ deleted (stats s1) = deleted (stats s)
  /\ space_reclaimed_bytes (stats s1) = space_reclaimed_bytes (stats s)
  /\ (exists_file (path r) (files (world s)) = true ->
      exists_file (path r) (files (world s2)) = true)
  /\ (exists_file marker (files (world s)) = false ->
      exists_file marker (files (world s2)) = false).
Proof.
  intros Harch Hfail Hnot s1 s2 marker.
  destruct (archive_session_run strftime (path r) s) as [evs [st' [ar' [Hrun _]]]].
  unfold eval in Hfail; rewrite Hrun in Hfail; simpl in Hfail.
  injection Hfail as Hres.
  assert (Hfiles : files (world s1) = files (world s)).
  { unfold s1; rewrite process_session_files.
    unfold files_after, proceeds; rewrite Harch, Hres; reflexivity. }
  assert (Hstats : stats s1 = add_failed (stats s)).
  { unfold s1; rewrite process_session_stats.
    unfold stats_after, proceeds; rewrite Harch, Hres; reflexivity. }
  assert (Hclock : clock (world s1) = clock (world s))
    by (apply process_session_env).
  rewrite Hstats; simpl. repeat split; auto.
  - intros Hex. apply loop_keeps_other_file; [exact Hnot|].
    rewrite Hfiles; exact Hex.
  - intros Hex. unfold marker, s2. rewrite <- Hclock.
    apply loop_creates_only_its_markers; [exact Hnot|].
    rewrite Hclock, Hfiles; exact Hex.
Qed.

(** *** C4 *)

(** A run that ends in Empty-exit or Dry-run-exit. *)
Lemma run_preview (self : SwarmJanitor) (s : State) :
  let sessions := scan_result (analyzer self) (world s) in
  let orphans := filter is_orphaned sessions in
  let st' := with_orphaned (Z.of_nat (List.length orphans))
               (with_scanned (Z.of_nat (List.length sessions)) (stats s)) in
  orphans = [] \/ dry_run self = true ->
  exists evs,
    run strftime self s
    = (Ok st', mkState (world s) (trace s ++ evs) st' (archiver s))
    /\ processed evs = [].
Proof.
  intros sessions orphans st' Hcase.
  unfold run. unfold bind at 1. rewrite emit_run.
  destruct (scan_sessions_run (analyzer self)
              (log_more s [InfoRunHeader (dry_run self) (archive_enabled self)]))
    as [evs1 [Hscan Hevs1]].
  unfold bind at 1. rewrite Hscan. cbn [world log_more].
  fold sessions. fold orphans.
  destruct orphans as [|o orphans'] eqn:Horph.
  - unfold_m; simpl. eexists. unfold st'. rewrite <- !app_assoc.
    split; [reflexivity|]. rewrite !processed_app, Hevs1; reflexivity.
  - destruct Hcase as [Hcase|Hdry]; [discriminate|].
    rewrite <- Horph. unfold_m. rewrite Hdry, for_each_listing; simpl.
    eexists. unfold st'. rewrite Horph, <- !app_assoc.
    split; [reflexivity|].
    rewrite !processed_app, Hevs1. rewrite <- Horph, processed_listing; reflexivity.
Qed.

(** C4: in dry-run mode, on an input whose orphaned set is not empty, [run]
    returns and leaves the world as it was (no file is removed, no archive
    entry written, no marker created; the archiver's counters are untouched),
    and the stats it returns have [deleted], [archived], [failed] and
    [space_reclaimed_bytes] equal to 0. *)
Theorem dry_run_changes_nothing (self : SwarmJanitor) (s : State)
    (sessions : list SessionRecord) :
  dry_run self = true ->
  stats s = initial_stats ->
  eval (scan_sessions (analyzer self)) s = Ok sessions ->
  filter is_orphaned sessions <> [] ->
  exists st,
    eval (run strftime self) s = Ok st
    /\ world (exec (run strftime self) s) = world s
    /\ archiver (exec (run strftime self) s) = archiver s
    /\ stats (exec (run strftime self) s) = st
    /\ deleted st = 0 /\ archived st = 0 /\ failed st = 0
    /\ space_reclaimed_bytes st = 0
    /\ scanned st = Z.of_nat (List.length sessions)
    /\ orphaned st = Z.of_nat (List.length (filter is_orphaned sessions)).
Proof.
  intros Hdry Hfresh Hscan _.
  destruct (scan_sessions_run (analyzer self) s) as [evs0 [Hrun0 _]].
  unfold eval in Hscan; rewrite Hrun0 in Hscan; injection Hscan as <-.
  destruct (run_preview self s (or_intror Hdry)) as [evs [Hrun _]].
  unfold eval, exec; rewrite Hrun; simpl. eexists; split; [reflexivity|].
  rewrite Hfresh; simpl. repeat split; reflexivity.
Qed.

(** *** C6 *)

Lemma deleted_marker_fresh (p : Path) (t : Z) : p <> deleted_marker strftime p t.
Proof.
  destruct p as [d n]; unfold deleted_marker; simpl. intros H; injection H as H.
  apply (f_equal String.length) in H. rewrite !length_append in H.
  change (String.length ".deleted.") with 9%nat in H. lia.
Qed.

Lemma step_counted (self : SwarmJanitor) (r : SessionRecord) (s : State) :
  let s' := exec (_process_session strftime self r) s in
  (counted_in_deleted strftime self r s = true
   /\ deleted (stats s') = deleted (stats s) + 1
   /\ space_reclaimed_bytes (stats s')
      = space_reclaimed_bytes (stats s) + size_on_disk (world s) (path r)
   /\ exists_file (path r) (files (world s)) = true
   /\ exists_file (path r) (files (world s')) = false
   /\ proceeds self (world s) (path r) = true)
  \/ (counted_in_deleted strftime self r s = false
      /\ deleted (stats s') = deleted (stats s)
      /\ space_reclaimed_bytes (stats s') = space_reclaimed_bytes (stats s)).
Proof.
  intros s'. unfold counted_in_deleted. fold s'.
  assert (Hstats : stats s' = stats_after self (world s) (path r) (stats s))
    by apply process_session_stats.
  assert (Hfiles : files (world s') = files_after strftime self (world s) (path r))
    by apply process_session_files.
  rewrite Hstats, Hfiles. unfold stats_after, files_after.
  destruct (proceeds self (world s) (path r)) eqn:Hp; simpl;
    [destruct (removable (world s) (path r)) eqn:Hr; simpl;
     [destruct (touch_ok (world s)) eqn:Ht; simpl|]|].
  - left. destruct (archive_enabled self && archive_result (world s) (path r)); simpl;
      rewrite Z.eqb_refl; repeat split; auto.
    + unfold removable, exists_file in *.
      destruct (lookup (path r) (files (world s))); [reflexivity | discriminate].
    + unfold exists_file. rewrite lookup_touched_ne by apply deleted_marker_fresh.
      rewrite lookup_remove_eq; reflexivity.
    + unfold removable, exists_file in *.
      destruct (lookup (path r) (files (world s))); [reflexivity | discriminate].
    + unfold exists_file. rewrite lookup_touched_ne by apply deleted_marker_fresh.
      rewrite lookup_remove_eq; reflexivity.
  - right. destruct (archive_enabled self && archive_result (world s) (path r)); simpl;
      repeat split; auto; apply Z.eqb_neq; lia.
  - right. destruct (archive_enabled self && archive_result (world s) (path r)); simpl;
      repeat split; auto; apply Z.eqb_neq; lia.
  - right. destruct (archive_enabled self && archive_result (world s) (path r)); simpl;
      repeat split; auto; apply Z.eqb_neq; lia.
Qed.

Lemma loop_reclaimed (self : SwarmJanitor) (rs : list SessionRecord) :
  forall s,
    let s' := exec (for_each rs (_process_session strftime self)) s in
    space_reclaimed_bytes (stats s')
    = space_reclaimed_bytes (stats s) + total (reclaimed_sizes strftime self rs s)
    /\ deleted (stats s')
       = deleted (stats s) + Z.of_nat (List.length (reclaimed_sizes strftime self rs s)).
Proof.
  induction rs as [|r rs IH]; intros s; cbn zeta.
  - unfold exec; simpl. split; lia.
  - rewrite for_each_process_cons.
    destruct (IH (exec (_process_session strftime self r) s)) as [Hspace Hdel].
    rewrite Hspace, Hdel. cbn [reclaimed_sizes].
    destruct (step_counted self r s) as [[-> [-> [-> _]]]|[-> [-> ->]]];
      cbn [app total fold_right List.length]; fold (total (reclaimed_sizes strftime self rs
        (exec (_process_session strftime self r) s))); split; lia.
Qed.

(** A run that the user declines. *)
Lemma run_cancelled (self : SwarmJanitor) (s : State) :
  let sessions := scan_result (analyzer self) (world s) in
  let orphans := filter is_orphaned sessions in
  let st' := with_orphaned (Z.of_nat (List.length orphans))
               (with_scanned (Z.of_nat (List.length sessions)) (stats s)) in
  dry_run self = false ->
  orphans <> [] ->
  confirms (world s) = false ->
  exists evs stdin',
    run strftime self s
    = (Ok st', mkState (with_stdin (world s) stdin') (trace s ++ evs) st' (archiver s)).
Proof.
  intros sessions orphans st' Hdry Hne Hconf.
  unfold run. unfold bind at 1. rewrite emit_run.
  destruct (scan_sessions_run (analyzer self)
              (log_more s [InfoRunHeader (dry_run self) (archive_enabled self)]))
    as [evs1 [Hscan _]].
  unfold bind at 1. rewrite Hscan. cbn [world log_more].
  fold sessions. fold orphans.
  destruct orphans as [|o orphans'] eqn:Horph; [contradiction|].
  rewrite <- Horph. clear Hne.
  unfold_m. rewrite Hdry.
  rewrite for_each_listing.
  match goal with
  | |- context [_confirm_action ?n ?st] =>
      destruct (confirm_action_run n st) as [evs2 [stdin' [Hc _]]]; rewrite Hc
  end.
  cbn [world log_more trace stats archiver] in *. rewrite Hconf. cbn [negb].
  simpl. eexists _, stdin'. unfold st'. rewrite Horph, <- !app_assoc. reflexivity.
Qed.

(** C6: a destructive run on a fresh janitor returns, and the
    [space_reclaimed_bytes] it reports is the sum of the sizes on disk,
    measured when each record is processed, of exactly the files counted in
    [deleted]: the orphaned records in scan order when the run is confirmed,
    none when it is declined.  A record that is counted had its file on disk
    and has it no more; a record whose archival failed, or whose removal or
    marker failed, is not counted and adds nothing. *)
Theorem reclaimed_bytes_are_the_deleted_sizes (self : SwarmJanitor) (s : State)
    (sessions : list SessionRecord) :
  dry_run self = false ->
  stats s = initial_stats ->
  eval (scan_sessions (analyzer self)) s = Ok sessions ->
  exists s0 st,
    eval (run strftime self) s = Ok st
    /\ files (world s0) = files (world s)
    /\ (let done := if confirms (world s) then filter is_orphaned sessions else [] in
        space_reclaimed_bytes st = total (reclaimed_sizes strftime self done s0)
        /\ deleted st = Z.of_nat (List.length (reclaimed_sizes strftime self done s0)))
    /\ (forall r s1,
          let s2 := exec (_process_session strftime self r) s1 in
          (counted_in_deleted strftime self r s1 = true ->
           exists_file (path r) (files (world s1)) = true
           /\ exists_file (path r) (files (world s2)) = false)
          /\ (counted_in_deleted strftime self r s1 = false ->
              space_reclaimed_bytes (stats s2) = space_reclaimed_bytes (stats s1))
          /\ (archive_enabled self = true ->
              eval (archive_session strftime (path r)) s1 = Ok false ->
              counted_in_deleted strftime self r s1 = false)).
Proof.
  intros Hdry Hfresh Hscan.
  destruct (scan_sessions_run (analyzer self) s) as [evs0 [Hrun0 _]].
  unfold eval in Hscan; rewrite Hrun0 in Hscan; injection Hscan as <-.
  assert (Hsteps : forall r s1,
          let s2 := exec (_process_session strftime self r) s1 in
          (counted_in_deleted strftime self r s1 = true ->
           exists_file (path r) (files (world s1)) = true
           /\ exists_file (path r) (files (world s2)) = false)
          /\ (counted_in_deleted strftime self r s1 = false ->
              space_reclaimed_bytes (stats s2) = space_reclaimed_bytes (stats s1))
          /\ (archive_enabled self = true ->
              eval (archive_session strftime (path r)) s1 = Ok false ->
              counted_in_deleted strftime self r s1 = false)).
  { intros r s1 s2. subst s2.
    destruct (step_counted self r s1) as [[Hc [_ [_ [Hb [Ha Hp]]]]]|[Hc [_ Hs]]];
      rewrite Hc.
    - repeat split; auto; try discriminate.
      intros Harch Hfail.
      destruct (archive_session_run strftime (path r) s1) as [? [? [? [Hrun _]]]].
      unfold eval in Hfail; rewrite Hrun in Hfail; injection Hfail as Hres.
      unfold proceeds in Hp; rewrite Harch, Hres in Hp; discriminate.
    - repeat split; auto; discriminate. }
  destruct (filter is_orphaned (scan_result (analyzer self) (world s))) as [|o os] eqn:Horph.
  - destruct (run_preview self s) as [evs [Hrun _]]; [left; exact Horph|].
    exists s. eexists. unfold eval; rewrite Hrun; simpl.
    split; [reflexivity|]. split; [reflexivity|]. split; [|exact Hsteps].
    rewrite Hfresh. destruct (confirms (world s)); simpl; auto.
  - destruct (confirms (world s)) eqn:Hconf.
    + destruct (run_destructive strftime self s Hdry) as [s0 H];
        [rewrite Horph; discriminate | exact Hconf |].
      destruct H as [Hfiles [_ [_ [_ [_ [_ [Hstats [_ Hrun]]]]]]]].
      cbn zeta in Hrun. rewrite Horph in Hrun, Hstats.
      exists s0, (stats (exec (for_each (o :: os) (_process_session strftime self)) s0)).
      unfold eval; rewrite Hrun; cbn [fst].
      split; [reflexivity|]. split; [exact Hfiles|]. split; [|exact Hsteps].
      destruct (loop_reclaimed self (o :: os) s0) as [Hspace Hdel].
      cbn zeta. rewrite Hspace, Hdel, Hstats, Hfresh. split; reflexivity.
    + destruct (run_cancelled self s Hdry) as [evs [stdin' Hrun]];
        [rewrite Horph; discriminate | exact Hconf |].
      exists s. eexists. unfold eval; rewrite Hrun; simpl.
      split; [reflexivity|]. split; [reflexivity|]. split; [|exact Hsteps].
      rewrite Hfresh; simpl; auto.
Qed.

(** *** C9 *)

(** C9: [scan_sessions] returns the records its loop collected from the
    session files (each of them, once: the list is a rearrangement of
    them, and nothing when the directory is missing), in ascending order
    of their modification time; and a confirmed destructive run logs one
    outcome ("Deleted", "Archive failed ..., skipping deletion" or "Failed
    to process") per orphaned record, in exactly the order of the scan. *)
Theorem processing_follows_scan_order (self : SwarmJanitor) (s : State) :
  let dir := sessions_dir (analyzer self) in
  exists sessions,
    eval (scan_sessions (analyzer self)) s = Ok sessions
    /\ (existsb (String.eqb dir) (dirs (world s)) = true ->
        Permutation (scanned_records (analyzer self) (world s) (session_paths dir (world s)))
                    sessions)
    /\ (existsb (String.eqb dir) (dirs (world s)) = false -> sessions = [])
    /\ ascending sessions
    /\ ascending (filter is_orphaned sessions)
    /\ (dry_run self = false ->
        confirms (world s) = true ->
        processed (trace (exec (run strftime self) s))
        = processed (trace s) ++ map path (filter is_orphaned sessions)).
Proof.
  cbn zeta.
  destruct (scan_sessions_run (analyzer self) s) as [evs0 [Hrun0 _]].
  exists (scan_result (analyzer self) (world s)).
  unfold eval; rewrite Hrun0; cbn [fst]. split; [reflexivity|].
  split; [apply scan_result_perm|].
  split; [intros Hdir; unfold scan_result; rewrite Hdir; reflexivity|].
  pose proof (scan_result_ascending (analyzer self) (world s)) as Hasc.
  split; [exact Hasc|]. split; [apply ascending_filter; exact Hasc|].
  intros Hdry Hconf.
  destruct (filter is_orphaned (scan_result (analyzer self) (world s))) as [|o os] eqn:Horph.
  - destruct (run_preview self s) as [evs [Hrun Hevs]]; [left; exact Horph|].
    unfold exec; rewrite Hrun; cbn [snd trace map].
    rewrite processed_app, Hevs; reflexivity.
  - destruct (run_destructive strftime self s Hdry) as [s0 H];
      [rewrite Horph; discriminate | exact Hconf |].
    destruct H as [_ [_ [_ [_ [_ [_ [_ [Htrace Hrun]]]]]]]].
    cbn zeta in Hrun. rewrite Horph in Hrun.
    unfold exec at 1; rewrite Hrun; cbn [snd log_more trace].
    rewrite processed_app, for_each_process_trace, Htrace; cbn [processed flat_map processed_path].
    rewrite app_nil_r; reflexivity.
Qed.

(** *** C5 *)

Lemma classify_run (dir : string) (names : list string) :
  forall (acc : list Path) (s : State),
    exec (Legacy.classify dir names acc) s = s
    /\ forall selected,
         eval (Legacy.classify dir names acc) s = Ok selected ->
         forall p, In p selected ->
           In p acc
           \/ (parent p = dir
               /\ Text.endswith (name p) ".jsonl" = true
               /\ exists f,
                    lookup p (files (world s)) = Some f
                    /\ stat_ok f = true
                    /\ 7 < Datetime.timedelta_days (clock (world s) - st_ctime f)).
Proof.
  induction names as [|n names IH]; intros acc s.
  - unfold eval, exec; simpl. split; [reflexivity|].
    intros selected H; injection H as <-; auto.
  - unfold eval, exec. cbn [Legacy.classify].
    destruct (Text.endswith n ".jsonl") eqn:Hend; [|apply IH].
    unfold Legacy.getctime; unfold_m; simpl.
    destruct (lookup (mkPath dir n) (files (world s))) as [f|] eqn:Hf; simpl;
      [|split; [reflexivity | discriminate]].
    destruct (stat_ok f) eqn:Hstat; simpl; [|split; [reflexivity | discriminate]].
    rewrite fromtimestamp_denotes.
    destruct (denotes_date (st_ctime f));
      simpl; [|split; [reflexivity | discriminate]].
    destruct (7 <? Datetime.timedelta_days (clock (world s) - st_ctime f)) eqn:Hage.
    + destruct (IH (acc ++ [mkPath dir n]) s) as [Hs Hsel].
      split; [exact Hs|]. intros selected H p Hp.
      destruct (Hsel selected H p Hp) as [Hin|Hnew]; [|right; exact Hnew].
      apply in_app_or in Hin as [Hin|[<-|[]]]; [left; exact Hin|].
      right; simpl. repeat split; auto. exists f. repeat split; auto.
      apply Z.ltb_lt; exact Hage.
    + apply IH.
Qed.

Lemma classify_complete (dir : string) (names : list string) :
  forall (acc selected : list Path) (s : State),
    eval (Legacy.classify dir names acc) s = Ok selected ->
    (forall p, In p acc -> In p selected)
    /\ forall n f,
         In n names ->
         Text.endswith n ".jsonl" = true ->
         lookup (mkPath dir n) (files (world s)) = Some f ->
         7 < Datetime.timedelta_days (clock (world s) - st_ctime f) ->
         In (mkPath dir n) selected.
Proof.
  induction names as [|n names IH]; intros acc selected s.
  - unfold eval; simpl. intros H; injection H as <-. split; [auto | intros ? ? []].
  - unfold eval. cbn [Legacy.classify].
    destruct (Text.endswith n ".jsonl") eqn:Hend.
    + unfold Legacy.getctime; unfold_m; simpl.
      destruct (lookup (mkPath dir n) (files (world s))) as [f|] eqn:Hf; simpl;
        [|discriminate].
      destruct (stat_ok f) eqn:Hstat; simpl; [|discriminate].
      rewrite fromtimestamp_denotes.
      destruct (denotes_date (st_ctime f));
        simpl; [|discriminate].
      destruct (7 <? Datetime.timedelta_days (clock (world s) - st_ctime f)) eqn:Hage;
        intros H; apply IH in H as [Hacc Hnames].
      * split.
        -- intros p Hp. apply Hacc, in_or_app; left; exact Hp.
        -- intros n' f' [<-|Hin] He Hl Ha; [|eapply Hnames; eauto].
           apply Hacc, in_or_app; right; left; reflexivity.
      * split; [exact Hacc|].
        intros n' f' [<-|Hin] He Hl Ha; [|eapply Hnames; eauto].
        rewrite Hf in Hl; injection Hl as <-. apply Z.ltb_ge in Hage. lia.
    + intros H; apply IH in H as [Hacc Hnames]. split; [exact Hacc|].
      intros n' f' [<-|Hin] He Hl Ha; [congruence | eapply Hnames; eauto].
Qed.

(** C5, amended: [cleanup_sessions] selects by age alone (the name ends in
    [.jsonl] and the creation time lies more than 7 whole days back), with
    no liveness check and no confirmation.  It is no configuration of the
    orchestrator, whose liveness rule is always on: with no registry the
    orchestrator orphans every session file it scans, so every file the
    legacy script selects (whose name has no [.deleted.] part and whose
    modification time is a date) is among the orchestrator's orphaned
    records, not conversely; and with archiving enabled the orchestrator
    removes a file only after [archive_session] returned true for it. *)
Theorem legacy_selection_within_orphans (self : SwarmJanitor) (s : State)
    (names : list string) (selected : list Path) :
  registry (world s) = RegAbsent ->
  eval (Legacy.listdir (sessions_dir (analyzer self))) s = Ok names ->
  eval (Legacy.classify (sessions_dir (analyzer self)) names []) s = Ok selected ->
  (forall n,
     In n names ->
     let p := mkPath (sessions_dir (analyzer self)) n in
     In p selected <->
     Text.endswith n ".jsonl" = true
     /\ exists f, lookup p (files (world s)) = Some f
                  /\ 7 < Datetime.timedelta_days (clock (world s) - st_ctime f))
  /\ (exists sessions,
        eval (scan_sessions (analyzer self)) s = Ok sessions
        /\ forall p f,
             In p selected ->
             Text.contains ".deleted." (name p) = false ->
             lookup p (files (world s)) = Some f ->
             Datetime.fromtimestamp (st_mtime f) = Ok (st_mtime f) ->
             exists r, In r (filter is_orphaned sessions) /\ path r = p)
  /\ (forall r s1,
        archive_enabled self = true ->
        exists_file (path r) (files (world s1)) = true ->
        exists_file (path r)
          (files (world (exec (_process_session strftime self r) s1))) = false ->
        eval (archive_session strftime (path r)) s1 = Ok true).
Proof.
  intros Hreg Hlist Hsel.
  destruct (classify_run (sessions_dir (analyzer self)) names [] s) as [_ Hcls].
  specialize (Hcls selected Hsel).
  split; [|split].
  - intros n Hn p. split.
    + intros Hp. destruct (Hcls p Hp) as [[]|[_ [Hend [f [Hf [_ Hage]]]]]]. eauto.
    + intros [Hend [f [Hf Hage]]].
      destruct (classify_complete _ _ _ _ _ Hsel) as [_ Hall]. eapply Hall; eauto.
  - destruct (scan_sessions_run (analyzer self) s) as [evs [Hrun _]].
    exists (scan_result (analyzer self) (world s)).
    unfold eval at 1; rewrite Hrun; cbn [fst]. split; [reflexivity|].
    intros p f Hp Hdel Hf Hdate.
    destruct (Hcls p Hp) as [[]|[Hdir [Hend [f' [Hf' [Hstat _]]]]]].
    rewrite Hf in Hf'; injection Hf' as <-.
    assert (Hexists : existsb (String.eqb (sessions_dir (analyzer self))) (dirs (world s))
                      = true).
    { revert Hlist. unfold eval, Legacy.listdir; unfold_m; simpl.
      destruct (existsb _ _); [reflexivity | discriminate]. }
    assert (Hliv : liveness (world s) (Text.stem (name p)) = false)
      by (unfold liveness; rewrite Hreg; reflexivity).
    eexists. split.
    + apply filter_In. split.
      * unfold scan_result. rewrite Hexists. apply sorted_by_modified_In.
        apply (scanned_records_intro _ _ _ p); [| exact Hdel |].
        -- unfold session_paths. apply filter_In. split.
           ++ apply lookup_In in Hf. apply (in_map fst) in Hf; exact Hf.
           ++ rewrite Hdir, String.eqb_refl, Hend; reflexivity.
        -- unfold analysis. rewrite Hf, Hstat, Hdate, Hliv. reflexivity.
      * reflexivity.
    + reflexivity.
  - intros r s1 Harch Hbefore Hafter.
    destruct (archive_session_run strftime (path r) s1) as [? [? [? [Hrun _]]]].
    unfold eval; rewrite Hrun; cbn [fst]. f_equal.
    rewrite process_session_files in Hafter.
    unfold files_after, proceeds in Hafter. rewrite Harch in Hafter.
    destruct (archive_result (world s1) (path r)); [reflexivity|].
    simpl in Hafter. congruence.
Qed.

End Claims.

(** ** The claims on the scenarios *)

(** One file of 10 days, no registry, destructive mode, force, archiving:
    1 scanned, 1 orphaned, 1 archived, 1 deleted, its 120 bytes reclaimed. *)
Example one_old_file_run :
  eval (run strftime_digits live_janitor) one_old_file = Ok (mkStats 1 1 1 1 0 120).
Proof. vm_compute. reflexivity. Qed.

(** The same when the archive store cannot be written: 1 failed, nothing
    deleted, the file still there. *)
Example one_old_file_no_store_run :
  eval (run strftime_digits live_janitor) one_old_file_no_store = Ok (mkStats 1 1 0 0 1 0)
  /\ exists_file a_jsonl
       (files (world (exec (run strftime_digits live_janitor) one_old_file_no_store)))
     = true.
Proof. vm_compute. split; reflexivity. Qed.

(** Two old files: the older [b.jsonl], listed last, is processed first. *)
Example two_old_files_run :
  eval (run strftime_digits live_janitor) two_old_files = Ok (mkStats 2 2 2 2 0 127)
  /\ processed (trace (exec (run strftime_digits live_janitor) two_old_files))
     = [b_jsonl; a_jsonl].
Proof. vm_compute. split; reflexivity. Qed.

(** [cleanup_sessions] on the 10 days old file: [archive_session] renames the
    file into the archive directory, and the [os.remove] that follows raises
    on the path that is gone. *)
Example legacy_raises_after_archiving :
  Legacy.cleanup_sessions "/sessions" "/sessions" one_old_file
  = (Raise FileNotFoundError,
     fresh_state
       (make_world [(mkPath "/sessions" "archived_a.jsonl", plain_file 120 10 "hello")]
          RegAbsent (Some "1") [])).
Proof. vm_compute. reflexivity. Qed.

(** The 20 days old [b.jsonl] whose session was updated 5 minutes ago: nothing
    is orphaned. *)
Example old_but_live_scan :
  eval (scan_sessions three_days) old_but_live
  = Ok [mkSession "b.jsonl" b_jsonl 7 (noon - Datetime.days 20) "b" false [OlderThan 3]].
Proof. vm_compute. reflexivity. Qed.

(** When the marker cannot be created the file is already unlinked: it is
    gone from disk, counted as failed and not as deleted, and its bytes are
    not added. *)
Example marker_failure_after_unlink :
  let s := fresh_state (mkWorld ["/sessions"] [(a_jsonl, plain_file 120 10 "hello")]
                          RegAbsent [] true false (Some "1") [] noon true) in
  eval (run strftime_digits live_janitor) s = Ok (mkStats 1 1 1 0 1 0)
  /\ files (world (exec (run strftime_digits live_janitor) s)) = [].
Proof. vm_compute. split; reflexivity. Qed.

(** C3, witness: [a.jsonl] cannot be read, so archiving it fails; it is
    processed first and [b.jsonl] after it.  [a.jsonl] stays and gets no
    marker, one failure is counted, nothing is counted as deleted by its
    step. *)
Lemma archive_failure_keeps_file_witness :
  let s := unreadable_then_fine in
  let s1 := exec (_process_session strftime_digits live_janitor a_record) s in
  let s2 := exec (for_each [b_record] (_process_session strftime_digits live_janitor)) s1 in
  let marker := deleted_marker strftime_digits a_jsonl noon in
  files (world s1) = files (world s)
  /\ failed (stats s1) = failed (stats s) + 1
  /\ deleted (stats s1) = deleted (stats s)
  /\ space_reclaimed_bytes (stats s1) = space_reclaimed_bytes (stats s)
  /\ (exists_file a_jsonl (files (world s)) = true ->
      exists_file a_jsonl (files (world s2)) = true)
  /\ (exists_file marker (files (world s)) = false ->
      exists_file marker (files (world s2)) = false).
Proof.
  apply (archive_failure_keeps_file strftime_digits live_janitor unreadable_then_fine
           a_record [b_record]).
  - reflexivity.
  - vm_compute; reflexivity.
  - simpl. intros [H|[]]. discriminate H.
Defined.

(** C4, witness: a preview of the directory with one old file. *)
Lemma dry_run_changes_nothing_witness :
  exists st,
    eval (run strftime_digits preview_janitor) one_old_file = Ok st
    /\ world (exec (run strftime_digits preview_janitor) one_old_file) = world one_old_file
    /\ archiver (exec (run strftime_digits preview_janitor) one_old_file)
       = archiver one_old_file
    /\ stats (exec (run strftime_digits preview_janitor) one_old_file) = st
    /\ deleted st = 0 /\ archived st = 0 /\ failed st = 0
    /\ space_reclaimed_bytes st = 0
    /\ scanned st = Z.of_nat (List.length [a_record])
    /\ orphaned st = Z.of_nat (List.length (filter is_orphaned [a_record])).
Proof.
  apply (dry_run_changes_nothing strftime_digits preview_janitor one_old_file [a_record]).
  - reflexivity.
  - reflexivity.
  - vm_compute; reflexivity.
  - simpl; discriminate.
Defined.

(** C5, counterexample: [a.jsonl] is one hour old and there is no registry.
    The legacy script keeps it; the orchestrator, for which a file without
    a live registry entry is orphaned whatever its age, removes it. *)
Lemma legacy_is_degenerate_run_fails :
  ~ legacy_is_degenerate_run strftime_digits "/sessions" "/archive" one_fresh_file.
Proof.
  intros H. specialize (H eq_refl eq_refl a_jsonl).
  vm_compute in H. destruct H as [_ H]. exact (H (or_introl eq_refl)).
Qed.

(** C5, witness: on the 10 days old file the legacy script selects it, and
    the orchestrator orphans it. *)
Lemma legacy_selection_within_orphans_witness :
  let self := degenerate "/sessions" noon in
  let s := one_old_file in
  (forall n,
     In n ["a.jsonl"] ->
     let p := mkPath (sessions_dir (analyzer self)) n in
     In p [a_jsonl] <->
     Text.endswith n ".jsonl" = true
     /\ exists f, lookup p (files (world s)) = Some f
                  /\ 7 < Datetime.timedelta_days (clock (world s) - st_ctime f))
  /\ (exists sessions,
        eval (scan_sessions (analyzer self)) s = Ok sessions
        /\ forall p f,
             In p [a_jsonl] ->
             Text.contains ".deleted." (name p) = false ->
             lookup p (files (world s)) = Some f ->
             Datetime.fromtimestamp (st_mtime f) = Ok (st_mtime f) ->
             exists r, In r (filter is_orphaned sessions) /\ path r = p)
  /\ (forall r s1,
        archive_enabled self = true ->
        exists_file (path r) (files (world s1)) = true ->
        exists_file (path r)
          (files (world (exec (_process_session strftime_digits self r) s1))) = false ->
        eval (archive_session strftime_digits (path r)) s1 = Ok true).
Proof.
  apply (legacy_selection_within_orphans strftime_digits (degenerate "/sessions" noon)
           one_old_file ["a.jsonl"] [a_jsonl]).
  - reflexivity.
  - vm_compute; reflexivity.
  - vm_compute; reflexivity.
Defined.

(** C6, witness: the confirmed run over the two old files. *)
Lemma reclaimed_bytes_witness :
  exists s0 st,
    eval (run strftime_digits live_janitor) two_old_files = Ok st
    /\ files (world s0) = files (world two_old_files)
    /\ (let done := if confirms (world two_old_files)
                    then filter is_orphaned [b_record; a_record] else [] in
        space_reclaimed_bytes st
        = total (reclaimed_sizes strftime_digits live_janitor done s0)
        /\ deleted st
           = Z.of_nat (List.length (reclaimed_sizes strftime_digits live_janitor done s0)))
    /\ (forall r s1,
          let s2 := exec (_process_session strftime_digits live_janitor r) s1 in
          (counted_in_deleted strftime_digits live_janitor r s1 = true ->
           exists_file (path r) (files (world s1)) = true
           /\ exists_file (path r) (files (world s2)) = false)
          /\ (counted_in_deleted strftime_digits live_janitor r s1 = false ->
              space_reclaimed_bytes (stats s2) = space_reclaimed_bytes (stats s1))
          /\ (archive_enabled live_janitor = true ->
              eval (archive_session strftime_digits (path r)) s1 = Ok false ->
              counted_in_deleted strftime_digits live_janitor r s1 = false)).
Proof.
  apply (reclaimed_bytes_are_the_deleted_sizes strftime_digits live_janitor two_old_files
           [b_record; a_record]).
  - reflexivity.
  - reflexivity.
  - vm_compute; reflexivity.
Defined.

(** C8, on three files: the entry [broken.jsonl], for which [stat] finds no
    file, is reported missing; the unreadable [a.jsonl] is reported as a
    failure; the readable [a.jsonl] is archived. *)
Lemma archive_session_outcomes_witness :
  eval (archive_session strftime_digits (mkPath "/sessions" "broken.jsonl"))
       stale_and_unreadable = Ok false
  /\ eval (archive_session strftime_digits a_jsonl) unreadable_then_fine = Ok false
  /\ eval (archive_session strftime_digits a_jsonl) one_old_file = Ok true.
Proof.
  split; [|split].
  - apply (proj1 (proj2 (proj2 (archive_session_outcomes strftime_digits
                                  (mkPath "/sessions" "broken.jsonl")
                                  stale_and_unreadable)))).
    right. eexists. split; reflexivity.
  - apply (proj1 (proj2 (proj2 (proj2 (archive_session_outcomes strftime_digits a_jsonl
                                         unreadable_then_fine))))
             (mkFile 120 (noon - Datetime.days 10) (noon - Datetime.days 10)
                     "hello" true false true)).
    + reflexivity.
    + left. reflexivity.
  - apply (proj2 (proj2 (proj2 (proj2 (proj2 (archive_session_outcomes strftime_digits
                                                a_jsonl one_old_file)))))
             (plain_file 120 10 "hello")); reflexivity.
Defined.

(** C9, witness: the confirmed run over the two old files scans the older
    [b.jsonl] first, although it is listed last, and processes the two in
    that order. *)
Lemma processing_follows_scan_order_witness :
  exists sessions,
    eval (scan_sessions three_days) two_old_files = Ok sessions
    /\ map path sessions = [b_jsonl; a_jsonl]
    /\ processed (trace (exec (run strftime_digits live_janitor) two_old_files))
       = map path (filter is_orphaned sessions).
Proof.
  destruct (processing_follows_scan_order strftime_digits live_janitor two_old_files)
    as [sessions [Hscan [_ [_ [_ [_ Hrun]]]]]].
  exists sessions. split; [exact Hscan|]. split.
  - assert (H : Ok sessions = Ok [b_record; a_record])
      by (rewrite <- Hscan; vm_compute; reflexivity).
    injection H as ->. reflexivity.
  - exact (Hrun eq_refl eq_refl).
Defined.

(** ** Further properties *)

(** *** The scanner *)

(** X1: every record [scan_sessions] returns describes a file that is on
    disk in the sessions directory: its name ends in [.jsonl] and has no
    [.deleted.] part, [file] is that name and [session_id] its stem, and
    [size_bytes] and [modified] are what [stat] reports. *)
Theorem scan_records_describe_files (self : SessionAnalyzer) (s : State) :
  exists sessions,
    eval (scan_sessions self) s = Ok sessions
    /\ forall r, In r sessions ->
         exists f,
           lookup (path r) (files (world s)) = Some f
           /\ parent (path r) = sessions_dir self
           /\ Text.endswith (name (path r)) ".jsonl" = true
           /\ Text.contains ".deleted." (name (path r)) = false
           /\ file r = name (path r)
           /\ session_id r = Text.stem (name (path r))
           /\ size_bytes r = st_size f
           /\ modified r = st_mtime f.
Proof.
  destruct (scan_sessions_run self s) as [evs [Hrun _]].
  exists (scan_result self (world s)). unfold eval; rewrite Hrun.
  split; [reflexivity|]. intros r Hr.
  apply scan_result_inv in Hr as [f H]. exists f. tauto.
Qed.

(** X2: a session file whose metadata can be read has its record in the
    scan, whatever happens to the other files of the directory (a file
    whose [stat] fails is skipped and stops nothing). *)
Theorem scan_finds_every_readable_file (self : SessionAnalyzer) (s : State)
    (p : Path) (f : File) :
  existsb (String.eqb (sessions_dir self)) (dirs (world s)) = true ->
  parent p = sessions_dir self ->
  Text.endswith (name p) ".jsonl" = true ->
  Text.contains ".deleted." (name p) = false ->
  lookup p (files (world s)) = Some f ->
  stat_ok f = true ->
  Datetime.fromtimestamp (st_mtime f) = Ok (st_mtime f) ->
  exists sessions r,
    eval (scan_sessions self) s = Ok sessions
    /\ In r sessions
    /\ path r = p /\ size_bytes r = st_size f /\ modified r = st_mtime f.
Proof.
  intros Hdir Hparent Hend Hdel Hf Hstat Hdate.
  destruct (scan_sessions_run self s) as [evs [Hrun _]].
  exists (scan_result self (world s)).
  assert (Han : exists r, analysis self (world s) p = Ok r
                          /\ path r = p /\ size_bytes r = st_size f
                          /\ modified r = st_mtime f).
  { unfold analysis. rewrite Hf, Hstat, Hdate.
    destruct (negb (liveness (world s) (Text.stem (name p)))); eexists; split;
      try reflexivity; simpl; auto. }
  destruct Han as [r [Han Hr]]. exists r.
  unfold eval; rewrite Hrun. split; [reflexivity|]. split; [|exact Hr].
  unfold scan_result. rewrite Hdir. apply sorted_by_modified_In.
  apply (scanned_records_intro _ _ _ p); [| exact Hdel | exact Han].
  unfold session_paths. apply filter_In. split.
  - apply lookup_In in Hf. apply (in_map fst) in Hf; exact Hf.
  - rewrite Hparent, String.eqb_refl, Hend; reflexivity.
Qed.

(** X3: when there is no registry to consult ([sessions.json] is missing or
    cannot be used, or lists no session), every file the scan records is
    orphaned for the reason "No active process", however recently it was
    modified. *)
Theorem no_registry_orphans_every_file (self : SessionAnalyzer) (s : State) :
  (forall entries, registry (world s) = RegSessions entries -> entries = []) ->
  exists sessions,
    eval (scan_sessions self) s = Ok sessions
    /\ forall r, In r sessions ->
         is_orphaned r = true
         /\ reason r = (if modified r <? cutoff_date self
                        then [OlderThan (retention_days self); NoActiveProcess]
                        else [NoActiveProcess]).
Proof.
  intros Hreg.
  destruct (scan_sessions_run self s) as [evs [Hrun _]].
  exists (scan_result self (world s)). unfold eval; rewrite Hrun.
  split; [reflexivity|]. intros r Hr.
  apply scan_result_inv in Hr as [f [_ [_ [_ [_ [_ [_ [_ [_ [Horph Hreason]]]]]]]]]].
  assert (Hliv : liveness (world s) (session_id r) = false).
  { unfold liveness. destruct (registry (world s)) as [| |entries]; try reflexivity.
    rewrite (Hreg entries eq_refl). reflexivity. }
  rewrite Horph, Hreason, Hliv. split; [reflexivity|].
  destruct (modified r <? cutoff_date self); reflexivity.
Qed.

(** X4: a recorded file for which [_is_process_active] answers false is
    orphaned; its reasons are "Older than N days" followed by "No active
    process" when it is older than the retention period, and "No active
    process" alone when it is not. *)
Theorem inactive_file_reasons (self : SessionAnalyzer) (s : State) :
  exists sessions,
    eval (scan_sessions self) s = Ok sessions
    /\ forall r, In r sessions ->
         eval (_is_process_active self (session_id r)) s = Ok false ->
         is_orphaned r = true
         /\ (modified r < cutoff_date self ->
             reason r = [OlderThan (retention_days self); NoActiveProcess])
         /\ (cutoff_date self <= modified r -> reason r = [NoActiveProcess]).
Proof.
  destruct (scan_sessions_run self s) as [evs [Hrun _]].
  exists (scan_result self (world s)). unfold eval at 1; rewrite Hrun.
  split; [reflexivity|]. intros r Hr Hactive.
  apply scan_result_inv in Hr as [f [_ [_ [_ [_ [_ [_ [_ [_ [Horph Hreason]]]]]]]]]].
  destruct (is_process_active_run self (session_id r) s) as [evs' [Hrun' _]].
  unfold eval in Hactive; rewrite Hrun' in Hactive; injection Hactive as Hliv.
  rewrite Horph, Hreason, Hliv. split; [reflexivity|]. split; intros Hage.
  - apply Z.ltb_lt in Hage; rewrite Hage; reflexivity.
  - apply Z.ltb_ge in Hage; rewrite Hage; reflexivity.
Qed.

(** *** The sort *)

Lemma insert_by_modified_filter (t : Z) (r : SessionRecord) (l : list SessionRecord) :
  filter (modified_at t) (insert_by_modified r l) = filter (modified_at t) (r :: l).
Proof.
  induction l as [|r' l IH]; [reflexivity|].
  cbn [insert_by_modified].
  destruct (modified r <=? modified r') eqn:E; [reflexivity|].
  apply Z.leb_gt in E.
  cbn [filter] in *. rewrite IH. unfold modified_at.
  destruct (modified r' =? t) eqn:E1; destruct (modified r =? t) eqn:E2;
    try reflexivity.
  apply Z.eqb_eq in E1, E2. lia.
Qed.

(** X5: the sort of [scan_sessions] loses and duplicates nothing, and it is
    stable: the records that share a modification time come out in the
    order in which the directory listed them. *)
Theorem sort_is_a_stable_permutation (l : list SessionRecord) :
  Permutation l (sorted_by_modified l)
  /\ List.length (sorted_by_modified l) = List.length l
  /\ forall t, filter (modified_at t) (sorted_by_modified l) = filter (modified_at t) l.
Proof.
  split; [apply sorted_by_modified_perm|].
  split; [symmetry; apply Permutation_length, sorted_by_modified_perm|].
  intros t. induction l as [|r l IH]; [reflexivity|].
  cbn [sorted_by_modified fold_right].
  rewrite insert_by_modified_filter. cbn [filter].
  change (fold_right insert_by_modified [] l) with (sorted_by_modified l).
  rewrite IH. reflexivity.
Qed.

(** *** The run *)

Section Further.

Variable strftime : string -> Z -> string.

Lemma same_surroundings_refl (w : World) : same_surroundings w w.
Proof. unfold same_surroundings; tauto. Qed.

Lemma same_surroundings_trans (w1 w2 w3 : World) :
  same_surroundings w1 w2 -> same_surroundings w2 w3 -> same_surroundings w1 w3.
Proof. unfold same_surroundings; intuition congruence. Qed.

(** The per-record step once more, with the store and the counters it
    leaves: those of [archive_session] when archiving is enabled, the old
    ones when it is not. *)
Lemma process_session_parts (self : SwarmJanitor) (r : SessionRecord) (s : State) :
  let s' := exec (_process_session strftime self r) s in
  let sa := if archive_enabled self
            then exec (archive_session strftime (path r)) s else s in
  files (world s') = files_after strftime self (world s) (path r)
  /\ stats s' = stats_after self (world s) (path r) (stats s)
  /\ archive_store (world s') = archive_store (world sa)
  /\ archiver s' = archiver sa
  /\ same_surroundings (world s) (world s').
Proof.
  cbn zeta.
  rewrite process_session_files, process_session_stats.
  split; [reflexivity|]. split; [reflexivity|].
  unfold exec, _process_session.
  destruct (archive_enabled self) eqn:Harch.
  - destruct (archive_session_run strftime (path r) s) as [evs [store' [arch' [Hrun _]]]].
    unfold_m. rewrite Hrun. destruct s as [w tr st ar]; simpl in *.
    destruct (archive_result w (path r)) eqn:Hres; step.
    + destruct (lookup (path r) (files w)) as [f|] eqn:Hf; step.
      * destruct (stat_ok f) eqn:Hstat; step.
        -- destruct (unlink_ok f) eqn:Hunl; step.
           ++ destruct (touch_ok w) eqn:Htouch; step;
                unfold same_surroundings; simpl; repeat split; auto.
           ++ unfold same_surroundings; simpl; repeat split; auto.
        -- unfold same_surroundings; simpl; repeat split; auto.
      * unfold same_surroundings; simpl; repeat split; auto.
    + unfold same_surroundings; simpl; repeat split; auto.
  - unfold_m. destruct s as [w tr st ar]; simpl in *.
    destruct (lookup (path r) (files w)) as [f|] eqn:Hf; step.
    + destruct (stat_ok f) eqn:Hstat; step.
      * destruct (unlink_ok f) eqn:Hunl; step.
        -- destruct (touch_ok w) eqn:Htouch; step;
             unfold same_surroundings; simpl; repeat split; auto.
        -- unfold same_surroundings; simpl; repeat split; auto.
      * unfold same_surroundings; simpl; repeat split; auto.
    + unfold same_surroundings; simpl; repeat split; auto.
Qed.

Lemma archive_session_surroundings (p : Path) (s : State) :
  let s' := exec (archive_session strftime p) s in
  files (world s') = files (world s)
  /\ stats s' = stats s
  /\ same_surroundings (world s) (world s').
Proof.
  destruct (archive_session_run strftime p s) as [evs [store' [arch' [Hrun _]]]].
  unfold exec; rewrite Hrun; simpl. unfold same_surroundings; simpl. tauto.
Qed.

Lemma loop_surroundings (self : SwarmJanitor) (rs : list SessionRecord) :
  forall s,
    same_surroundings (world s)
      (world (exec (for_each rs (_process_session strftime self)) s)).
Proof.
  induction rs as [|r rs IH]; intros s; [apply same_surroundings_refl|].
  rewrite for_each_process_cons.
  eapply same_surroundings_trans; [|apply IH].
  apply process_session_parts.
Qed.

(** A confirmed destructive run, with the state in which Processing
    starts. *)
Lemma run_destructive_from (self : SwarmJanitor) (s : State) :
  let sessions := scan_result (analyzer self) (world s) in
  let orphans := filter is_orphaned sessions in
  dry_run self = false ->
  orphans <> [] ->
  confirms (world s) = true ->
  exists evs,
    processed evs = [] /\
    let s0 := mkState (with_stdin (world s) (stdin_after_confirm (world s)))
                (trace s ++ evs)
                (with_orphaned (Z.of_nat (List.length orphans))
                   (with_scanned (Z.of_nat (List.length sessions)) (stats s)))
                (archiver s) in
    let s1 := exec (for_each orphans (_process_session strftime self)) s0 in
    run strftime self s = (Ok (stats s1), log_more s1 [InfoSummary (stats s1)]).
Proof.
  intros sessions orphans Hdry Hne Hconf.
  unfold run. unfold bind at 1. rewrite emit_run.
  destruct (scan_sessions_run (analyzer self)
              (log_more s [InfoRunHeader (dry_run self) (archive_enabled self)]))
    as [evs1 [Hscan Hevs1]].
  unfold bind at 1. rewrite Hscan. cbn [world log_more].
  fold sessions. fold orphans.
  destruct orphans as [|o orphans'] eqn:Horph; [contradiction|].
  rewrite <- Horph. clear Hne.
  unfold_m. rewrite Hdry.
  rewrite for_each_listing.
  match goal with
  | |- context [_confirm_action ?n ?st] =>
      destruct (confirm_action_run n st) as [evs2 [stdin' [Hc [Hevs2' [Hf Ha]]]]]; rewrite Hc
  end.
  cbn [world log_more trace stats archiver] in *. rewrite Hconf. cbn [negb].
  assert (Hstdin : stdin' = stdin_after_confirm (world s)).
  { unfold stdin_after_confirm. destruct (force_signal (world s)).
    - apply Hf; reflexivity.
    - apply Ha; reflexivity. }
  subst stdin'.
  match goal with
  | |- context [for_each orphans (_process_session strftime self) ?st] =>
      rewrite (for_each_process_exec strftime self orphans st)
  end.
  eexists. cbn zeta. rewrite <- !app_assoc. split; [|reflexivity].
  rewrite !processed_app, Hevs1, Hevs2', processed_listing. reflexivity.
Qed.

(** X6: when the sessions directory does not exist the scan logs the
    error and returns no record, and [run], in either mode, returns with
    [scanned] and [orphaned] equal to 0 and the other counts untouched,
    changes nothing in the world and asks nothing. *)
Theorem missing_directory_is_no_work (self : SwarmJanitor) (s : State) :
  existsb (String.eqb (sessions_dir (analyzer self))) (dirs (world s)) = false ->
  scan_sessions (analyzer self) s
  = (Ok [], log_more s [ErrSessionsDirNotFound (sessions_dir (analyzer self))])
  /\ eval (run strftime self) s = Ok (with_orphaned 0 (with_scanned 0 (stats s)))
  /\ world (exec (run strftime self) s) = world s
  /\ archiver (exec (run strftime self) s) = archiver s.
Proof.
  intros Hdir. split.
  - unfold scan_sessions; unfold_m; simpl. rewrite Hdir; reflexivity.
  - assert (Hscan : scan_result (analyzer self) (world s) = [])
      by (unfold scan_result; rewrite Hdir; reflexivity).
    destruct (run_preview strftime self s) as [evs [Hrun _]];
      [left; rewrite Hscan; reflexivity|].
    rewrite Hscan in Hrun. unfold eval, exec; rewrite Hrun; simpl. auto.
Qed.

Lemma step_counts (self : SwarmJanitor) (r : SessionRecord) (s : State) :
  let st := stats s in
  let st' := stats (exec (_process_session strftime self r) s) in
  deleted st' + failed st' = deleted st + failed st + 1
  /\ deleted st <= deleted st' /\ failed st <= failed st'
  /\ archived st <= archived st' <= archived st + 1
  /\ (archive_enabled self = false -> archived st' = archived st)
  /\ (archive_enabled self = true ->
      deleted st' - deleted st <= archived st' - archived st)
  /\ scanned st' = scanned st /\ orphaned st' = orphaned st.
Proof.
  cbn zeta. rewrite process_session_stats. unfold stats_after, proceeds.
  destruct (archive_enabled self); simpl;
    [destruct (archive_result (world s) (path r)); simpl|];
    try (destruct (removable (world s) (path r)); simpl;
         destruct (touch_ok (world s)); simpl);
    repeat split; try lia; try discriminate.
Qed.

Lemma loop_counts (self : SwarmJanitor) (rs : list SessionRecord) :
  forall s,
    let st := stats s in
    let st' := stats (exec (for_each rs (_process_session strftime self)) s) in
    deleted st' + failed st' = deleted st + failed st + Z.of_nat (List.length rs)
    /\ deleted st <= deleted st' /\ failed st <= failed st'
    /\ archived st <= archived st' <= archived st + Z.of_nat (List.length rs)
    /\ (archive_enabled self = false -> archived st' = archived st)
    /\ (archive_enabled self = true ->
        deleted st' - deleted st <= archived st' - archived st)
    /\ scanned st' = scanned st /\ orphaned st' = orphaned st.
Proof.
  induction rs as [|r rs IH]; intros s; cbn zeta.
  - unfold exec; simpl. repeat split; lia.
  - rewrite for_each_process_cons.
    specialize (IH (exec (_process_session strftime self r) s)). cbn zeta in IH.
    pose proof (step_counts self r s) as Hstep. cbn zeta in Hstep.
    cbn [List.length]. rewrite Nat2Z.inj_succ.
    destruct IH as [I1 [I2 [I3 [I4 [I5 [I6 [I7 I8]]]]]]].
    destruct Hstep as [H1 [H2 [H3 [H4 [H5 [H6 [H7 H8]]]]]]].
    repeat split; try lia.
    + intros Hoff. rewrite (I5 Hoff), (H5 Hoff); reflexivity.
    + intros Hon. specialize (I6 Hon). specialize (H6 Hon). lia.
Qed.

(** X7: in the stats of a confirmed destructive run of a fresh janitor every
    orphaned record is counted once, as deleted or as failed:
    [deleted + failed = orphaned].  Moreover [orphaned <= scanned],
    [archived <= orphaned], no record is counted as archived when archiving
    is disabled, and with archiving enabled no more records are deleted
    than archived. *)
Theorem every_orphan_is_counted_once (self : SwarmJanitor) (s : State)
    (sessions : list SessionRecord) :
  dry_run self = false ->
  stats s = initial_stats ->
  eval (scan_sessions (analyzer self)) s = Ok sessions ->
  confirms (world s) = true ->
  exists st,
    eval (run strftime self) s = Ok st
    /\ scanned st = Z.of_nat (List.length sessions)
    /\ orphaned st = Z.of_nat (List.length (filter is_orphaned sessions))
    /\ deleted st + failed st = orphaned st
    /\ 0 <= deleted st /\ 0 <= failed st
    /\ orphaned st <= scanned st
    /\ 0 <= archived st <= orphaned st
    /\ (archive_enabled self = false -> archived st = 0)
    /\ (archive_enabled self = true -> deleted st <= archived st).
Proof.
  intros Hdry Hfresh Hscan Hconf.
  destruct (scan_sessions_run (analyzer self) s) as [evs0 [Hrun0 _]].
  unfold eval in Hscan; rewrite Hrun0 in Hscan; injection Hscan as <-.
  assert (Hle : Z.of_nat (List.length (filter is_orphaned
                                         (scan_result (analyzer self) (world s))))
                <= Z.of_nat (List.length (scan_result (analyzer self) (world s))))
    by (apply inj_le, filter_length_le).
  destruct (filter is_orphaned (scan_result (analyzer self) (world s))) as [|o os] eqn:Horph.
  - destruct (run_preview strftime self s) as [evs [Hrun _]]; [left; exact Horph|].
    rewrite Horph in Hrun. eexists. unfold eval; rewrite Hrun; cbn [fst].
    split; [reflexivity|]. rewrite Hfresh; simpl. repeat split; auto; lia.
  - destruct (run_destructive_from self s Hdry) as [evs [_ Hrun]];
      [rewrite Horph; discriminate | exact Hconf |].
    cbn zeta in Hrun. rewrite Horph, Hfresh in Hrun.
    eexists. unfold eval; rewrite Hrun; cbn [fst]. split; [reflexivity|].
    match goal with
    | |- context [exec (for_each (o :: os) _) ?s0] =>
        pose proof (loop_counts self (o :: os) s0) as Hloop
    end.
    cbn zeta in Hloop. cbn [stats] in Hloop.
    cbn [with_orphaned with_scanned deleted failed archived scanned orphaned
         initial_stats] in Hloop.
    destruct Hloop as [L1 [L2 [L3 [L4 [L5 [L6 [L7 L8]]]]]]].
    rewrite L7, L8. repeat split; try lia.
    + intros Hoff. rewrite (L5 Hoff); reflexivity.
    + intros Hon. specialize (L6 Hon). lia.
Qed.

(** X8: a destructive run that finds no orphaned record, or whose
    confirmation is declined, removes and archives nothing: the files, the
    archive store and the archiver's counters are as before and only
    [scanned] and [orphaned] are written into the stats.  With no orphaned
    record nothing is asked; a declined confirmation has read one line. *)
Theorem run_without_consent_changes_nothing (self : SwarmJanitor) (s : State)
    (sessions : list SessionRecord) :
  dry_run self = false ->
  eval (scan_sessions (analyzer self)) s = Ok sessions ->
  filter is_orphaned sessions = [] \/ confirms (world s) = false ->
  let s' := exec (run strftime self) s in
  eval (run strftime self) s
  = Ok (with_orphaned (Z.of_nat (List.length (filter is_orphaned sessions)))
          (with_scanned (Z.of_nat (List.length sessions)) (stats s)))
  /\ files (world s') = files (world s)
  /\ archive_store (world s') = archive_store (world s)
  /\ archiver s' = archiver s
  /\ (filter is_orphaned sessions = [] -> world s' = world s)
  /\ (filter is_orphaned sessions <> [] -> stdin (world s') = tl (stdin (world s))).
Proof.
  intros Hdry Hscan Hcase s'. subst s'.
  destruct (scan_sessions_run (analyzer self) s) as [evs0 [Hrun0 _]].
  unfold eval in Hscan; rewrite Hrun0 in Hscan; injection Hscan as <-.
  destruct (filter is_orphaned (scan_result (analyzer self) (world s))) as [|o os] eqn:Horph.
  - destruct (run_preview strftime self s) as [evs [Hrun _]]; [left; exact Horph|].
    rewrite Horph in Hrun. unfold eval, exec; rewrite Hrun; simpl.
    repeat split; auto. intros H; contradiction.
  - destruct Hcase as [Hcase|Hconf]; [discriminate|].
    destruct (run_cancelled strftime self s Hdry) as [evs [stdin' Hrun]];
      [rewrite Horph; discriminate | exact Hconf |].
    rewrite Horph in Hrun.
    (* the line that was read *)
    assert (Hforce : force_signal (world s) = false).
    { unfold confirms in Hconf. apply orb_false_iff in Hconf; tauto. }
    assert (Hstdin : stdin (world (exec (run strftime self) s)) = tl (stdin (world s))).
    { clear Hrun. unfold exec, run. unfold bind at 1. rewrite emit_run.
      destruct (scan_sessions_run (analyzer self)
                  (log_more s [InfoRunHeader (dry_run self) (archive_enabled self)]))
        as [evs1 [Hscan _]].
      unfold bind at 1. rewrite Hscan. cbn [world log_more].
      rewrite Horph. unfold_m. rewrite Hdry, for_each_listing.
      match goal with
      | |- context [_confirm_action ?n ?st] =>
          destruct (confirm_action_run n st) as [evs2 [stdin2 [Hc [_ [_ Ha]]]]]; rewrite Hc
      end.
      cbn [world log_more trace stats archiver] in *. rewrite Hconf. simpl.
      apply Ha; exact Hforce. }
    unfold eval; rewrite Hrun. cbn [fst]. split; [reflexivity|].
    unfold exec in *; rewrite Hrun in *; simpl in *.
    repeat split; auto. discriminate.
Qed.

(** *** The archiver *)

Lemma archive_session_closed (p : Path) (s : State) :
  archive_session strftime p s
  = (Ok (archive_result (world s) p), archive_state strftime p s).
Proof.
  unfold archive_session, archive_result, archive_state, entry_of, preview_of,
    log_more, with_store; unfold_m.
  destruct (lookup p (files (world s))) as [f|] eqn:Hf; step; [|reflexivity].
  destruct (stat_ok f) eqn:Hstat; step; [|reflexivity].
  destruct (read_ok f) eqn:Hread; step; [|reflexivity].
  rewrite strip_eqb_blank.
  destruct (Text.blank (content f)) eqn:Hblank; step; [reflexivity|].
  destruct (archive_store_ok (world s)) eqn:Hok; step; rewrite ?Hok; reflexivity.
Qed.

(** X9: when [archive_session] archives a transcript that is there, readable
    and not blank into a writable store, the store then holds, under the
    name [<stem>_<time>.json], the entry of that file: its stem, the time,
    its path and a preview that is the first 1000 characters of the text
    (the whole text when it is no longer).  Entries under other names are
    kept, the session file itself is not touched, and the archiver's
    [archived_count] goes up by one. *)
Theorem archived_entry_is_a_bounded_preview (p : Path) (s : State) (f : File) :
  lookup p (files (world s)) = Some f ->
  stat_ok f = true ->
  read_ok f = true ->
  Text.blank (content f) = false ->
  archive_store_ok (world s) = true ->
  let s' := exec (archive_session strftime p) s in
  let now := clock (world s) in
  let e := mkArchiveEntry (Text.stem (name p)) now p (preview_of (content f)) in
  eval (archive_session strftime p) s = Ok true
  /\ store_get (archive_file_name strftime p now) (archive_store (world s')) = Some e
  /\ (forall k, k <> archive_file_name strftime p now ->
        store_get k (archive_store (world s')) = store_get k (archive_store (world s)))
  /\ (String.length (content_preview e) <= 1000)%nat
  /\ (exists rest, content f = (content_preview e ++ rest)%string)
  /\ ((String.length (content f) <= 1000)%nat -> content_preview e = content f)
  /\ files (world s') = files (world s)
  /\ archived_count (archiver s') = archived_count (archiver s) + 1
  /\ failed_count (archiver s') = failed_count (archiver s).
Proof.
  intros Hf Hstat Hread Hblank Hok. cbn zeta.
  unfold eval, exec. rewrite archive_session_closed. cbn [fst snd].
  unfold archive_result, archive_state. rewrite Hf, Hstat, Hread, Hblank, Hok.
  cbn [negb andb orb world archive_store with_store files archiver archived_count
       failed_count content_preview].
  split; [reflexivity|]. split; [apply store_get_put|].
  split; [intros k Hk; apply store_get_put_other; exact Hk|].
  unfold preview_of.
  destruct (1000 <? String.length (content f))%nat eqn:Hlen.
  - split; [apply substring_0_length|]. split; [apply substring_0_prefix|].
    split; [|auto]. intros H. apply Nat.ltb_lt in Hlen. lia.
  - apply Nat.ltb_ge in Hlen. split; [exact Hlen|].
    split; [exists ""; symmetry; apply append_empty_r|].
    auto.
Qed.

(** X10: [archive_session] never changes a session file or the janitor's
    stats, and its own [failed_count] counts the failures that were raised
    only: on a file that is there, a failed read or a failed write adds
    one, while a file that is missing (no entry, or an entry for which
    [stat] finds no file) is reported as failure with both counters
    untouched, and a blank transcript is reported as success with both
    counters untouched. *)
Theorem archiver_counts_raised_failures_only (p : Path) (s : State) :
  let s' := exec (archive_session strftime p) s in
  files (world s') = files (world s)
  /\ stats s' = stats s
  /\ (lookup p (files (world s)) = None
      \/ (exists f, lookup p (files (world s)) = Some f /\ stat_ok f = false) ->
      eval (archive_session strftime p) s = Ok false /\ archiver s' = archiver s)
  /\ (forall f, lookup p (files (world s)) = Some f ->
        stat_ok f = true ->
        read_ok f = false
        \/ (Text.blank (content f) = false /\ archive_store_ok (world s) = false) ->
        eval (archive_session strftime p) s = Ok false
        /\ failed_count (archiver s') = failed_count (archiver s) + 1
        /\ archived_count (archiver s') = archived_count (archiver s))
  /\ (forall f, lookup p (files (world s)) = Some f ->
        stat_ok f = true -> read_ok f = true -> Text.blank (content f) = true ->
        eval (archive_session strftime p) s = Ok true /\ archiver s' = archiver s).
Proof.
  cbn zeta. unfold eval, exec. rewrite archive_session_closed. cbn [fst snd].
  unfold archive_result, archive_state.
  split; [|split; [|split; [|split]]].
  - destruct (lookup p (files (world s))) as [f|]; [|reflexivity].
    destruct (stat_ok f); [|reflexivity]. cbn [negb].
    destruct (read_ok f); [|reflexivity].
    destruct (Text.blank (content f)); [reflexivity|].
    destruct (archive_store_ok (world s)); reflexivity.
  - destruct (lookup p (files (world s))) as [f|]; [|reflexivity].
    destruct (stat_ok f); [|reflexivity]. cbn [negb].
    destruct (read_ok f); [|reflexivity].
    destruct (Text.blank (content f)); [reflexivity|].
    destruct (archive_store_ok (world s)); reflexivity.
  - intros [->|[f [-> ->]]]; split; reflexivity.
  - intros f -> -> [Hr|[Hb Hok]]; cbn [negb andb].
    + rewrite Hr. repeat split; reflexivity.
    + rewrite Hb, Hok. destruct (read_ok f); repeat split; reflexivity.
  - intros f -> -> -> ->. split; reflexivity.
Qed.

(** *** The run as a loop *)

(** Every run is its scan, its confirmation and the processing of
    [records_to_process]. *)
Lemma run_as_loop (self : SwarmJanitor) (s : State) :
  exists stdin' evs evs',
    let sessions := scan_result (analyzer self) (world s) in
    let orphans := filter is_orphaned sessions in
    let s0 := mkState (with_stdin (world s) stdin') (trace s ++ evs)
                (with_orphaned (Z.of_nat (List.length orphans))
                   (with_scanned (Z.of_nat (List.length sessions)) (stats s)))
                (archiver s) in
    let s1 := exec (for_each (records_to_process self (world s))
                      (_process_session strftime self)) s0 in
    run strftime self s = (Ok (stats s1), log_more s1 evs').
Proof.
  assert (Hstdin : with_stdin (world s) (stdin (world s)) = world s)
    by (destruct (world s); reflexivity).
  unfold records_to_process.
  destruct (filter is_orphaned (scan_result (analyzer self) (world s))) as [|o os] eqn:Horph.
  - destruct (run_preview strftime self s) as [evs [Hrun _]]; [left; exact Horph|].
    rewrite Horph in Hrun.
    exists (stdin (world s)), evs, []. cbn zeta. rewrite Hstdin.
    destruct (negb (dry_run self) && confirms (world s));
      unfold exec; simpl; unfold log_more; simpl; rewrite app_nil_r; exact Hrun.
  - destruct (dry_run self) eqn:Hdry.
    + destruct (run_preview strftime self s) as [evs [Hrun _]]; [right; exact Hdry|].
      rewrite Horph in Hrun.
      exists (stdin (world s)), evs, []. cbn zeta. rewrite Hstdin.
      unfold exec; simpl; unfold log_more; simpl; rewrite app_nil_r; exact Hrun.
    + destruct (confirms (world s)) eqn:Hconf.
      * destruct (run_destructive_from self s Hdry) as [evs [_ Hrun]];
          [rewrite Horph; discriminate | exact Hconf |].
        cbn zeta in Hrun. rewrite Horph in Hrun.
        exists (stdin_after_confirm (world s)), evs. eexists. cbn zeta.
        simpl negb. cbn [andb]. exact Hrun.
      * destruct (run_cancelled strftime self s Hdry) as [evs [stdin' Hrun]];
          [rewrite Horph; discriminate | exact Hconf |].
        rewrite Horph in Hrun.
        exists stdin', evs, []. cbn zeta.
        unfold exec; simpl; unfold log_more; simpl; rewrite app_nil_r; exact Hrun.
Qed.

Lemma loop_without_archiving (self : SwarmJanitor) (rs : list SessionRecord) :
  archive_enabled self = false ->
  forall s,
    let s' := exec (for_each rs (_process_session strftime self)) s in
    archive_store (world s') = archive_store (world s) /\ archiver s' = archiver s.
Proof.
  intros Hoff. induction rs as [|r rs IH]; intros s; cbn zeta; [split; reflexivity|].
  rewrite for_each_process_cons.
  destruct (IH (exec (_process_session strftime self r) s)) as [H1 H2].
  destruct (process_session_parts self r s) as [_ [_ [H3 [H4 _]]]].
  rewrite Hoff in H3, H4. rewrite H1, H2, H3, H4. split; reflexivity.
Qed.

(** X11: with archiving disabled a run never touches the archive store nor
    the archiver's counters, and counts no record as archived. *)
Theorem disabled_archiving_writes_nothing (self : SwarmJanitor) (s : State) :
  archive_enabled self = false ->
  let s' := exec (run strftime self) s in
  archive_store (world s') = archive_store (world s)
  /\ archiver s' = archiver s
  /\ archived (stats s') = archived (stats s)
  /\ eval (run strftime self) s = Ok (stats s').
Proof.
  intros Hoff. cbn zeta.
  destruct (run_as_loop self s) as [stdin' [evs [evs' Hrun]]]. cbn zeta in Hrun.
  unfold exec at 1 2 3 4, eval. rewrite Hrun. cbn [fst snd log_more world stats archiver].
  match goal with
  | |- context [exec (for_each ?rs _) ?s0] =>
      destruct (loop_without_archiving self rs Hoff s0) as [H1 H2];
      destruct (loop_counts self rs s0) as [_ [_ [_ [_ [H3 _]]]]]
  end.
  cbn zeta in H1, H2, H3. rewrite H1, H2, (H3 Hoff). simpl. auto.
Qed.

(** *** Archival before removal, markers, and running again *)

(** X12: with archiving enabled, when [_process_session] has removed a file
    whose text is not blank, the archive store holds the entry of that file
    (its stem, its path, the preview of its text) under the archive name
    of that moment. *)
Theorem removed_transcript_was_archived (self : SwarmJanitor) (r : SessionRecord)
    (s : State) (f : File) :
  archive_enabled self = true ->
  lookup (path r) (files (world s)) = Some f ->
  Text.blank (content f) = false ->
  let s' := exec (_process_session strftime self r) s in
  exists_file (path r) (files (world s')) = false ->
  store_get (archive_file_name strftime (path r) (clock (world s)))
            (archive_store (world s'))
  = Some (mkArchiveEntry (Text.stem (name (path r))) (clock (world s)) (path r)
                         (preview_of (content f))).
Proof.
  intros Hon Hf Hblank s' Hgone. subst s'.
  destruct (process_session_parts self r s) as [Hfiles [_ [Hstore _]]].
  rewrite Hon in Hstore. rewrite Hstore.
  rewrite Hfiles in Hgone. unfold files_after, proceeds in Hgone. rewrite Hon in Hgone.
  assert (Hres : archive_result (world s) (path r) = true).
  { destruct (archive_result (world s) (path r)); [reflexivity|].
    simpl in Hgone. unfold exists_file in Hgone. rewrite Hf in Hgone. discriminate. }
  unfold exec. rewrite archive_session_closed. cbn [snd].
  unfold archive_state. unfold archive_result in Hres. rewrite Hf in Hres |- *.
  rewrite Hblank in Hres |- *. simpl in Hres.
  apply andb_true_iff in Hres as [Hres ->]. apply andb_true_iff in Hres as [-> ->].
  cbn [negb world archive_store with_store]. unfold entry_of. apply store_get_put.
Qed.

Lemma deleted_marker_is_marked (p : Path) (t : Z) :
  Text.contains ".deleted." (name (deleted_marker strftime p t)) = true.
Proof.
  unfold deleted_marker; cbn [name]. apply contains_iff.
  exists (name p). eexists. reflexivity.
Qed.

(** X13: a record counted as deleted leaves its marker on disk beside the
    place of the removed file: an empty file when none was there.  The
    marker's name has the [.deleted.] part, so no scan, of any state, ever
    returns a record for it. *)
Theorem deletion_leaves_an_unscanned_marker (self : SwarmJanitor) (r : SessionRecord)
    (s : State) :
  counted_in_deleted strftime self r s = true ->
  let s' := exec (_process_session strftime self r) s in
  let now := clock (world s) in
  let marker := deleted_marker strftime (path r) now in
  exists_file marker (files (world s')) = true
  /\ parent marker = parent (path r)
  /\ (exists_file marker (files (world s)) = false ->
      lookup marker (files (world s')) = Some (mkFile 0 now now "" true true true))
  /\ (forall analyzer s2 sessions r2,
        eval (scan_sessions analyzer) s2 = Ok sessions ->
        In r2 sessions -> path r2 <> marker).
Proof.
  intros Hcount. cbn zeta.
  assert (Hfiles : files (world (exec (_process_session strftime self r) s))
                   = touched (deleted_marker strftime (path r) (clock (world s)))
                       (clock (world s)) (remove (path r) (files (world s)))).
  { rewrite process_session_files. unfold files_after.
    revert Hcount. unfold counted_in_deleted.
    rewrite process_session_stats. unfold stats_after.
    destruct (proceeds self (world s) (path r) && removable (world s) (path r)); simpl.
    - destruct (touch_ok (world s)); simpl; [reflexivity|].
      destruct (archive_enabled self && archive_result (world s) (path r)); simpl;
        intros H; apply Z.eqb_eq in H; lia.
    - destruct (archive_enabled self && archive_result (world s) (path r)); simpl;
        intros H; apply Z.eqb_eq in H; lia. }
  rewrite Hfiles. split; [|split; [|split]].
  - unfold exists_file. rewrite lookup_touched_eq. reflexivity.
  - reflexivity.
  - intros Habsent. rewrite lookup_touched_eq.
    pose proof (exists_file_remove_false _ (path r) _ Habsent) as H.
    unfold exists_file in H.
    destruct (lookup _ (remove (path r) (files (world s)))); [discriminate | reflexivity].
  - intros analyzer s2 sessions r2 Hscan Hin Heq.
    destruct (scan_sessions_run analyzer s2) as [evs [Hrun _]].
    unfold eval in Hscan; rewrite Hrun in Hscan; injection Hscan as <-.
    apply scan_result_inv in Hin as [f2 [_ [_ [Hdel _]]]].
    rewrite Heq, deleted_marker_is_marked in Hdel. discriminate.
Qed.

Lemma scanned_records_analysis (self : SessionAnalyzer) (w : World) (paths : list Path)
    (r : SessionRecord) :
  In r (scanned_records self w paths) ->
  In (path r) paths
  /\ Text.contains ".deleted." (name (path r)) = false
  /\ analysis self w (path r) = Ok r.
Proof.
  unfold scanned_records. rewrite in_flat_map. intros [p [Hp Hr]].
  destruct (Text.contains ".deleted." (name p)) eqn:Hdel; [destruct Hr|].
  destruct (analysis self w p) as [r'|] eqn:Han; [|destruct Hr].
  destruct Hr as [<-|[]].
  assert (Hpath : path r' = p).
  { revert Han. unfold analysis.
    destruct (lookup p (files w)) as [f|]; [|discriminate].
    destruct (stat_ok f); [|discriminate].
    destruct (Datetime.fromtimestamp (st_mtime f)); [|discriminate].
    destruct (negb (liveness w (Text.stem (name p)))); intros H; injection H as <-;
      reflexivity. }
  rewrite Hpath. auto.
Qed.

Lemma analysis_agrees (self : SessionAnalyzer) (w w' : World) (p : Path) :
  lookup p (files w') = lookup p (files w) ->
  registry w' = registry w -> clock w' = clock w ->
  analysis self w' p = analysis self w p.
Proof.
  intros Hl Hr Hc. unfold analysis, liveness. rewrite Hl, Hr, Hc. reflexivity.
Qed.

Lemma doomed_agrees (self : SwarmJanitor) (w w' : World) (p : Path) :
  lookup p (files w') = lookup p (files w) ->
  archive_store_ok w' = archive_store_ok w ->
  doomed self w' p = doomed self w p.
Proof.
  intros Hl Hok. unfold doomed, proceeds, removable, archive_result.
  rewrite Hl, Hok. reflexivity.
Qed.

Lemma step_files_unmarked (self : SwarmJanitor) (r : SessionRecord) (s : State) (p : Path) :
  Text.contains ".deleted." (name p) = false ->
  let s' := exec (_process_session strftime self r) s in
  (forall f, lookup p (files (world s')) = Some f -> lookup p (files (world s)) = Some f)
  /\ (p = path r -> lookup p (files (world s')) <> None ->
      doomed self (world s) p = false)
  /\ (p <> path r -> lookup p (files (world s')) = lookup p (files (world s))).
Proof.
  intros Hp. cbn zeta. rewrite process_session_files. unfold files_after.
  fold (doomed self (world s) (path r)).
  assert (Hm : p <> deleted_marker strftime (path r) (clock (world s))).
  { intros ->. rewrite deleted_marker_is_marked in Hp. discriminate. }
  destruct (doomed self (world s) (path r)) eqn:Hd.
  - assert (Hlook : lookup p (if touch_ok (world s)
                              then touched (deleted_marker strftime (path r) (clock (world s)))
                                     (clock (world s)) (remove (path r) (files (world s)))
                              else remove (path r) (files (world s)))
                    = lookup p (remove (path r) (files (world s)))).
    { destruct (touch_ok (world s)); [apply lookup_touched_ne; exact Hm | reflexivity]. }
    rewrite Hlook. split; [|split].
    + intros f H. apply lookup_remove_some in H. tauto.
    + intros ->. rewrite lookup_remove_eq. intros H; contradiction.
    + intros Hne. apply lookup_remove_ne; exact Hne.
  - split; [auto|]. split; [|reflexivity].
    intros -> _. exact Hd.
Qed.

Lemma loop_files_unmarked (self : SwarmJanitor) (rs : list SessionRecord) (p : Path) :
  Text.contains ".deleted." (name p) = false ->
  forall s,
    let s' := exec (for_each rs (_process_session strftime self)) s in
    (forall f, lookup p (files (world s')) = Some f -> lookup p (files (world s)) = Some f)
    /\ (In p (map path rs) -> lookup p (files (world s')) <> None ->
        doomed self (world s) p = false).
Proof.
  intros Hp. induction rs as [|r rs IH]; intros s; cbn zeta.
  - split; [auto | intros []].
  - rewrite for_each_process_cons.
    destruct (IH (exec (_process_session strftime self r) s)) as [I1 I2].
    destruct (step_files_unmarked self r s p Hp) as [S1 [S2 S3]].
    split; [auto|].
    intros Hin Hsome.
    destruct (Path_eqb p (path r)) eqn:E.
    + apply Path_eqb_eq in E. apply (S2 E).
      destruct (lookup p (files (world (exec (for_each rs (_process_session strftime self))
                  (exec (_process_session strftime self r) s))))) as [f|] eqn:Hl;
        [|contradiction].
      rewrite (I1 f eq_refl). discriminate.
    + assert (Hne : p <> path r) by (intros H; apply Path_eqb_eq in H; congruence).
      destruct Hin as [Heq|Hin]; [congruence|].
      rewrite <- (doomed_agrees self (world s) (world (exec (_process_session strftime self r) s)) p).
      * apply I2; assumption.
      * apply S3; exact Hne.
      * apply (process_session_parts self r s).
Qed.

Lemma loop_spares_the_undoomed (self : SwarmJanitor) (rs : list SessionRecord) :
  forall s,
    (forall r, In r rs -> doomed self (world s) (path r) = false) ->
    let s' := exec (for_each rs (_process_session strftime self)) s in
    files (world s') = files (world s)
    /\ deleted (stats s') = deleted (stats s)
    /\ space_reclaimed_bytes (stats s') = space_reclaimed_bytes (stats s).
Proof.
  induction rs as [|r rs IH]; intros s Hall; cbn zeta; [repeat split|].
  rewrite for_each_process_cons.
  assert (Hd : doomed self (world s) (path r) = false) by (apply Hall; left; reflexivity).
  assert (Hfiles : files (world (exec (_process_session strftime self r) s))
                   = files (world s)).
  { rewrite process_session_files. unfold files_after.
    fold (doomed self (world s) (path r)). rewrite Hd. reflexivity. }
  assert (Hstats : deleted (stats (exec (_process_session strftime self r) s))
                   = deleted (stats s)
                   /\ space_reclaimed_bytes (stats (exec (_process_session strftime self r) s))
                      = space_reclaimed_bytes (stats s)).
  { rewrite process_session_stats. unfold stats_after.
    fold (doomed self (world s) (path r)). rewrite Hd.
    destruct (archive_enabled self && archive_result (world s) (path r)); simpl; auto. }
  destruct (IH (exec (_process_session strftime self r) s)) as [I1 [I2 I3]].
  - intros r' Hr'. rewrite <- (Hall r' (or_intror Hr')).
    apply doomed_agrees; [rewrite Hfiles; reflexivity|].
    apply (process_session_parts self r s).
  - rewrite I1, I2, I3, Hfiles. destruct Hstats as [-> ->]. repeat split.
Qed.

(** X14: running again changes nothing.  After a confirmed destructive run,
    a second run of the same janitor in the world the first one left (the
    same clock and registry), whether it is confirmed or not, removes no
    file and creates none, and reports [deleted = 0] and no reclaimed
    bytes: what the first run removed is gone, its markers are not
    scanned, and what it could not remove it still cannot. *)
Theorem second_run_deletes_nothing (self : SwarmJanitor) (s : State) :
  dry_run self = false ->
  confirms (world s) = true ->
  let s1 := next_invocation (exec (run strftime self) s) in
  let s2 := exec (run strftime self) s1 in
  files (world s2) = files (world s1)
  /\ exists st,
       eval (run strftime self) s1 = Ok st
       /\ deleted st = 0 /\ space_reclaimed_bytes st = 0.
Proof.
  intros Hdry Hconf. cbn zeta.
  destruct (run_as_loop self s) as [stdin1 [evs1 [evs1' Hrun1]]]. cbn zeta in Hrun1.
  unfold records_to_process in Hrun1. rewrite Hdry, Hconf in Hrun1. cbn [negb andb] in Hrun1.
  set (orphans1 := filter is_orphaned (scan_result (analyzer self) (world s))) in *.
  set (s0 := mkState (with_stdin (world s) stdin1) (trace s ++ evs1)
               (with_orphaned (Z.of_nat (List.length orphans1))
                  (with_scanned (Z.of_nat (List.length (scan_result (analyzer self) (world s))))
                     (stats s)))
               (archiver s)) in *.
  set (sl := exec (for_each orphans1 (_process_session strftime self)) s0) in *.
  assert (Hnext : next_invocation (exec (run strftime self) s)
                  = mkState (world sl) (trace sl ++ evs1') initial_stats (mkArchiver 0 0)).
  { unfold exec at 1. rewrite Hrun1. reflexivity. }
  rewrite Hnext. clear Hnext Hrun1.
  set (s1 := mkState (world sl) (trace sl ++ evs1') initial_stats (mkArchiver 0 0)).
  pose proof (loop_surroundings self orphans1 s0) as Hsur. fold sl in Hsur.
  destruct Hsur as [Hdirs [Hreg [Hok [_ [_ [_ Hclock]]]]]].
  cbn [world s0 with_stdin dirs registry archive_store_ok clock] in Hdirs, Hreg, Hok, Hclock.
  destruct (run_as_loop self s1) as [stdin2 [evs2 [evs2' Hrun2]]]. cbn zeta in Hrun2.
  cbn [world s1] in Hrun2.
  match type of Hrun2 with
  | context [exec (for_each ?rs _) ?st] => set (rs2 := rs) in *; set (s0' := st) in *
  end.
  assert (Hund : forall r, In r rs2 -> doomed self (world s0') (path r) = false).
  { intros r Hr.
    assert (Horph : In r (filter is_orphaned (scan_result (analyzer self) (world sl)))).
    { unfold rs2, records_to_process in Hr.
      destruct (negb (dry_run self) && confirms (world sl)); [exact Hr | destruct Hr]. }
    apply filter_In in Horph as [Hscan Horph].
    unfold scan_result in Hscan.
    destruct (existsb (String.eqb (sessions_dir (analyzer self))) (dirs (world sl)))
      eqn:Hdir; [|destruct Hscan].
    apply (proj1 (sorted_by_modified_In _ _)) in Hscan.
    apply scanned_records_analysis in Hscan as [Hpaths [Hdel Han]].
    assert (Hsome : exists f, lookup (path r) (files (world sl)) = Some f).
    { revert Han. unfold analysis.
      destruct (lookup (path r) (files (world sl))) as [f|]; [eauto | discriminate]. }
    destruct Hsome as [f Hf].
    destruct (loop_files_unmarked self orphans1 (path r) Hdel s0) as [L1 L2].
    fold sl in L1, L2.
    pose proof (L1 f Hf) as Hf0. cbn [world s0 with_stdin files] in Hf0.
    assert (Hin1 : In r orphans1).
    { unfold orphans1. apply filter_In. split; [|exact Horph].
      unfold scan_result. rewrite <- Hdirs, Hdir. apply sorted_by_modified_In.
      apply (scanned_records_intro _ _ _ (path r)); [| exact Hdel |].
      - unfold session_paths in *. apply filter_In in Hpaths as [_ Hcond].
        apply filter_In. split; [|exact Hcond].
        apply lookup_In in Hf0. apply (in_map fst) in Hf0; exact Hf0.
      - rewrite <- Han. symmetry. apply analysis_agrees; [congruence | exact Hreg | exact Hclock]. }
    assert (Hd0 : doomed self (world s0) (path r) = false).
    { apply L2; [apply in_map; exact Hin1 | rewrite Hf; discriminate]. }
    rewrite <- Hd0. apply doomed_agrees.
    - unfold s0'. cbn [world with_stdin files s0]. congruence.
    - unfold s0'. cbn [world with_stdin archive_store_ok s0]. exact Hok. }
  destruct (loop_spares_the_undoomed self rs2 s0' Hund) as [F1 [F2 F3]].
  unfold exec at 1, eval. rewrite Hrun2. cbn [fst snd log_more world].
  split; [rewrite F1; reflexivity|].
  eexists. split; [reflexivity|]. rewrite F2, F3. split; reflexivity.
Qed.

(** *** [main] *)

Lemma run_returns_its_stats (self : SwarmJanitor) (s : State) :
  run strftime self s
  = (Ok (stats (exec (run strftime self) s)), exec (run strftime self) s).
Proof.
  destruct (run_as_loop self s) as [stdin' [evs [evs' Hrun]]]. cbn zeta in Hrun.
  unfold exec. rewrite Hrun. reflexivity.
Qed.

Lemma main_sets_force (args : Args) (s : State) :
  (if arg_force args then set_environ_force "1" else ret tt) s
  = (Ok tt, state_before_init args s).
Proof.
  unfold state_before_init, world_of_main, with_environ, set_environ_force, ret.
  destruct (arg_force args); [reflexivity|]. destruct s; reflexivity.
Qed.

Lemma main_closed (args : Args) (s : State) :
  cutoff_representable (clock (world s)) (arg_retention_days args) = true ->
  let janitor := janitor_of_main args (world s) in
  let s' := exec (run strftime janitor) (state_of_main args s) in
  main strftime args s
  = (Ok (mkOutcome (if arg_output_json args then Some (stats s') else None)
                   (if failed (stats s') =? 0 then 0 else 1)),
     s').
Proof.
  intros Hrep. cbn zeta. unfold main.
  unfold bind at 1. rewrite main_sets_force.
  unfold bind at 1. rewrite SwarmJanitor_init_run.
  assert (Hclock : clock (world (state_before_init args s)) = clock (world s))
    by (unfold state_before_init, world_of_main, with_environ;
        destruct (arg_force args); reflexivity).
  rewrite Hclock, Hrep.
  change (mkState (world (state_before_init args s)) (trace (state_before_init args s))
                  initial_stats (mkArchiver 0 0))
    with (state_of_main args s).
  change (mkJanitor _ _ _) with (janitor_of_main args (world s)).
  unfold bind at 1. rewrite run_returns_its_stats. reflexivity.
Qed.

Lemma main_raises (args : Args) (s : State) :
  cutoff_representable (clock (world s)) (arg_retention_days args) = false ->
  main strftime args s = (Raise OverflowError, state_before_init args s).
Proof.
  intros Hrep. unfold main.
  unfold bind at 1. rewrite main_sets_force.
  unfold bind at 1. rewrite SwarmJanitor_init_run.
  assert (Hclock : clock (world (state_before_init args s)) = clock (world s))
    by (unfold state_before_init, world_of_main, with_environ;
        destruct (arg_force args); reflexivity).
  rewrite Hclock, Hrep. reflexivity.
Qed.

(** X15: without [--clean], [main] is a preview whatever the other options
    say: in the world it leaves, the files and the archive store are as
    before, nothing but the environment variable that [--force] sets has
    changed, and no input was read.  When the cutoff can be computed it
    returns exit code 0 with nothing counted as deleted; when it cannot
    (a retention beyond what [timedelta] holds, or a cutoff outside the
    years 1 to 9999) the constructor raises [OverflowError]. *)
Theorem main_defaults_to_preview (args : Args) (s : State) :
  arg_clean args = false ->
  let s' := exec (main strftime args) s in
  world s' = world_of_main args (world s)
  /\ files (world s') = files (world s)
  /\ archive_store (world s') = archive_store (world s)
  /\ stdin (world s') = stdin (world s)
  /\ (cutoff_representable (clock (world s)) (arg_retention_days args) = true ->
      exists outcome,
        eval (main strftime args) s = Ok outcome
        /\ exit_code outcome = 0
        /\ deleted (stats s') = 0)
  /\ (cutoff_representable (clock (world s)) (arg_retention_days args) = false ->
      eval (main strftime args) s = Raise OverflowError).
Proof.
  intros Hclean. cbn zeta. unfold eval, exec.
  destruct (cutoff_representable (clock (world s)) (arg_retention_days args)) eqn:Hrep.
  - rewrite (main_closed args s Hrep). cbn [fst snd].
    destruct (run_preview strftime (janitor_of_main args (world s)) (state_of_main args s))
      as [evs [Hrun _]].
    { right. unfold janitor_of_main; cbn [dry_run]. rewrite Hclean; reflexivity. }
    unfold exec. rewrite Hrun. cbn [snd fst world stats state_of_main exit_code].
    cbn [with_orphaned with_scanned failed deleted initial_stats].
    unfold world_of_main, with_environ.
    destruct (arg_force args); cbn; repeat split; try reflexivity; try discriminate;
      intros _; eexists; repeat split; reflexivity.
  - rewrite (main_raises args s Hrep). cbn [fst snd state_before_init world].
    unfold world_of_main, with_environ.
    destruct (arg_force args); cbn; repeat split; try reflexivity; discriminate.
Qed.

(** X16: [main] ends in one of two ways.  When the cutoff cannot be
    computed, [SessionAnalyzer.__init__] raises [OverflowError] before
    anything is scanned, and nothing but the variable that [--force] sets
    has changed.  Otherwise [main] ends with exit code 0 or 1, the code is
    0 exactly when the run counted no failure, [--output json] prints the
    run's stats and nothing is printed without it; for a confirmed
    [--clean] run the code is 0 exactly when every orphaned record was
    deleted. *)
Theorem main_exit_code_reports_failures (args : Args) (s : State) :
  let st := stats (exec (main strftime args) s) in
  (cutoff_representable (clock (world s)) (arg_retention_days args) = false ->
   eval (main strftime args) s = Raise OverflowError
   /\ exec (main strftime args) s = state_before_init args s)
  /\ (cutoff_representable (clock (world s)) (arg_retention_days args) = true ->
      exists outcome,
        eval (main strftime args) s = Ok outcome
        /\ (exit_code outcome = 0 \/ exit_code outcome = 1)
        /\ (exit_code outcome = 0 <-> failed st = 0)
        /\ printed outcome = (if arg_output_json args then Some st else None)
        /\ (arg_clean args = true ->
            confirms (world_of_main args (world s)) = true ->
            (exit_code outcome = 0 <-> deleted st = orphaned st))).
Proof.
  cbn zeta. split.
  { intros Hrep. unfold eval, exec. rewrite (main_raises args s Hrep). split; reflexivity. }
  intros Hrep.
  unfold eval, exec. rewrite (main_closed args s Hrep). cbn [fst snd].
  eexists. cbn zeta. split; [reflexivity|]. cbn [exit_code printed].
  set (J := janitor_of_main args (world s)).
  set (S0 := state_of_main args s).
  assert (Hcode : (if failed (stats (exec (run strftime J) S0)) =? 0 then 0 else 1) = 0
                  <-> failed (stats (exec (run strftime J) S0)) = 0).
  { destruct (failed (stats (exec (run strftime J) S0)) =? 0) eqn:E.
    - apply Z.eqb_eq in E. tauto.
    - apply Z.eqb_neq in E. split; [discriminate | contradiction]. }
  split; [destruct (failed (stats (exec (run strftime J) S0)) =? 0); auto|].
  split; [exact Hcode|]. split; [reflexivity|].
  intros Hclean Hconf. rewrite Hcode.
  destruct (run_as_loop J S0) as [stdin' [evs [evs' Hrun]]]. cbn zeta in Hrun.
  unfold exec at 1 2 3. rewrite Hrun. cbn [snd log_more stats].
  unfold records_to_process.
  assert (Hd : dry_run J = false) by (unfold J, janitor_of_main; cbn; rewrite Hclean; reflexivity).
  rewrite Hd. unfold S0, state_of_main in *. cbn [world stats trace archiver] in *.
  rewrite Hconf. cbn [negb andb].
  match goal with
  | |- context [exec (for_each ?rs _) ?s0] =>
      destruct (loop_counts J rs s0) as [L1 [_ [_ [_ [_ [_ [_ L8]]]]]]]
  end.
  cbn zeta in L1, L8. cbn [stats with_orphaned with_scanned deleted failed orphaned
                           initial_stats] in L1, L8.
  rewrite L8. lia.
Qed.

(** X17: with [--clean --force] and a cutoff that can be computed, [main]
    sets [SWARM_JANITOR_FORCE] to ["1"] (it stays set afterwards), reads
    nothing from the standard input, and processes every orphaned record of
    the scan, in scan order. *)
Theorem main_force_asks_nothing (args : Args) (s : State) :
  arg_clean args = true ->
  arg_force args = true ->
  cutoff_representable (clock (world s)) (arg_retention_days args) = true ->
  let s' := exec (main strftime args) s in
  let sessions := scan_result (analyzer (janitor_of_main args (world s))) (world s) in
  environ_force (world s') = Some "1"
  /\ stdin (world s') = stdin (world s)
  /\ processed (trace s') = processed (trace s) ++ map path (filter is_orphaned sessions).
Proof.
  intros Hclean Hforce Hrep. cbn zeta. unfold exec. rewrite (main_closed args s Hrep).
  cbn [snd].
  set (J := janitor_of_main args (world s)).
  set (S0 := state_of_main args s).
  assert (Hw : world S0 = with_environ (world s) (Some "1"))
    by (unfold S0, state_of_main, world_of_main; rewrite Hforce; reflexivity).
  assert (Hd : dry_run J = false) by (unfold J, janitor_of_main; cbn; rewrite Hclean; reflexivity).
  assert (Hsig : force_signal (world S0) = true) by (rewrite Hw; reflexivity).
  assert (Hconf : confirms (world S0) = true) by (unfold confirms; rewrite Hsig; reflexivity).
  assert (Hscan : scan_result (analyzer J) (world S0) = scan_result (analyzer J) (world s)).
  { rewrite Hw. unfold scan_result, scanned_records, session_paths, analysis, liveness.
    reflexivity. }
  destruct (filter is_orphaned (scan_result (analyzer J) (world s))) as [|o os] eqn:Horph.
  - destruct (run_preview strftime J S0) as [evs [Hrun Hevs]];
      [left; rewrite Hscan; exact Horph|].
    unfold exec. rewrite Hrun. cbn [snd world trace]. rewrite Hw.
    cbn [environ_force stdin with_environ]. rewrite processed_app, Hevs.
    repeat split; reflexivity.
  - destruct (run_destructive_from J S0 Hd) as [evs [Hevs Hrun]];
      [rewrite Hscan, Horph; discriminate | exact Hconf |].
    cbn zeta in Hrun. rewrite Hscan, Horph in Hrun.
    unfold exec at 1 2 3. rewrite Hrun. cbn [snd log_more world trace].
    match goal with
    | |- context [exec (for_each (o :: os) _) ?s0] =>
        destruct (loop_surroundings J (o :: os) s0) as [_ [_ [_ [_ [He [Hs _]]]]]];
        pose proof (for_each_process_trace strftime J (o :: os) s0) as Ht
    end.
    rewrite He, Hs, processed_app, Ht. cbn [world with_stdin environ_force stdin trace].
    unfold stdin_after_confirm. rewrite Hsig, Hw. cbn [environ_force stdin with_environ].
    rewrite processed_app, Hevs. cbn. rewrite !app_nil_r. repeat split; reflexivity.
Qed.

End Further.

(** *** [cleanup.py] *)

Lemma lookup_remove_none (m q : Path) (l : list (Path * File)) :
  lookup m l = None -> lookup m (remove q l) = None.
Proof.
  intros H. pose proof (exists_file_remove_false m q l) as E.
  unfold exists_file in E. rewrite H in E. specialize (E eq_refl).
  destruct (lookup m (remove q l)); [discriminate | reflexivity].
Qed.

Lemma archived_name_differs (n : string) : n <> ("archived_" ++ n)%string.
Proof.
  intros H. apply (f_equal String.length) in H. rewrite length_append in H.
  change (String.length "archived_") with 9%nat in H. lia.
Qed.

(** X18: [cleanup_sessions] returns normally, having changed nothing, when
    it selects no file.  When it selects at least one it never returns
    normally and never gets past the first one.  When [os.rename] cannot
    move that file (no archive directory: [FileNotFoundError]; the system
    refuses the move: [OSError]) the exception leaves everything as it
    was.  When it can, [archive_session] moves the file, intact, to
    [archived_<name>] in the archive directory, and the [os.remove] that
    follows raises [FileNotFoundError], because it looks for the path that
    was just renamed away; every other file is left where it was. *)
Theorem legacy_cleanup_stops_at_the_first_file (dir adir : string) (s : State)
    (names : list string) (selected : list Path) :
  eval (Legacy.listdir dir) s = Ok names ->
  eval (Legacy.classify dir names []) s = Ok selected ->
  let s' := exec (Legacy.cleanup_sessions dir adir) s in
  let archive_there := existsb (String.eqb adir) (dirs (world s)) in
  (selected = [] -> Legacy.cleanup_sessions dir adir s = (Ok tt, s))
  /\ (forall p rest, selected = p :: rest ->
        (archive_there = false ->
         eval (Legacy.cleanup_sessions dir adir) s = Raise FileNotFoundError /\ s' = s)
        /\ (archive_there = true -> rename_ok (world s) = false ->
            eval (Legacy.cleanup_sessions dir adir) s = Raise OSError /\ s' = s)
        /\ (archive_there = true -> rename_ok (world s) = true ->
            let moved := mkPath adir ("archived_" ++ name p)%string in
            eval (Legacy.cleanup_sessions dir adir) s = Raise FileNotFoundError
            /\ exists f,
                 lookup p (files (world s)) = Some f
                 /\ lookup p (files (world s')) = None
                 /\ lookup moved (files (world s')) = Some f
                 /\ forall q, q <> p -> q <> moved ->
                      lookup q (files (world s')) = lookup q (files (world s)))).
Proof.
  intros Hlist Hsel. cbn zeta.
  assert (Hl : Legacy.listdir dir s = (Ok names, s)).
  { revert Hlist. unfold eval, Legacy.listdir; unfold_m; simpl.
    destruct (existsb (String.eqb dir) (dirs (world s))); simpl;
      [intros H; injection H as <-; reflexivity | discriminate]. }
  assert (Hc : Legacy.classify dir names [] s = (Ok selected, s)).
  { destruct (classify_run dir names [] s) as [Hs _].
    unfold eval in Hsel; unfold exec in Hs.
    destruct (Legacy.classify dir names [] s) as [res st]; simpl in *; subst; reflexivity. }
  assert (Hcl : Legacy.cleanup_sessions dir adir s
                = for_each selected
                    (fun session =>
                       Legacy.archive_session session adir ;; Legacy.os_remove session) s).
  { unfold Legacy.cleanup_sessions. unfold bind at 1. rewrite Hl.
    unfold bind at 1. rewrite Hc. reflexivity. }
  unfold eval, exec. rewrite Hcl. clear Hcl.
  split.
  - intros ->. reflexivity.
  - intros p rest ->.
    destruct (classify_run dir names [] s) as [_ Hfacts].
    destruct (Hfacts _ Hsel p (or_introl eq_refl)) as [[]|[Hparent [Hend [f [Hf _]]]]].
    set (moved := mkPath adir ("archived_" ++ name p)%string).
    assert (Hne : p <> moved).
    { intros H. apply (f_equal name) in H. cbn [name moved] in H.
      exact (archived_name_differs _ H). }
    assert (Hgone : lookup p (remove moved (remove p (files (world s))) ++ [(moved, f)])
                    = None).
    { rewrite lookup_app, lookup_remove_none by apply lookup_remove_eq.
      unfold lookup. rewrite (Path_eqb_neq _ _ Hne). reflexivity. }
    split; [|split].
    + intros Hdir.
      assert (Hrun : for_each (p :: rest)
                       (fun session =>
                          Legacy.archive_session session adir ;; Legacy.os_remove session) s
                     = (Raise FileNotFoundError, s)).
      { cbn [for_each].
        unfold Legacy.archive_session, Legacy.rename, Legacy.os_remove; unfold_m.
        cbn [world parent]. rewrite Hf, Hdir. reflexivity. }
      rewrite Hrun. split; reflexivity.
    + intros Hdir Hmove.
      assert (Hrun : for_each (p :: rest)
                       (fun session =>
                          Legacy.archive_session session adir ;; Legacy.os_remove session) s
                     = (Raise OSError, s)).
      { cbn [for_each].
        unfold Legacy.archive_session, Legacy.rename, Legacy.os_remove; unfold_m.
        cbn [world parent]. rewrite Hf, Hdir, Hmove. reflexivity. }
      rewrite Hrun. split; reflexivity.
    + intros Hdir Hmove.
      assert (Hrun : for_each (p :: rest)
                       (fun session =>
                          Legacy.archive_session session adir ;; Legacy.os_remove session) s
                     = (Raise FileNotFoundError,
                        mkState (with_files (world s)
                                   (remove moved (remove p (files (world s)))
                                    ++ [(moved, f)]))
                                (trace s) (stats s) (archiver s))).
      { cbn [for_each].
        unfold Legacy.archive_session, Legacy.rename, Legacy.os_remove; unfold_m.
        cbn [world parent]. rewrite Hf, Hdir, Hmove. cbn [world files]. fold moved.
        rewrite Hgone. reflexivity. }
      rewrite Hrun. cbn [fst snd world files with_files].
      split; [reflexivity|].
      exists f. split; [exact Hf|]. split; [exact Hgone|]. split.
      * rewrite lookup_app, lookup_remove_eq. unfold lookup.
        rewrite Path_eqb_refl. reflexivity.
      * intros q Hq Hqm. rewrite lookup_app, !lookup_remove_ne by assumption.
        destruct (lookup q (files (world s))); [reflexivity|].
        unfold lookup. rewrite (Path_eqb_neq _ _ Hqm). reflexivity.
Qed.

(** *** The answer that confirms *)

(** X19: the responses that confirm a destructive run are exactly the ones
    made of a single [y] or [Y] with nothing but white space before and
    after it. *)
Theorem affirmative_is_a_lone_y (response : string) :
  affirmative response = true <->
  exists before c after,
    response = (before ++ String c after)%string
    /\ Text.blank before = true /\ Text.blank after = true
    /\ (c = "y"%char \/ c = "Y"%char).
Proof.
  unfold affirmative. rewrite String.eqb_eq, strip_lower. split.
  - intros H.
    destruct (Text.strip response) as [|c [|d rest]] eqn:Hs; try discriminate.
    unfold Text.lower in H. injection H as Hc.
    assert (Hy : c = "y"%char \/ c = "Y"%char).
    { pose proof (lower_char_y c) as E. rewrite Hc in E. simpl in E.
      symmetry in E. apply orb_true_iff in E as [E|E]; apply Ascii.eqb_eq in E; auto. }
    assert (Hsp : Text.isspace c = false) by (destruct Hy as [->| ->]; reflexivity).
    apply (strip_single_iff _ _ Hsp) in Hs as [a [b [-> [Ha Hb]]]].
    exists a, c, b. auto.
  - intros [a [c [b [-> [Ha [Hb Hy]]]]]].
    assert (Hsp : Text.isspace c = false) by (destruct Hy as [->| ->]; reflexivity).
    assert (Hs : Text.strip (a ++ String c b) = String c "")
      by (apply (strip_single_iff _ _ Hsp); eauto).
    rewrite Hs. destruct Hy as [->| ->]; reflexivity.
Qed.

(** ** The further properties on the scenarios *)

(** X2, witness: [a.jsonl] is recorded although [broken.jsonl], listed before
    it, cannot be examined. *)
Lemma scan_finds_every_readable_file_witness :
  let self := three_days in
  let s := stale_and_unreadable in
  let p := a_jsonl in
  let f := plain_file 120 10 "hello" in
  exists sessions r,
    eval (scan_sessions self) s = Ok sessions
    /\ In r sessions
    /\ path r = p /\ size_bytes r = st_size f /\ modified r = st_mtime f.
Proof.
  apply (scan_finds_every_readable_file three_days stale_and_unreadable a_jsonl
           (plain_file 120 10 "hello")); vm_compute; reflexivity.
Defined.

(** X3, witness: [a.jsonl] is one hour old and there is no registry. *)
Lemma no_registry_orphans_every_file_witness :
  let self := three_days in
  let s := one_fresh_file in
  exists sessions,
    eval (scan_sessions self) s = Ok sessions
    /\ forall r, In r sessions ->
         is_orphaned r = true
         /\ reason r = (if modified r <? cutoff_date self
                        then [OlderThan (retention_days self); NoActiveProcess]
                        else [NoActiveProcess]).
Proof.
  apply (no_registry_orphans_every_file three_days one_fresh_file).
  simpl. intros entries H. discriminate H.
Defined.

(** X6, witness: no directory [/sessions]. *)
Lemma missing_directory_is_no_work_witness :
  let self := live_janitor in
  let s := missing_directory in
  scan_sessions (analyzer self) s
  = (Ok [], log_more s [ErrSessionsDirNotFound (sessions_dir (analyzer self))])
  /\ eval (run strftime_digits self) s = Ok (with_orphaned 0 (with_scanned 0 (stats s)))
  /\ world (exec (run strftime_digits self) s) = world s
  /\ archiver (exec (run strftime_digits self) s) = archiver s.
Proof.
  apply (missing_directory_is_no_work strftime_digits live_janitor missing_directory).
  reflexivity.
Defined.

(** X7, witness: the confirmed run over the two old files. *)
Lemma every_orphan_is_counted_once_witness :
  let self := live_janitor in
  let s := two_old_files in
  let sessions := [b_record; a_record] in
  exists st,
    eval (run strftime_digits self) s = Ok st
    /\ scanned st = Z.of_nat (List.length sessions)
    /\ orphaned st = Z.of_nat (List.length (filter is_orphaned sessions))
    /\ deleted st + failed st = orphaned st
    /\ 0 <= deleted st /\ 0 <= failed st
    /\ orphaned st <= scanned st
    /\ 0 <= archived st <= orphaned st
    /\ (archive_enabled self = false -> archived st = 0)
    /\ (archive_enabled self = true -> deleted st <= archived st).
Proof.
  apply (every_orphan_is_counted_once strftime_digits live_janitor two_old_files
           [b_record; a_record]).
  - reflexivity.
  - reflexivity.
  - vm_compute; reflexivity.
  - vm_compute; reflexivity.
Defined.

(** X8, witness: one old file, and the user answers ["n"]. *)
Lemma run_without_consent_changes_nothing_witness :
  let self := live_janitor in
  let s := one_old_file_declined in
  let sessions := [a_record] in
  let s' := exec (run strftime_digits self) s in
  eval (run strftime_digits self) s
  = Ok (with_orphaned (Z.of_nat (List.length (filter is_orphaned sessions)))
          (with_scanned (Z.of_nat (List.length sessions)) (stats s)))
  /\ files (world s') = files (world s)
  /\ archive_store (world s') = archive_store (world s)
  /\ archiver s' = archiver s
  /\ (filter is_orphaned sessions = [] -> world s' = world s)
  /\ (filter is_orphaned sessions <> [] -> stdin (world s') = tl (stdin (world s))).
Proof.
  apply (run_without_consent_changes_nothing strftime_digits live_janitor
           one_old_file_declined [a_record]).
  - reflexivity.
  - vm_compute; reflexivity.
  - right. vm_compute; reflexivity.
Defined.

(** X9, witness: archiving [a.jsonl], whose text is ["hello"]. *)
Lemma archived_entry_is_a_bounded_preview_witness :
  let p := a_jsonl in
  let s := one_old_file in
  let f := plain_file 120 10 "hello" in
  let s' := exec (archive_session strftime_digits p) s in
  let now := clock (world s) in
  let e := mkArchiveEntry (Text.stem (name p)) now p (preview_of (content f)) in
  eval (archive_session strftime_digits p) s = Ok true
  /\ store_get (archive_file_name strftime_digits p now) (archive_store (world s')) = Some e
  /\ (forall k, k <> archive_file_name strftime_digits p now ->
        store_get k (archive_store (world s')) = store_get k (archive_store (world s)))
  /\ (String.length (content_preview e) <= 1000)%nat
  /\ (exists rest, content f = (content_preview e ++ rest)%string)
  /\ ((String.length (content f) <= 1000)%nat -> content_preview e = content f)
  /\ files (world s') = files (world s)
  /\ archived_count (archiver s') = archived_count (archiver s) + 1
  /\ failed_count (archiver s') = failed_count (archiver s).
Proof.
  apply (archived_entry_is_a_bounded_preview strftime_digits a_jsonl one_old_file
           (plain_file 120 10 "hello")); vm_compute; reflexivity.
Defined.

(** X11, witness: a destructive run with archiving disabled over one old
    file. *)
Lemma disabled_archiving_writes_nothing_witness :
  let self := no_archive_janitor in
  let s := one_old_file in
  let s' := exec (run strftime_digits self) s in
  archive_store (world s') = archive_store (world s)
  /\ archiver s' = archiver s
  /\ archived (stats s') = archived (stats s)
  /\ eval (run strftime_digits self) s = Ok (stats s').
Proof.
  apply (disabled_archiving_writes_nothing strftime_digits no_archive_janitor one_old_file).
  reflexivity.
Defined.

(** X12, witness: [a.jsonl] is removed, and its entry is in the store. *)
Lemma removed_transcript_was_archived_witness :
  let self := live_janitor in
  let r := a_record in
  let s := one_old_file in
  let f := plain_file 120 10 "hello" in
  let s' := exec (_process_session strftime_digits self r) s in
  store_get (archive_file_name strftime_digits (path r) (clock (world s)))
            (archive_store (world s'))
  = Some (mkArchiveEntry (Text.stem (name (path r))) (clock (world s)) (path r)
                         (preview_of (content f))).
Proof.
  apply (removed_transcript_was_archived strftime_digits live_janitor a_record one_old_file
           (plain_file 120 10 "hello")); vm_compute; reflexivity.
Defined.

(** X13, witness: [a.jsonl] is counted as deleted and leaves its marker. *)
Lemma deletion_leaves_an_unscanned_marker_witness :
  let self := live_janitor in
  let r := a_record in
  let s := one_old_file in
  let s' := exec (_process_session strftime_digits self r) s in
  let now := clock (world s) in
  let marker := deleted_marker strftime_digits (path r) now in
  exists_file marker (files (world s')) = true
  /\ parent marker = parent (path r)
  /\ (exists_file marker (files (world s)) = false ->
      lookup marker (files (world s')) = Some (mkFile 0 now now "" true true true))
  /\ (forall analyzer s2 sessions r2,
        eval (scan_sessions analyzer) s2 = Ok sessions ->
        In r2 sessions -> path r2 <> marker).
Proof.
  apply (deletion_leaves_an_unscanned_marker strftime_digits live_janitor a_record
           one_old_file).
  vm_compute; reflexivity.
Defined.

(** X14, witness: a second run after the run that removed [a.jsonl]. *)
Lemma second_run_deletes_nothing_witness :
  let self := live_janitor in
  let s := one_old_file in
  let s1 := next_invocation (exec (run strftime_digits self) s) in
  let s2 := exec (run strftime_digits self) s1 in
  files (world s2) = files (world s1)
  /\ exists st,
       eval (run strftime_digits self) s1 = Ok st
       /\ deleted st = 0 /\ space_reclaimed_bytes st = 0.
Proof.
  apply (second_run_deletes_nothing strftime_digits live_janitor one_old_file).
  - reflexivity.
  - vm_compute; reflexivity.
Defined.

(** X15, witness: [--force] without [--clean] over one old file. *)
Lemma main_defaults_to_preview_witness :
  let args := preview_args in
  let s := one_old_file in
  let s' := exec (main strftime_digits args) s in
  world s' = world_of_main args (world s)
  /\ files (world s') = files (world s)
  /\ archive_store (world s') = archive_store (world s)
  /\ stdin (world s') = stdin (world s)
  /\ exists outcome,
       eval (main strftime_digits args) s = Ok outcome
       /\ exit_code outcome = 0
       /\ deleted (stats s') = 0.
Proof.
  destruct (main_defaults_to_preview strftime_digits preview_args one_old_file eq_refl)
    as [H1 [H2 [H3 [H4 [H5 _]]]]].
  exact (conj H1 (conj H2 (conj H3 (conj H4 (H5 eq_refl))))).
Defined.

(** X16, on two command lines: [--clean --force] over the two old files
    ends with exit code 0, and a retention of 1000000 days raises. *)
Lemma main_exit_code_witness :
  (exists outcome,
     eval (main strftime_digits clean_forced) two_old_files = Ok outcome
     /\ exit_code outcome = 0)
  /\ eval (main strftime_digits far_retention) one_old_file = Raise OverflowError.
Proof.
  split.
  - destruct (proj2 (main_exit_code_reports_failures strftime_digits clean_forced
                       two_old_files) eq_refl)
      as [outcome [Hrun [_ [Hcode _]]]].
    exists outcome. split; [exact Hrun|]. apply Hcode. vm_compute. reflexivity.
  - exact (proj1 (proj1 (main_exit_code_reports_failures strftime_digits far_retention
                           one_old_file) eq_refl)).
Defined.

(** X17, witness: [--clean --force] over the two old files, with an answer
    waiting on the standard input. *)
Lemma main_force_asks_nothing_witness :
  let args := clean_forced in
  let s := two_old_files in
  let s' := exec (main strftime_digits args) s in
  let sessions := scan_result (analyzer (janitor_of_main args (world s))) (world s) in
  environ_force (world s') = Some "1"
  /\ stdin (world s') = stdin (world s)
  /\ processed (trace s') = processed (trace s) ++ map path (filter is_orphaned sessions).
Proof.
  apply (main_force_asks_nothing strftime_digits clean_forced two_old_files); reflexivity.
Defined.

(** X18, witness: the legacy script over the 10 days old [a.jsonl], archiving
    into the sessions directory itself: the file is moved and the removal
    raises; where the system refuses the move, nothing changes. *)
Lemma legacy_cleanup_stops_at_the_first_file_witness :
  let s := one_old_file in
  let s' := exec (Legacy.cleanup_sessions "/sessions" "/sessions") s in
  let moved := mkPath "/sessions" "archived_a.jsonl" in
  (eval (Legacy.cleanup_sessions "/sessions" "/sessions") s = Raise FileNotFoundError
   /\ exists f,
        lookup a_jsonl (files (world s)) = Some f
        /\ lookup a_jsonl (files (world s')) = None
        /\ lookup moved (files (world s')) = Some f
        /\ forall q, q <> a_jsonl -> q <> moved ->
             lookup q (files (world s')) = lookup q (files (world s)))
  /\ (eval (Legacy.cleanup_sessions "/sessions" "/sessions") one_old_file_no_move
      = Raise OSError
      /\ exec (Legacy.cleanup_sessions "/sessions" "/sessions") one_old_file_no_move
         = one_old_file_no_move).
Proof.
  split.
  - assert (Hlist : eval (Legacy.listdir "/sessions") one_old_file = Ok ["a.jsonl"])
      by reflexivity.
    assert (Hsel : eval (Legacy.classify "/sessions" ["a.jsonl"] []) one_old_file
                   = Ok [a_jsonl]) by (vm_compute; reflexivity).
    exact (proj2 (proj2 (proj2 (legacy_cleanup_stops_at_the_first_file
                                  "/sessions" "/sessions" one_old_file
                                  ["a.jsonl"] [a_jsonl] Hlist Hsel)
                           a_jsonl [] eq_refl))
             eq_refl eq_refl).
  - assert (Hlist : eval (Legacy.listdir "/sessions") one_old_file_no_move = Ok ["a.jsonl"])
      by reflexivity.
    assert (Hsel : eval (Legacy.classify "/sessions" ["a.jsonl"] []) one_old_file_no_move
                   = Ok [a_jsonl]) by (vm_compute; reflexivity).
    exact (proj1 (proj2 (proj2 (legacy_cleanup_stops_at_the_first_file
                                  "/sessions" "/sessions" one_old_file_no_move
                                  ["a.jsonl"] [a_jsonl] Hlist Hsel)
                           a_jsonl [] eq_refl))
             eq_refl eq_refl).
Defined.

(** X10, on the entry [broken.jsonl], for which [stat] finds no file: it
    is reported missing and no counter moves; the unreadable [a.jsonl] is
    a counted failure. *)
Lemma archiver_counts_witness :
  (eval (archive_session strftime_digits (mkPath "/sessions" "broken.jsonl"))
        stale_and_unreadable = Ok false
   /\ archiver (exec (archive_session strftime_digits (mkPath "/sessions" "broken.jsonl"))
                     stale_and_unreadable)
      = archiver stale_and_unreadable)
  /\ failed_count (archiver (exec (archive_session strftime_digits a_jsonl)
                                  unreadable_then_fine))
     = failed_count (archiver unreadable_then_fine) + 1.
Proof.
  split.
  - apply (proj1 (proj2 (proj2 (archiver_counts_raised_failures_only strftime_digits
                                  (mkPath "/sessions" "broken.jsonl")
                                  stale_and_unreadable)))).
    right. eexists. split; reflexivity.
  - apply (proj1 (proj2 (proj2 (proj2 (archiver_counts_raised_failures_only strftime_digits
                                         a_jsonl unreadable_then_fine))))
             (mkFile 120 (noon - Datetime.days 10) (noon - Datetime.days 10)
                     "hello" true false true)).
    + reflexivity.
    + reflexivity.
    + left. reflexivity.
Defined.
